(** * fileManagerMcpServer: the file-operations layer, embedded and verified

    Source files:
      - src/models/fileModel.py              class FileManager
      - src/controllers/file_controller.py   class FileController

    The embedding follows the Python code statement by statement.  Python
    values are modelled as follows.
      - [str] is a sequence of Unicode code points: [pystr := list Z].
      - [bytes] is a sequence of octets: [bytes := list Z].
      - a resolved [pathlib.Path] is the list of its components below the
        root (POSIX flavour): [path := list pystr].
      - a [dict] literal is an association list in insertion order.
      - an exception is a value of [exn]; a call either returns or raises
        ([outcome]); a mutating call also returns the new world.

    Everything the code obtains from the operating system (stat, open,
    mkdir, rmdir, rglob, ...) is a field of the record [Runtime]; the
    library functions [str.lower], [json.dumps], [json.loads] and
    [datetime.isoformat] are variables of the section that holds the
    methods.  The methods are written once against that interface, so a
    theorem stated for an arbitrary [Runtime] covers every way the platform
    can answer, including permission failures.  [RefFS] below is one
    executable instance: a POSIX style tree stored in a finite map. *)

From stdpp Require Import base tactics option list gmap sorting pretty.
From Stdlib Require Import ZArith Lia String Ascii.

Set Warnings "-register-all".
#[local] Open Scope Z_scope.
#[local] Open Scope list_scope.

(** ** Python strings and bytes *)

Definition pystr := list Z.
Definition bytes := list Z.

(** An ASCII literal of the source as a [pystr]. *)
Definition str (s : string) : pystr :=
  (fun a => Z.of_nat (nat_of_ascii a)) <$> list_ascii_of_string s.
Arguments str : simpl never.

(** [c in s] for a one-character [c]. *)
Definition str_contains_char (c : Z) (s : pystr) : bool :=
  existsb (Z.eqb c) s.

(** [s.startswith(t)] *)
Fixpoint startswith (t s : pystr) : bool :=
  match t, s with
  | [], _ => true
  | _ :: _, [] => false
  | a :: t', b :: s' => (a =? b) && startswith t' s'
  end.

(** [t in s] on strings: [t] occurs in [s] as a contiguous run. *)
Fixpoint str_in (t s : pystr) : bool :=
  startswith t s ||
  match s with
  | [] => false
  | _ :: s' => str_in t s'
  end.

(** [sep.join(parts)] *)
Fixpoint join (sep : pystr) (parts : list pystr) : pystr :=
  match parts with
  | [] => []
  | [p] => p
  | p :: rest => p ++ sep ++ join sep rest
  end.

(** [s.split(sep)] for a one-character separator. *)
Fixpoint split_on (sep : Z) (s : pystr) : list pystr :=
  match s with
  | [] => [[]]
  | c :: s' =>
      if c =? sep then [] :: split_on sep s'
      else match split_on sep s' with
           | [] => [[c]]
           | p :: ps => (c :: p) :: ps
           end
  end.

(** [str(n)] for an integer. *)
Definition str_of_Z (n : Z) : pystr := str (pretty n).

(** [repr(s)] as it appears in messages, for strings that need no escape. *)
Definition repr (s : pystr) : pystr := str "'" ++ s ++ str "'".

(** Lexicographic order on strings by code point: Python's [<] on [str]. *)
Fixpoint str_ltb (a b : pystr) : bool :=
  match a, b with
  | [], [] => false
  | [], _ :: _ => true
  | _ :: _, [] => false
  | x :: a', y :: b' => (x <? y) || ((x =? y) && str_ltb a' b')
  end.

Definition str_leb (a b : pystr) : bool := negb (str_ltb b a).

(** ** Codecs

    The three codecs named by [_safeRead], as the Python library defines
    them (strict error handling). *)

Inductive encoding := utf_8 | latin_1 | cp1252.

(** Code points the UTF-8 codec accepts: scalar values, no surrogates. *)
Definition is_scalar (c : Z) : bool :=
  ((0 <=? c) && (c <? 55296)) || ((57343 <? c) && (c <=? 1114111)).

Definition utf8_encode_cp (c : Z) : bytes :=
  if c <? 128 then [c]
  else if c <? 2048 then [192 + c / 64; 128 + c mod 64]
  else if c <? 65536 then
    [224 + c / 4096; 128 + (c / 64) mod 64; 128 + c mod 64]
  else
    [240 + c / 262144; 128 + (c / 4096) mod 64;
     128 + (c / 64) mod 64; 128 + c mod 64].

(** [s.encode('utf-8')]: [None] stands for UnicodeEncodeError. *)
Fixpoint utf8_encode (s : pystr) : option bytes :=
  match s with
  | [] => Some []
  | c :: s' =>
      if is_scalar c then
        match utf8_encode s' with
        | Some bs => Some (utf8_encode_cp c ++ bs)
        | None => None
        end
      else None
  end.

(** The characters at the head of [s] that UTF-8 refuses. *)
Fixpoint leading_unencodable (s : pystr) : pystr :=
  match s with
  | [] => []
  | c :: s' => if is_scalar c then [] else c :: leading_unencodable s'
  end.

(** The first run of characters that UTF-8 refuses, with the position of
    its first character; [i] is the position of the head of [s].  (A
    Python [str] holds code points up to U+10FFFF only, so the characters
    refused are the surrogates.) *)
Fixpoint unencodable_run (s : pystr) (i : Z) : option (Z * pystr) :=
  match s with
  | [] => None
  | c :: s' =>
      if is_scalar c then unencodable_run s' (i + 1)
      else Some (i, leading_unencodable s)
  end.

(** A hexadecimal digit in lower case, and the four digits of a code
    point below U+10000 as the escape [\uXXXX] prints them. *)
Definition hex_digit (d : Z) : Z := if d <? 10 then 48 + d else 87 + d.

Definition hex4 (c : Z) : pystr :=
  [hex_digit (c / 4096 mod 16); hex_digit (c / 256 mod 16);
   hex_digit (c / 16 mod 16); hex_digit (c mod 16)].

Definition is_cont (b : Z) : bool := (128 <=? b) && (b <=? 191).

(** [bs.decode('utf-8')]: [None] stands for UnicodeDecodeError.  Overlong
    forms, surrogates, values above U+10FFFF and truncated sequences are
    rejected. *)
Fixpoint utf8_decode (bs : bytes) : option pystr :=
  match bs with
  | [] => Some []
  | b0 :: r0 =>
      if (0 <=? b0) && (b0 <? 128) then
        match utf8_decode r0 with Some s => Some (b0 :: s) | None => None end
      else if (192 <=? b0) && (b0 <? 224) then
        match r0 with
        | b1 :: r1 =>
            let c := (b0 - 192) * 64 + (b1 - 128) in
            if is_cont b1 && (128 <=? c) then
              match utf8_decode r1 with Some s => Some (c :: s) | None => None end
            else None
        | _ => None
        end
      else if (224 <=? b0) && (b0 <? 240) then
        match r0 with
        | b1 :: b2 :: r2 =>
            let c := (b0 - 224) * 4096 + (b1 - 128) * 64 + (b2 - 128) in
            if is_cont b1 && is_cont b2 && (2048 <=? c) && is_scalar c then
              match utf8_decode r2 with Some s => Some (c :: s) | None => None end
            else None
        | _ => None
        end
      else if (240 <=? b0) && (b0 <? 248) then
        match r0 with
        | b1 :: b2 :: b3 :: r3 =>
            let c := (b0 - 240) * 262144 + (b1 - 128) * 4096
                     + (b2 - 128) * 64 + (b3 - 128) in
            if is_cont b1 && is_cont b2 && is_cont b3
               && (65536 <=? c) && (c <=? 1114111) then
              match utf8_decode r3 with Some s => Some (c :: s) | None => None end
            else None
        | _ => None
        end
      else None
  end.

(** [bs.decode('latin-1')]: byte [b] is code point [b]; never fails. *)
Definition latin1_decode (bs : bytes) : option pystr := Some bs.

(** The cp1252 table for 0x80..0x9F; five bytes are undefined. *)
Definition cp1252_high : list (option Z) :=
  [Some 8364; None;     Some 8218; Some 402;  Some 8222; Some 8230; Some 8224; Some 8225;
   Some 710;  Some 8240; Some 352;  Some 8249; Some 338;  None;      Some 381;  None;
   None;      Some 8216; Some 8217; Some 8220; Some 8221; Some 8226; Some 8211; Some 8212;
   Some 732;  Some 8482; Some 353;  Some 8250; Some 339;  None;      Some 382;  Some 376].

Definition cp1252_decode_byte (b : Z) : option Z :=
  if (128 <=? b) && (b <? 160)
  then mjoin (cp1252_high !! Z.to_nat (b - 128))
  else Some b.

(** [bs.decode('cp1252')] *)
Fixpoint cp1252_decode (bs : bytes) : option pystr :=
  match bs with
  | [] => Some []
  | b :: r =>
      match cp1252_decode_byte b, cp1252_decode r with
      | Some c, Some s => Some (c :: s)
      | _, _ => None
      end
  end.

Definition bytes_decode (enc : encoding) (bs : bytes) : option pystr :=
  match enc with
  | utf_8 => utf8_decode bs
  | latin_1 => latin1_decode bs
  | cp1252 => cp1252_decode bs
  end.

(** Text mode with [newline=None], reading: "\r\n" and "\r" become "\n". *)
Fixpoint universal_newlines (s : pystr) : pystr :=
  match s with
  | [] => []
  | c :: s' =>
      if c =? 13 then
        10 :: match s' with
              | d :: s'' => if d =? 10 then universal_newlines s''
                            else universal_newlines s'
              | [] => []
              end
      else c :: universal_newlines s'
  end.

(** ** Exceptions, outcomes, values *)

Inductive errno :=
  ENOENT | EACCES | EISDIR | ENOTDIR | EEXIST | ENOTEMPTY | EIO | EOTHER.

(** An [OSError] (or a subclass): its errno and the text of [str(e)]. *)
Record oserror := OSErr { os_errno : errno; os_strerror : pystr }.

(** The exception classes the code can meet; all derive from [Exception]. *)
Inductive exn :=
| OSError (e : oserror)
| UnicodeDecodeError (msg : pystr)
| UnicodeEncodeError (msg : pystr)
| JSONDecodeError (msg : pystr)
| ValueError (msg : pystr)
| TypeError (msg : pystr)
| KeyError (msg : pystr)
| RuntimeError (msg : pystr)
| RecursionError (msg : pystr)
| AttributeError (msg : pystr)
| NotImplementedError (msg : pystr).

(** [str(e)] *)
Definition exn_str (e : exn) : pystr :=
  match e with
  | OSError e => os_strerror e
  | UnicodeDecodeError m | UnicodeEncodeError m | JSONDecodeError m
  | ValueError m | TypeError m | KeyError m | RuntimeError m
  | RecursionError m | AttributeError m | NotImplementedError m => m
  end.

(** [isinstance(e, OSError)], [isinstance(e, UnicodeDecodeError)],
    [isinstance(e, json.JSONDecodeError)] *)
Definition is_OSError (e : exn) : bool :=
  match e with OSError _ => true | _ => false end.
Definition is_UnicodeDecodeError (e : exn) : bool :=
  match e with UnicodeDecodeError _ => true | _ => false end.
Definition is_JSONDecodeError (e : exn) : bool :=
  match e with JSONDecodeError _ => true | _ => false end.
(** [isinstance(e, Exception)]: every class above. *)
Definition is_Exception (e : exn) : bool := true.

Inductive outcome (A : Type) := Return (a : A) | Raise (e : exn).
Arguments Return {A} a.
Arguments Raise {A} e.

Definition returns {A} (o : outcome A) : bool :=
  match o with Return _ => true | Raise _ => false end.

(** A failing system call raises the matching [OSError]. *)
Definition os_call {A} (r : oserror + A) : outcome A :=
  match r with inl e => Raise (OSError e) | inr a => Return a end.

(** Python values that occur in results. *)
Inductive value :=
| VNone
| VBool (b : bool)
| VInt (n : Z)
| VStr (s : pystr)
| VList (l : list value)
| VDict (d : list (pystr * value)).

Definition dict := list (pystr * value).

(** [d.get(k)] *)
Fixpoint dict_get (d : dict) (k : pystr) : option value :=
  match d with
  | [] => None
  | (k', v) :: d' => if decide (k' = k) then Some v else dict_get d' k
  end.

(** [d[k]]: KeyError when the key is missing. *)
Definition dict_getitem (d : dict) (k : pystr) : outcome value :=
  match dict_get d k with
  | Some v => Return v
  | None => Raise (KeyError (repr k))
  end.

Definition dict_keys (d : dict) : list pystr := fst <$> d.

(** [{"success": False, "error": msg}] *)
Definition error_result (msg : pystr) : dict :=
  [(str "success", VBool false); (str "error", VStr msg)].

(** [str(v)] inside an f-string, for the values the controller formats:
    text, numbers and booleans.  The tools never format a list or a dict;
    their text is abbreviated here. *)
Definition value_str (v : value) : pystr :=
  match v with
  | VNone => str "None"
  | VBool true => str "True"
  | VBool false => str "False"
  | VInt n => str_of_Z n
  | VStr s => s
  | VList _ => str "[...]"
  | VDict _ => str "{...}"
  end.

(** Truthiness of a value, as [if v:] and [not v] use it. *)
Definition truthy (v : value) : bool :=
  match v with
  | VNone => false
  | VBool b => b
  | VInt n => negb (n =? 0)
  | VStr s => negb (bool_decide (s = []))
  | VList l => match l with [] => false | _ => true end
  | VDict d => match d with [] => false | _ => true end
  end.

(** ** Paths (pathlib, POSIX flavour) *)

Definition path := list pystr.

(** [p.name]: the last component, [''] for the root. *)
Definition Path_name (p : path) : pystr := List.last p [].

(** [p.parent]: the root is its own parent. *)
Definition Path_parent (p : path) : path := removelast p.

(** [str(p)] *)
Definition Path_str (p : path) : pystr := str "/" ++ join (str "/") p.

(** [name.rfind('.')], [-1] when there is no dot. *)
Fixpoint rfind_dot (name : pystr) (i : Z) (found : Z) : Z :=
  match name with
  | [] => found
  | c :: name' => rfind_dot name' (i + 1) (if c =? 46 then i else found)
  end.

Definition Zlength' (s : pystr) : Z := Z.of_nat (List.length s).

(** [p.suffix]: the text from the last dot of the name, unless that dot
    is the first or the last character. *)
Definition Path_suffix (p : path) : pystr :=
  let name := Path_name p in
  let i := rfind_dot name 0 (-1) in
  if (0 <? i) && (i <? Zlength' name - 1) then drop (Z.to_nat i) name
  else [].

(** Order of sibling paths under [sorted]: component-wise, by code point. *)
Fixpoint path_ltb (p q : path) : bool :=
  match p, q with
  | [], [] => false
  | [], _ :: _ => true
  | _ :: _, [] => false
  | a :: p', b :: q' =>
      str_ltb a b || (bool_decide (a = b) && path_ltb p' q')
  end.

Definition path_le (p q : path) : Prop := path_ltb q p = false.

#[global] Instance path_le_dec (p q : path) : Decision (path_le p q).
Proof. unfold path_le. apply _. Defined.

(** [sorted(paths)] *)
Definition sorted_paths (l : list path) : list path := merge_sort path_le l.

(** ** The platform interface

    What the code asks of the file system.  Queries read the world;
    commands return a new one.  System calls fail with an [oserror];
    [resolve], [rglob] and [rmtree] can raise other classes as well
    (ValueError for an embedded NUL, NotImplementedError for an absolute
    pattern, RecursionError for a tree nested too deep, ...). *)

Record stat_result := Stat { st_size : Z; st_mtime : Z; st_ctime : Z }.

Record Runtime (world : Type) := {
  (* Path(s).resolve() *)
  resolve : world -> pystr -> outcome path;
  (* p.exists(), p.is_dir(), p.is_file(), p.stat() *)
  exists_ : world -> path -> oserror + bool;
  is_dir : world -> path -> oserror + bool;
  is_file : world -> path -> oserror + bool;
  stat : world -> path -> oserror + stat_result;
  (* the bytes of the file at p, as open(p).read() obtains them *)
  read_bytes : world -> path -> oserror + bytes;
  (* list(p.iterdir()) *)
  iterdir : world -> path -> oserror + list path;
  (* list(p.rglob(pattern)) *)
  rglob : world -> path -> pystr -> outcome (list path);
  (* open(p, 'w'): create or truncate, then write these bytes *)
  write_bytes : world -> path -> bytes -> (oserror + unit) * world;
  (* open(p, 'a'): create if missing, then append these bytes *)
  append_bytes : world -> path -> bytes -> (oserror + unit) * world;
  (* p.mkdir(parents=True, exist_ok=True) *)
  mkdir_parents : world -> path -> (oserror + unit) * world;
  (* p.unlink(), p.rmdir() *)
  unlink : world -> path -> (oserror + unit) * world;
  rmdir : world -> path -> (oserror + unit) * world;
  (* shutil.rmtree(p): Python code that walks the tree by recursion *)
  rmtree : world -> path -> outcome unit * world;
  (* shutil.copy2(src, dst), shutil.move(src, dst) *)
  copy2 : world -> path -> path -> (oserror + unit) * world;
  move : world -> path -> path -> (oserror + unit) * world
}.

Arguments resolve {world} _ _ _.
Arguments exists_ {world} _ _ _.
Arguments is_dir {world} _ _ _.
Arguments is_file {world} _ _ _.
Arguments stat {world} _ _ _.
Arguments read_bytes {world} _ _ _.
Arguments iterdir {world} _ _ _.
Arguments rglob {world} _ _ _ _.
Arguments write_bytes {world} _ _ _ _.
Arguments append_bytes {world} _ _ _ _.
Arguments mkdir_parents {world} _ _ _.
Arguments unlink {world} _ _ _.
Arguments rmdir {world} _ _ _.
Arguments rmtree {world} _ _ _.
Arguments copy2 {world} _ _ _ _.
Arguments move {world} _ _ _ _.

(** ** A small monad for code that reads and changes the world and may raise *)

Definition M (world A : Type) : Type := world -> outcome A * world.

Definition ret {world A} (a : A) : M world A := fun w => (Return a, w).
Definition raise {world A} (e : exn) : M world A := fun w => (Raise e, w).

Definition bind {world A B} (m : M world A) (k : A -> M world B) : M world B :=
  fun w => match m w with
           | (Return a, w') => k a w'
           | (Raise e, w') => (Raise e, w')
           end.

(** A query: the world is left as it is. *)
Definition ask {world A} (q : world -> outcome A) : M world A :=
  fun w => (q w, w).

(** A system call that only reads. *)
Definition sys {world A} (q : world -> oserror + A) : M world A :=
  fun w => (os_call (q w), w).

(** A system call that changes the world. *)
Definition cmd {world A} (c : world -> (oserror + A) * world) : M world A :=
  fun w => let '(r, w') := c w in (os_call r, w').

(** [try: body  except C as e: handler(e)], where [handles] decides
    [isinstance(e, C)]. *)
Definition try_except {world A} (body : M world A)
    (handles : exn -> bool) (handler : exn -> M world A) : M world A :=
  fun w => match body w with
           | (Return a, w') => (Return a, w')
           | (Raise e, w') =>
               if handles e then handler e w' else (Raise e, w')
           end.

(** A bare [except:] catches everything. *)
Definition catches_all (e : exn) : bool := true.

Declare Scope py_scope.
Delimit Scope py_scope with py.
Notation "x <- m ;; k" := (bind m (fun x => k))
  (at level 100, m at next level, right associativity) : py_scope.
Notation "m ;;; k" := (bind m (fun _ => k))
  (at level 100, right associativity) : py_scope.
#[local] Open Scope py_scope.

(** ** src/models/fileModel.py: class FileManager *)

Module FileManager.
Section Methods.
Context {world : Type} (R : Runtime world).

(** Library functions the code calls and does not define:
    [s.lower()], [json.dumps(v, indent=2, ensure_ascii=flag)],
    [json.loads(s)], [datetime.fromtimestamp(t).isoformat()]. *)
Variable str_lower : pystr -> pystr.
Variable json_dumps : bool -> value -> outcome pystr.
Variable json_loads : pystr -> outcome value.
Variable isoformat : Z -> pystr.

(** The codec's name as error messages print it.  A UnicodeDecodeError
    never leaves [_safeRead] (its loop catches the class), so its text is
    not observable and the byte offsets are left out of it. *)
Definition codec_name (enc : encoding) : pystr :=
  match enc with
  | utf_8 => str "utf-8"
  | latin_1 => str "latin-1"
  | cp1252 => str "charmap"
  end.

Definition decode_error (enc : encoding) : exn :=
  UnicodeDecodeError (repr (codec_name enc) ++ str " codec can't decode bytes").

(** The UnicodeEncodeError of the UTF-8 encoder, with the text CPython
    gives it: the escaped character and its position when one character
    is refused, the first and last position when a run of several is. *)
Definition encode_error (content : pystr) : exn :=
  UnicodeEncodeError
    (match unencodable_run content 0 with
     | Some (i, [c]) =>
         str "'utf-8' codec can't encode character '\u" ++ hex4 c
         ++ str "' in position " ++ str_of_Z i
         ++ str ": surrogates not allowed"
     | Some (i, run) =>
         str "'utf-8' codec can't encode characters in position "
         ++ str_of_Z i ++ str "-" ++ str_of_Z (i + Zlength' run - 1)
         ++ str ": surrogates not allowed"
     | None => str "surrogates not allowed"
     end).

(** [content.encode('utf-8')] *)
Definition str_encode_utf8 (content : pystr) : outcome bytes :=
  match utf8_encode content with
  | Some bs => Return bs
  | None => Raise (encode_error content)
  end.

(** [p.read_text(encoding=enc)]: open, read, decode, translate newlines. *)
Definition Path_read_text (w : world) (p : path) (enc : encoding)
    : outcome pystr :=
  match read_bytes R w p with
  | inl e => Raise (OSError e)
  | inr bs =>
      match bytes_decode enc bs with
      | Some s => Return (universal_newlines s)
      | None => Raise (decode_error enc)
      end
  end.

(** [p.write_text(content, encoding='utf-8')]: the file is opened (created
    or truncated) before the text is encoded, so an encoding failure leaves
    it empty.  On POSIX, writing translates no newline. *)
Definition Path_write_text (p : path) (content : pystr) : M world unit :=
  match utf8_encode content with
  | Some bs => cmd (fun w => write_bytes R w p bs)
  | None =>
      cmd (fun w => write_bytes R w p []) ;;; raise (encode_error content)
  end.

(** [with open(p, 'a', encoding='utf-8') as f: f.write(content)] *)
Definition open_append_write (p : path) (content : pystr) : M world unit :=
  match utf8_encode content with
  | Some bs => cmd (fun w => append_bytes R w p bs)
  | None =>
      cmd (fun w => append_bytes R w p []) ;;; raise (encode_error content)
  end.

(** *** _safeRead (lines 11-18)

    The loop returns, beside its result, the encodings it tried, in
    order.  [None] as result means the loop ran off its end. *)
Definition encodings : list encoding := [utf_8; latin_1; cp1252].

Fixpoint _safeRead_loop (w : world) (filePath : path)
    (encs : list encoding) : list encoding * option (outcome pystr) :=
  match encs with
  | [] => ([], None)
  | encoding :: rest =>
      match Path_read_text w filePath encoding with
      | Return s => ([encoding], Some (Return s))
      | Raise e =>
          if is_UnicodeDecodeError e then
            let '(tried, r) := _safeRead_loop w filePath rest in
            (encoding :: tried, r)
          else ([encoding], Some (Raise e))
      end
  end.

(** The [raise UnicodeDecodeError(msg)] after the loop passes one argument
    to a constructor that takes five: what is raised is a TypeError. *)
Definition _safeRead (w : world) (filePath : path) : outcome pystr :=
  match snd (_safeRead_loop w filePath encodings) with
  | Some r => r
  | None => Raise (TypeError (str "function takes exactly 5 arguments (1 given)"))
  end.

Definition _safeRead_attempts (w : world) (filePath : path) : list encoding :=
  fst (_safeRead_loop w filePath encodings).

(** *** readFile (lines 20-29) *)
Definition readFile (filePath : pystr) : M world dict :=
  targetPath <- ask (fun w => resolve R w filePath) ;;
  ex <- sys (fun w => exists_ R w targetPath) ;;
  if negb ex then
    ret (error_result (str "File does not exist: " ++ filePath))
  else
    try_except
      (content <- ask (fun w => _safeRead w targetPath) ;;
       bs <- ask (fun _ => str_encode_utf8 content) ;;
       ret [(str "success", VBool true);
            (str "content", VStr content);
            (str "size", VInt (Zlength' bs))])
      is_Exception
      (fun e => ret (error_result (exn_str e))).

(** *** writeFile (lines 31-43) *)
Definition writeFile (filePath content : pystr) (overwrite : bool)
    : M world dict :=
  targetPath <- ask (fun w => resolve R w filePath) ;;
  ex <- sys (fun w => exists_ R w targetPath) ;;
  if ex && negb overwrite then
    ret (error_result (str "File exists and overwrite=False: " ++ filePath))
  else
    try_except
      (cmd (fun w => mkdir_parents R w (Path_parent targetPath)) ;;;
       Path_write_text targetPath content ;;;
       bs <- ask (fun _ => str_encode_utf8 content) ;;
       ret [(str "success", VBool true);
            (str "bytesWritten", VInt (Zlength' bs));
            (str "path", VStr (Path_str targetPath))])
      is_Exception
      (fun e => ret (error_result (exn_str e))).

(** *** appendFile (lines 45-55) *)
Definition appendFile (filePath content : pystr) : M world dict :=
  targetPath <- ask (fun w => resolve R w filePath) ;;
  try_except
    (cmd (fun w => mkdir_parents R w (Path_parent targetPath)) ;;;
     open_append_write targetPath content ;;;
     bs <- ask (fun _ => str_encode_utf8 content) ;;
     ret [(str "success", VBool true);
          (str "bytesAppended", VInt (Zlength' bs));
          (str "path", VStr (Path_str targetPath))])
    is_Exception
    (fun e => ret (error_result (exn_str e))).

(** *** deleteFile (lines 57-70) *)
Definition deleteFile (filePath : pystr) : M world dict :=
  targetPath <- ask (fun w => resolve R w filePath) ;;
  ex <- sys (fun w => exists_ R w targetPath) ;;
  if negb ex then
    ret (error_result (str "File does not exist: " ++ filePath))
  else
    d <- sys (fun w => is_dir R w targetPath) ;;
    if d then
      ret (error_result (str "Use deleteFolder for directories: " ++ filePath))
    else
      try_except
        (cmd (fun w => unlink R w targetPath) ;;;
         ret [(str "success", VBool true);
              (str "deleted", VStr (Path_str targetPath))])
        is_Exception
        (fun e => ret (error_result (exn_str e))).

(** *** copyFile (lines 72-84) *)
Definition copyFile (sourcePath destPath : pystr) : M world dict :=
  source <- ask (fun w => resolve R w sourcePath) ;;
  dest <- ask (fun w => resolve R w destPath) ;;
  ex <- sys (fun w => exists_ R w source) ;;
  if negb ex then
    ret (error_result (str "Source file does not exist: " ++ sourcePath))
  else
    try_except
      (cmd (fun w => mkdir_parents R w (Path_parent dest)) ;;;
       cmd (fun w => copy2 R w source dest) ;;;
       ret [(str "success", VBool true);
            (str "copiedFrom", VStr (Path_str source));
            (str "copiedTo", VStr (Path_str dest))])
      is_Exception
      (fun e => ret (error_result (exn_str e))).

(** *** moveFile (lines 86-98) *)
Definition moveFile (sourcePath destPath : pystr) : M world dict :=
  source <- ask (fun w => resolve R w sourcePath) ;;
  dest <- ask (fun w => resolve R w destPath) ;;
  ex <- sys (fun w => exists_ R w source) ;;
  if negb ex then
    ret (error_result (str "Source file does not exist: " ++ sourcePath))
  else
    try_except
      (cmd (fun w => mkdir_parents R w (Path_parent dest)) ;;;
       cmd (fun w => move R w source dest) ;;;
       ret [(str "success", VBool true);
            (str "movedFrom", VStr (Path_str source));
            (str "movedTo", VStr (Path_str dest))])
      is_Exception
      (fun e => ret (error_result (exn_str e))).

(** *** getFileInfo (lines 100-119) *)
Definition getFileInfo (filePath : pystr) : M world dict :=
  targetPath <- ask (fun w => resolve R w filePath) ;;
  ex <- sys (fun w => exists_ R w targetPath) ;;
  if negb ex then
    ret (error_result (str "File does not exist: " ++ filePath))
  else
    try_except
      (st <- sys (fun w => stat R w targetPath) ;;
       d <- sys (fun w => is_dir R w targetPath) ;;
       f <- sys (fun w => is_file R w targetPath) ;;
       ret [(str "success", VBool true);
            (str "path", VStr (Path_str targetPath));
            (str "size", VInt (st_size st));
            (str "modified", VStr (isoformat (st_mtime st)));
            (str "created", VStr (isoformat (st_ctime st)));
            (str "isDir", VBool d);
            (str "isFile", VBool f);
            (str "extension", VStr (Path_suffix targetPath))])
      is_Exception
      (fun e => ret (error_result (exn_str e))).

(** *** writeJsonFile (lines 121-126) *)
Definition writeJsonFile (filePath : pystr) (data : value)
    (overwrite : bool) : M world dict :=
  try_except
    (jsonContent <- ask (fun _ => json_dumps false data) ;;
     writeFile filePath jsonContent overwrite)
    is_Exception
    (fun e => ret (error_result (str "Failed to serialize JSON: " ++ exn_str e))).

(** [json.loads(v)]: only text can be parsed. *)
Definition json_loads_value (v : value) : outcome value :=
  match v with
  | VStr s => json_loads s
  | _ => Raise (TypeError (str "the JSON object must be str, bytes or bytearray"))
  end.

(** *** readJsonFile (lines 128-137) *)
Definition readJsonFile (filePath : pystr) : M world dict :=
  result <- readFile filePath ;;
  ok <- ask (fun _ => dict_getitem result (str "success")) ;;
  if negb (truthy ok) then ret result
  else
    try_except
      (content <- ask (fun _ => dict_getitem result (str "content")) ;;
       data <- ask (fun _ => json_loads_value content) ;;
       ret [(str "success", VBool true); (str "data", data)])
      is_JSONDecodeError
      (fun e => ret (error_result (str "Invalid JSON: " ++ exn_str e))).

(** *** listDirectory (lines 139-158) *)
Definition type_tag (d : bool) : pystr := if d then str "dir" else str "file".

(** [m.stat().st_size if m.is_file() else 0] *)
Definition size_if_file (m : path) : M world Z :=
  f <- sys (fun w => is_file R w m) ;;
  if f then (st <- sys (fun w => stat R w m) ;; ret (st_size st))
  else ret 0.

Fixpoint listDirectory_loop (entries : list path) (items : list value)
    : M world (list value) :=
  match entries with
  | [] => ret items
  | item :: rest =>
      d <- sys (fun w => is_dir R w item) ;;
      size <- size_if_file item ;;
      let itemInfo :=
        [(str "name", VStr (Path_name item));
         (str "type", VStr (type_tag d));
         (str "size", VInt size);
         (str "path", VStr (Path_str item))] in
      listDirectory_loop rest (items ++ [VDict itemInfo])
  end.

Definition listDirectory (path_ : pystr) : M world dict :=
  targetPath <- ask (fun w => resolve R w path_) ;;
  ex <- sys (fun w => exists_ R w targetPath) ;;
  if negb ex then
    ret (error_result (str "Path does not exist: " ++ path_))
  else
    try_except
      (entries <- sys (fun w => iterdir R w targetPath) ;;
       items <- listDirectory_loop (sorted_paths entries) [] ;;
       ret [(str "success", VBool true);
            (str "items", VList items);
            (str "count", VInt (Z.of_nat (List.length items)))])
      is_Exception
      (fun e => ret (error_result (exn_str e))).

(** *** createFolder (lines 160-167) *)
Definition createFolder (folderPath : pystr) : M world dict :=
  targetPath <- ask (fun w => resolve R w folderPath) ;;
  try_except
    (cmd (fun w => mkdir_parents R w targetPath) ;;;
     ret [(str "success", VBool true);
          (str "created", VStr (Path_str targetPath))])
    is_Exception
    (fun e => ret (error_result (exn_str e))).

(** *** deleteFolder (lines 169-188) *)
Definition deleteFolder (folderPath : pystr) (recursive : bool)
    : M world dict :=
  targetPath <- ask (fun w => resolve R w folderPath) ;;
  ex <- sys (fun w => exists_ R w targetPath) ;;
  if negb ex then
    ret (error_result (str "Folder does not exist: " ++ folderPath))
  else
    d <- sys (fun w => is_dir R w targetPath) ;;
    if negb d then
      ret (error_result (str "Not a directory: " ++ folderPath))
    else
      try_except
        (if recursive then
           (fun w => rmtree R w targetPath) ;;;
           ret [(str "success", VBool true);
                (str "deleted", VStr (Path_str targetPath));
                (str "recursive", VBool true)]
         else
           cmd (fun w => rmdir R w targetPath) ;;;
           ret [(str "success", VBool true);
                (str "deleted", VStr (Path_str targetPath));
                (str "recursive", VBool false)])
        is_OSError
        (fun e =>
           if negb recursive then
             still <- sys (fun w => exists_ R w targetPath) ;;
             if still then
               ret (error_result (str "Directory not empty: " ++ folderPath))
             else ret (error_result (exn_str e))
           else ret (error_result (exn_str e))).

(** *** findFiles (lines 190-209) *)
Fixpoint findFiles_loop (matches : list path) (results : list value)
    : M world (list value) :=
  match matches with
  | [] => ret results
  | m :: rest =>
      d <- sys (fun w => is_dir R w m) ;;
      size <- size_if_file m ;;
      findFiles_loop rest
        (results ++ [VDict [(str "path", VStr (Path_str m));
                            (str "name", VStr (Path_name m));
                            (str "type", VStr (type_tag d));
                            (str "size", VInt size)]])
  end.

Definition findFiles (pattern path_ : pystr) : M world dict :=
  targetPath <- ask (fun w => resolve R w path_) ;;
  ex <- sys (fun w => exists_ R w targetPath) ;;
  if negb ex then
    ret (error_result (str "Path does not exist: " ++ path_))
  else
    try_except
      (matches <- ask (fun w => rglob R w targetPath pattern) ;;
       results <- findFiles_loop matches [] ;;
       ret [(str "success", VBool true);
            (str "matches", VList results);
            (str "count", VInt (Z.of_nat (List.length results)))])
      is_Exception
      (fun e => ret (error_result (exn_str e))).

(** *** searchInFiles (lines 211-234) *)
Definition term_in (searchTerm content : pystr) : bool :=
  str_in (str_lower searchTerm) (str_lower content).

Fixpoint searchInFiles_loop (searchTerm : pystr) (files : list path)
    (matches : list value) : M world (list value) :=
  match files with
  | [] => ret matches
  | filePath :: rest =>
      f <- sys (fun w => is_file R w filePath) ;;
      if f then
        matches' <-
          try_except
            (content <- ask (fun w => _safeRead w filePath) ;;
             if term_in searchTerm content then
               ret (matches ++ [VDict [(str "file", VStr (Path_str filePath));
                                       (str "name", VStr (Path_name filePath))]])
             else ret matches)
            catches_all
            (fun _ => ret matches) ;;
        searchInFiles_loop searchTerm rest matches'
      else searchInFiles_loop searchTerm rest matches
  end.

Definition searchInFiles (searchTerm filePattern path_ : pystr)
    : M world dict :=
  targetPath <- ask (fun w => resolve R w path_) ;;
  ex <- sys (fun w => exists_ R w targetPath) ;;
  if negb ex then
    ret (error_result (str "Path does not exist: " ++ path_))
  else
    try_except
      (files <- ask (fun w => rglob R w targetPath filePattern) ;;
       matches <- searchInFiles_loop searchTerm files [] ;;
       ret [(str "success", VBool true);
            (str "files", VList matches);
            (str "count", VInt (Z.of_nat (List.length matches)))])
      is_Exception
      (fun e => ret (error_result (exn_str e))).

End Methods.
End FileManager.

(** ** src/controllers/file_controller.py: the tools of FileController

    Each tool calls one method of [FileManager] and formats its result.
    No tool has a [try]: what the method or the formatting raises leaves
    the tool. *)

(** [v[k]] for a value that should be a dict. *)
Definition getitem (v : value) (k : pystr) : outcome value :=
  match v with
  | VDict d => dict_getitem d k
  | _ => Raise (TypeError (str "object is not subscriptable"))
  end.

(** [s.ljust(n)] and [s.rjust(n)]: the format specs [:<n] and [:>n]. *)
Definition ljust (n : nat) (s : pystr) : pystr :=
  s ++ replicate (n - List.length s) 32.
Definition rjust (n : nat) (s : pystr) : pystr :=
  replicate (n - List.length s) 32 ++ s.

(** [v.split('T')[0]] *)
Definition split_T_first (v : value) : outcome pystr :=
  match v with
  | VStr s => Return (List.hd [] (split_on 84 s))
  | _ => Raise (AttributeError (str "object has no attribute 'split'"))
  end.

(** ["\n".join(vs)]: every element must be a [str]. *)
Fixpoint join_lines (vs : list value) : outcome (list pystr) :=
  match vs with
  | [] => Return []
  | VStr s :: rest =>
      match join_lines rest with
      | Return l => Return (s :: l)
      | Raise e => Raise e
      end
  | _ :: _ => Raise (TypeError (str "sequence item: expected str instance"))
  end.

Definition newline_join (vs : list value) : outcome value :=
  match join_lines vs with
  | Return l => Return (VStr (join [10] l))
  | Raise e => Raise e
  end.

(** Iterating over a value that should be a list. *)
Definition as_list (v : value) : outcome (list value) :=
  match v with
  | VList l => Return l
  | _ => Raise (TypeError (str "object is not iterable"))
  end.

Module FileController.
Section Tools.
Context {world : Type} (R : Runtime world).
Variable str_lower : pystr -> pystr.
Variable json_dumps : bool -> value -> outcome pystr.
Variable json_loads : pystr -> outcome value.
Variable isoformat : Z -> pystr.

(** [x = result[k]] *)
Definition item (result : dict) (k : string) : M world value :=
  ask (fun _ => dict_getitem result (str k)).

(** The shape shared by most tools: on success a formatted line, else
    [result["error"]]. *)
Definition on_success (result : dict) (line : M world value)
    : M world value :=
  ok <- item result "success" ;;
  if truthy ok then line else item result "error".

(** *** readFile (lines 35-45) *)
Definition readFile (filePath : pystr) : M world value :=
  result <- FileManager.readFile R filePath ;;
  ret (default
         (default (VStr (str "An unknown error occurred."))
                  (dict_get result (str "error")))
         (dict_get result (str "content"))).

(** *** writeFile (lines 47-61) *)
Definition writeFile (filePath content : pystr) (overwrite : bool)
    : M world value :=
  result <- FileManager.writeFile R filePath content overwrite ;;
  on_success result
    (n <- item result "bytesWritten" ;;
     p <- item result "path" ;;
     ret (VStr (str "Successfully wrote " ++ value_str n
                ++ str " bytes to " ++ value_str p))).

(** *** appendFile (lines 63-75) *)
Definition appendFile (filePath content : pystr) : M world value :=
  result <- FileManager.appendFile R filePath content ;;
  on_success result
    (n <- item result "bytesAppended" ;;
     p <- item result "path" ;;
     ret (VStr (str "Successfully appended " ++ value_str n
                ++ str " bytes to " ++ value_str p))).

(** *** deleteFile (lines 77-89) *)
Definition deleteFile (filePath : pystr) : M world value :=
  result <- FileManager.deleteFile R filePath ;;
  on_success result
    (p <- item result "deleted" ;;
     ret (VStr (str "Successfully deleted file: " ++ value_str p))).

(** *** copyFile (lines 91-104) *)
Definition copyFile (sourcePath destPath : pystr) : M world value :=
  result <- FileManager.copyFile R sourcePath destPath ;;
  on_success result
    (a <- item result "copiedFrom" ;;
     b <- item result "copiedTo" ;;
     ret (VStr (str "Successfully copied " ++ value_str a
                ++ str " to " ++ value_str b))).

(** *** moveFile (lines 106-119) *)
Definition moveFile (sourcePath destPath : pystr) : M world value :=
  result <- FileManager.moveFile R sourcePath destPath ;;
  on_success result
    (a <- item result "movedFrom" ;;
     b <- item result "movedTo" ;;
     ret (VStr (str "Successfully moved " ++ value_str a
                ++ str " to " ++ value_str b))).

(** *** getFileInfo (lines 121-134) *)
Definition getFileInfo (path_ : pystr) : M world value :=
  result <- FileManager.getFileInfo R isoformat path_ ;;
  on_success result
    (let info := filter (fun kv => kv.1 <> str "success") result in
     text <- ask (fun _ => json_dumps true (VDict info)) ;;
     ret (VStr text)).

(** *** writeJsonFile (lines 136-150) *)
Definition writeJsonFile (filePath : pystr) (data : value)
    (overwrite : bool) : M world value :=
  result <- FileManager.writeJsonFile R json_dumps filePath data overwrite ;;
  on_success result
    (p <- item result "path" ;;
     n <- item result "bytesWritten" ;;
     ret (VStr (str "Successfully wrote JSON data to " ++ value_str p
                ++ str " (" ++ value_str n ++ str " bytes)"))).

(** *** readJsonFile (lines 152-164) *)
Definition readJsonFile (filePath : pystr) : M world value :=
  result <- FileManager.readJsonFile R json_loads filePath ;;
  on_success result
    (text <- ask (fun _ =>
               json_dumps true (default VNone (dict_get result (str "data")))) ;;
     ret (VStr text)).

(** *** listDirectory (lines 166-186) *)
Definition listDirectory_header : list pystr :=
  [ljust 5 (str "Type") ++ str " " ++ rjust 10 (str "Size") ++ str " "
     ++ ljust 20 (str "Modified") ++ str " " ++ str "Name";
   ljust 5 (replicate 4 45) ++ str " " ++ rjust 10 (replicate 10 45)
     ++ str " " ++ ljust 20 (replicate 19 45) ++ str " " ++ replicate 4 45].

Definition listDirectory_line (it : value) : outcome pystr :=
  match getitem it (str "size") with
  | Raise e => Raise e
  | Return size =>
      let size_str := value_str size in
      match getitem it (str "type") with
      | Raise e => Raise e
      | Return ty =>
          match getitem it (str "modified") with
          | Raise e => Raise e
          | Return modified =>
              match split_T_first modified with
              | Raise e => Raise e
              | Return day =>
                  match getitem it (str "name") with
                  | Raise e => Raise e
                  | Return name =>
                      Return (ljust 5 (value_str ty) ++ str " "
                              ++ rjust 10 size_str ++ str " "
                              ++ ljust 20 day ++ str " " ++ value_str name)
                  end
              end
          end
      end
  end.

Fixpoint listDirectory_lines (items : list value) (lines : list pystr)
    : outcome (list pystr) :=
  match items with
  | [] => Return lines
  | it :: rest =>
      match listDirectory_line it with
      | Return l => listDirectory_lines rest (lines ++ [l])
      | Raise e => Raise e
      end
  end.

Definition listDirectory (path_ : pystr) : M world value :=
  result <- FileManager.listDirectory R path_ ;;
  on_success result
    (items <- item result "items" ;;
     if negb (truthy items) then
       ret (VStr (str "Directory is empty: " ++ path_))
     else
       l <- ask (fun _ => as_list items) ;;
       lines <- ask (fun _ => listDirectory_lines l listDirectory_header) ;;
       ret (VStr (join [10] lines))).

(** *** createFolder (lines 188-199) *)
Definition createFolder (folderPath : pystr) : M world value :=
  result <- FileManager.createFolder R folderPath ;;
  on_success result
    (p <- item result "created" ;;
     ret (VStr (str "Successfully created folder: " ++ value_str p))).

(** *** deleteFolder (lines 201-214) *)
Definition deleteFolder (folderPath : pystr) (recursive : bool)
    : M world value :=
  result <- FileManager.deleteFolder R folderPath recursive ;;
  on_success result
    (p <- item result "deleted" ;;
     r <- item result "recursive" ;;
     ret (VStr (str "Successfully deleted folder: " ++ value_str p
                ++ str " (recursive: " ++ value_str r ++ str ")"))).

(** [[f"{m[key]}" for m in ms]] *)
Fixpoint field_of_each (key : pystr) (ms : list value)
    : outcome (list value) :=
  match ms with
  | [] => Return []
  | m :: rest =>
      match getitem m key with
      | Raise e => Raise e
      | Return v =>
          match field_of_each key rest with
          | Return l => Return (v :: l)
          | Raise e => Raise e
          end
      end
  end.

(** *** findFiles (lines 216-230) *)
Definition findFiles (pattern path_ : pystr) : M world value :=
  result <- FileManager.findFiles R pattern path_ ;;
  on_success result
    (ms <- item result "matches" ;;
     if negb (truthy ms) then
       ret (VStr (str "No files found matching pattern '" ++ pattern
                  ++ str "' in path '" ++ path_ ++ str "'"))
     else
       l <- ask (fun _ => as_list ms) ;;
       vs <- ask (fun _ => field_of_each (str "path") l) ;;
       ask (fun _ => newline_join ((fun v => VStr (value_str v)) <$> vs))).

(** *** searchInFiles (lines 232-247) *)
Definition searchInFiles (searchTerm filePattern path_ : pystr)
    : M world value :=
  result <- FileManager.searchInFiles R str_lower searchTerm filePattern path_ ;;
  on_success result
    (ms <- item result "files" ;;
     if negb (truthy ms) then
       ret (VStr (str "Search term '" ++ searchTerm
                  ++ str "' not found in any files matching '" ++ filePattern
                  ++ str "' in path '" ++ path_ ++ str "'"))
     else
       l <- ask (fun _ => as_list ms) ;;
       vs <- ask (fun _ => field_of_each (str "file") l) ;;
       ask (fun _ => newline_join vs)).

End Tools.
End FileController.

(** ** A reference platform

    An executable [Runtime]: a POSIX style tree kept in a finite map from
    resolved paths to nodes, with a working directory, a clock, and the
    depth of recursion left to the interpreter.  It has regular files and
    directories only (no symbolic links, no devices), and no call is
    refused for lack of permission or because a name is too long: calls
    fail for structural reasons only (missing entry, file where a
    directory is needed, directory where a file is needed, directory not
    empty, working directory removed, tree nested deeper than the
    recursion limit allows).  Refusals of the other kind are covered by
    the theorems stated for an arbitrary [Runtime]. *)

Module RefFS.

Inductive node :=
| File (data : bytes) (mtime : Z)
| Dir (mtime : Z).

(** [recursion_limit]: how many levels of directories a recursive walk
    can descend before the interpreter raises RecursionError. *)
Record fs := Fs {
  nodes : gmap path node;
  cwd : path;
  clock : Z;
  recursion_limit : nat
}.

Definition set_nodes (w : fs) (m : gmap path node) : fs :=
  {| nodes := m; cwd := cwd w; clock := clock w + 1;
     recursion_limit := recursion_limit w |}.

Definition err (e : errno) (text : string) (p : path) : oserror :=
  OSErr e (str text ++ str ": " ++ repr (Path_str p)).

Definition enoent := err ENOENT "[Errno 2] No such file or directory".
Definition eisdir := err EISDIR "[Errno 21] Is a directory".
Definition enotdir := err ENOTDIR "[Errno 20] Not a directory".
Definition eexist := err EEXIST "[Errno 17] File exists".
Definition enotempty := err ENOTEMPTY "[Errno 39] Directory not empty".

(** Some directory on the way to [p] is in fact a regular file. *)
Fixpoint has_file_ancestor (w : fs) (above below : path) : bool :=
  match below with
  | [] => false
  | c :: below' =>
      match nodes w !! above with
      | Some (File _ _) => true
      | _ => false
      end
      || has_file_ancestor w (above ++ [c]) below'
  end.

(** The error for a path that cannot be reached: ENOTDIR when the way
    leads through a regular file, ENOENT otherwise. *)
Definition unreachable (w : fs) (p : path) : oserror :=
  if has_file_ancestor w [] p then enotdir p else enoent p.

(** One step of path normalisation: [''] and ['.'] are dropped, ['..']
    goes up (the root is its own parent). *)
Definition step (acc : path) (c : pystr) : path :=
  if bool_decide (c = []) || bool_decide (c = str ".") then acc
  else if bool_decide (c = str "..") then removelast acc
  else acc ++ [c].

Definition is_dir_b (w : fs) (p : path) : bool :=
  match nodes w !! p with Some (Dir _) => true | _ => false end.

(** [os.getcwd()] when the working directory has been removed. *)
Definition getcwd_error : oserror :=
  OSErr ENOENT (str "[Errno 2] No such file or directory").

(** [Path(s).resolve()]: an embedded NUL raises ValueError; an absolute
    path is normalised; a relative path is taken from the working
    directory, and raises FileNotFoundError when that directory is no
    longer there. *)
Definition resolve (w : fs) (s : pystr) : outcome path :=
  if str_contains_char 0 s then Raise (ValueError (str "embedded null byte"))
  else if startswith (str "/") s then
    Return (fold_left step (split_on 47 s) [])
  else if is_dir_b w (cwd w) then
    Return (fold_left step (split_on 47 s) (cwd w))
  else Raise (OSError getcwd_error).

Definition exists_ (w : fs) (p : path) : oserror + bool :=
  inr (match nodes w !! p with Some _ => true | None => false end).

Definition is_dir (w : fs) (p : path) : oserror + bool :=
  inr (match nodes w !! p with Some (Dir _) => true | _ => false end).

Definition is_file (w : fs) (p : path) : oserror + bool :=
  inr (match nodes w !! p with Some (File _ _) => true | _ => false end).

Definition stat (w : fs) (p : path) : oserror + stat_result :=
  match nodes w !! p with
  | None => inl (unreachable w p)
  | Some (File data t) => inr (Stat (Zlength' data) t t)
  | Some (Dir t) => inr (Stat 4096 t t)
  end.

Definition read_bytes (w : fs) (p : path) : oserror + bytes :=
  match nodes w !! p with
  | None => inl (unreachable w p)
  | Some (Dir _) => inl (eisdir p)
  | Some (File data _) => inr data
  end.

(** [q] is an entry of directory [p]. *)
Definition is_child (p q : path) : bool :=
  bool_decide (q <> [] /\ Path_parent q = p).

Definition children (w : fs) (p : path) : list path :=
  filter (fun q => is_child p q = true) (fst <$> map_to_list (nodes w)).

Definition iterdir (w : fs) (p : path) : oserror + list path :=
  match nodes w !! p with
  | None => inl (unreachable w p)
  | Some (File _ _) => inl (enotdir p)
  | Some (Dir _) => inr (children w p)
  end.

(** Creating or replacing the file at [p] needs [p]'s parent directory. *)
Definition put_file (w : fs) (p : path) (f : bytes -> bytes)
    : (oserror + unit) * fs :=
  match nodes w !! p with
  | Some (Dir _) => (inl (eisdir p), w)
  | Some (File old _) =>
      (inr tt, set_nodes w (<[p := File (f old) (clock w)]> (nodes w)))
  | None =>
      match nodes w !! Path_parent p with
      | Some (Dir _) =>
          (inr tt, set_nodes w (<[p := File (f []) (clock w)]> (nodes w)))
      | Some (File _ _) => (inl (enotdir p), w)
      | None => (inl (unreachable w p), w)
      end
  end.

Definition write_bytes (w : fs) (p : path) (bs : bytes) :=
  put_file w p (fun _ => bs).

Definition append_bytes (w : fs) (p : path) (bs : bytes) :=
  put_file w p (fun old => old ++ bs).

(** [os.mkdir(p)] *)
Definition os_mkdir (w : fs) (p : path) : (oserror + unit) * fs :=
  match nodes w !! p with
  | Some _ => (inl (eexist p), w)
  | None =>
      match nodes w !! Path_parent p with
      | Some (Dir _) =>
          (inr tt, set_nodes w (<[p := Dir (clock w)]> (nodes w)))
      | Some (File _ _) => (inl (enotdir p), w)
      | None => (inl (unreachable w p), w)
      end
  end.

Definition errno_is_ENOENT (e : oserror) : bool :=
  match os_errno e with ENOENT => true | _ => false end.

(** [p.mkdir(parents=True, exist_ok=True)], as pathlib writes it: try
    [os.mkdir]; on FileNotFoundError make the parent first and retry; on
    any other OSError succeed if [p] is a directory already. *)
Fixpoint mkdir_p (fuel : nat) (w : fs) (p : path) : (oserror + unit) * fs :=
  match os_mkdir w p with
  | (inr _, w') => (inr tt, w')
  | (inl e, _) =>
      if errno_is_ENOENT e then
        if bool_decide (Path_parent p = p) then (inl e, w)
        else
          match fuel with
          | O => (inl e, w)
          | S fuel' =>
              match mkdir_p fuel' w (Path_parent p) with
              | (inl e1, w1) => (inl e1, w1)
              | (inr _, w1) =>
                  match os_mkdir w1 p with
                  | (inr _, w2) => (inr tt, w2)
                  | (inl e2, _) =>
                      if negb (errno_is_ENOENT e2) && is_dir_b w1 p
                      then (inr tt, w1) else (inl e2, w1)
                  end
              end
          end
      else if is_dir_b w p then (inr tt, w) else (inl e, w)
  end.

Definition mkdir_parents (w : fs) (p : path) : (oserror + unit) * fs :=
  mkdir_p (List.length p) w p.

Definition unlink (w : fs) (p : path) : (oserror + unit) * fs :=
  match nodes w !! p with
  | None => (inl (unreachable w p), w)
  | Some (Dir _) => (inl (eisdir p), w)
  | Some (File _ _) => (inr tt, set_nodes w (delete p (nodes w)))
  end.

Definition rmdir (w : fs) (p : path) : (oserror + unit) * fs :=
  match nodes w !! p with
  | None => (inl (unreachable w p), w)
  | Some (File _ _) => (inl (enotdir p), w)
  | Some (Dir _) =>
      match children w p with
      | [] => (inr tt, set_nodes w (delete p (nodes w)))
      | _ :: _ => (inl (enotempty p), w)
      end
  end.

(** [p] and everything below it. *)
Definition at_or_below (w : fs) (p : path) : list path :=
  filter (fun q => p `prefix_of` q) (fst <$> map_to_list (nodes w)).

(** How many levels of directories lie below the directory [p]. *)
Definition nesting (w : fs) (p : path) : nat :=
  foldr Nat.max 0%nat
    ((fun q => (List.length q - List.length p)%nat)
       <$> filter (fun q => is_dir_b w q = true) (at_or_below w p)).

(** [shutil.rmtree(p)]: removes [p] and everything below it.  The walk
    recurses once per level of directories; a tree nested deeper than
    the interpreter allows raises RecursionError, which is no OSError.
    (What the walk had removed by then depends on the order of the scan:
    nothing when only directories lie on its way, since a directory is
    removed after the walk has come back from it.  Here the tree is left
    as it was.) *)
Definition rmtree (w : fs) (p : path) : outcome unit * fs :=
  match nodes w !! p with
  | None => (Raise (OSError (unreachable w p)), w)
  | Some (File _ _) => (Raise (OSError (enotdir p)), w)
  | Some (Dir _) =>
      if (recursion_limit w <? nesting w p)%nat then
        (Raise (RecursionError (str "maximum recursion depth exceeded")), w)
      else
        (Return tt,
         set_nodes w (filter (fun kv => ~ p `prefix_of` kv.1) (nodes w)))
  end.

(** An error of [shutil] itself (SameFileError, Error): an OSError
    subclass that carries no errno of the system. *)
Definition shutil_error (msg : pystr) : oserror := OSErr EOTHER msg.

(** Where [copy2] and [move] put [src] when [dst] is a directory. *)
Definition into_dir (w : fs) (src dst : path) : path :=
  if is_dir_b w dst then dst ++ [Path_name src] else dst.

(** [shutil.copy2(src, dst)]: into [dst/name] when [dst] is a
    directory; content and modification time are copied. *)
Definition copy2 (w : fs) (src dst : path) : (oserror + unit) * fs :=
  let target := into_dir w src dst in
  match nodes w !! src with
  | None => (inl (unreachable w src), w)
  | Some n =>
      if bool_decide (target = src) then
        (inl (shutil_error (repr (Path_str src) ++ str " and "
                            ++ repr (Path_str target)
                            ++ str " are the same file")), w)
      else
        match n with
        | Dir _ => (inl (eisdir src), w)
        | File data t =>
            match nodes w !! target with
            | Some (Dir _) => (inl (eisdir target), w)
            | Some (File _ _) =>
                (inr tt, set_nodes w (<[target := File data t]> (nodes w)))
            | None =>
                match nodes w !! Path_parent target with
                | Some (Dir _) =>
                    (inr tt,
                     set_nodes w (<[target := File data t]> (nodes w)))
                | Some (File _ _) => (inl (enotdir target), w)
                | None => (inl (unreachable w target), w)
                end
            end
        end
  end.

(** The tree with the subtree at [src] moved to [dst]. *)
Definition reroot (src dst : path) (m : gmap path node) : gmap path node :=
  list_to_map
    ((fun kv : path * node => (dst ++ drop (List.length src) kv.1, kv.2))
       <$> map_to_list (filter (fun kv => src `prefix_of` kv.1) m))
  ∪ filter (fun kv => ~ src `prefix_of` kv.1) m.

(** [shutil.move(src, dst)]: into [dst/name] when [dst] is a directory,
    refusing to replace an entry there; otherwise a rename.  A rename
    replaces a file by a file, and moves a directory with all below it
    to a free place whose parent exists; when the parent is missing the
    library falls back to copying the tree, which creates the parents. *)
Definition move (w : fs) (src dst : path) : (oserror + unit) * fs :=
  match nodes w !! src with
  | None => (inl (unreachable w src), w)
  | Some n =>
      if is_dir_b w dst && bool_decide (src = dst) then (inr tt, w)
      else
        let target := into_dir w src dst in
        if is_dir_b w dst && bool_decide (is_Some (nodes w !! target)) then
          (inl (shutil_error (str "Destination path "
                              ++ repr (Path_str target)
                              ++ str " already exists")), w)
        else
          match n with
          | File data t =>
              match nodes w !! target with
              | Some (Dir _) => (inl (eisdir target), w)
              | Some (File _ _) =>
                  (inr tt,
                   set_nodes w
                     (<[target := File data t]> (delete src (nodes w))))
              | None =>
                  match nodes w !! Path_parent target with
                  | Some (Dir _) =>
                      (inr tt,
                       set_nodes w
                         (<[target := File data t]> (delete src (nodes w))))
                  | Some (File _ _) => (inl (enotdir target), w)
                  | None => (inl (unreachable w target), w)
                  end
              end
          | Dir _ =>
              if bool_decide (src `prefix_of` target) then
                (inl (shutil_error (str "Cannot move a directory "
                                    ++ repr (Path_str src)
                                    ++ str " into itself "
                                    ++ repr (Path_str dst) ++ str ".")), w)
              else
                match nodes w !! target with
                | Some _ => (inl (eexist target), w)
                | None =>
                    match mkdir_parents w (Path_parent target) with
                    | (inl e, w1) => (inl e, w1)
                    | (inr _, w1) =>
                        (inr tt,
                         set_nodes w1 (reroot src target (nodes w1)))
                    end
                end
          end
  end.

(** The components of a glob pattern; [''] and ['.'] are dropped. *)
Definition pattern_parts (pattern : pystr) : list pystr :=
  filter (fun c => c <> [] /\ c <> str ".") (split_on 47 pattern).

(** A relative path against the components of a pattern: ['**'] stands
    for any run of components, every other component is matched by name
    with the library's [fnmatch name pattern]. *)
Fixpoint glob_match (fnmatch : pystr -> pystr -> bool)
    (parts : list pystr) : list pystr -> bool :=
  match parts with
  | [] => fun rel => bool_decide (rel = [])
  | pt :: parts' =>
      if bool_decide (pt = str "**") then
        fix star (rel : list pystr) : bool :=
          glob_match fnmatch parts' rel
          || match rel with [] => false | _ :: rel' => star rel' end
      else
        fun rel =>
          match rel with
          | [] => false
          | c :: rel' => fnmatch c pt && glob_match fnmatch parts' rel'
          end
  end.

(** A pattern that ends in ['**'], or has no component at all, selects
    directories only. *)
Definition selects_directories (parts : list pystr) : bool :=
  match last parts with
  | None => true
  | Some pt => bool_decide (pt = str "**")
  end.

(** [list(p.rglob(pattern))], that is [p.glob("**/" + pattern)]: the
    entries at or below [p] whose path relative to [p] matches.  An
    absolute pattern raises NotImplementedError.  (Python 3.11; a ['..']
    component in the pattern is not modelled.) *)
Definition rglob (fnmatch : pystr -> pystr -> bool)
    (w : fs) (p : path) (pattern : pystr) : outcome (list path) :=
  if startswith (str "/") pattern then
    Raise (NotImplementedError (str "Non-relative patterns are unsupported"))
  else
    let parts := pattern_parts pattern in
    Return
      (filter
         (fun q =>
            glob_match fnmatch (str "**" :: parts) (drop (List.length p) q)
            && (negb (selects_directories parts) || is_dir_b w q) = true)
         (at_or_below w p)).

Definition runtime (fnmatch : pystr -> pystr -> bool) : Runtime fs :=
  Build_Runtime fs
    resolve exists_ is_dir is_file stat read_bytes iterdir (rglob fnmatch)
    write_bytes append_bytes mkdir_parents unlink rmdir rmtree copy2 move.

End RefFS.

(** ** Sample platforms and worlds

    Closed values on which the theorems below are instantiated. *)

Module Sample.
Import RefFS.

(** A matcher for patterns made of literal characters, ['*'] and ['?'];
    on such patterns it agrees with [fnmatch]. *)
Fixpoint wildcard (pat : pystr) : pystr -> bool :=
  match pat with
  | [] => fun name => bool_decide (name = [])
  | c :: pat' =>
      if c =? 42 then
        fix star (name : pystr) : bool :=
          wildcard pat' name
          || match name with [] => false | _ :: name' => star name' end
      else
        fun name =>
          match name with
          | [] => false
          | d :: name' => ((c =? 63) || (c =? d)) && wildcard pat' name'
          end
  end.

Definition fnmatch (name pat : pystr) : bool := wildcard pat name.

(** Lower case for the letters A-Z; other code points are kept. *)
Definition ascii_lower (s : pystr) : pystr :=
  (fun c => if (65 <=? c) && (c <=? 90) then c + 32 else c) <$> s.

Definition platform : Runtime fs := runtime fnmatch.

Definition eacces := err EACCES "[Errno 13] Permission denied".

(** The reference platform with [rmdir] refused, as in a parent
    directory without write permission. *)
Definition rmdir_denied : Runtime fs :=
  Build_Runtime fs
    resolve exists_ is_dir is_file stat read_bytes iterdir (rglob fnmatch)
    write_bytes append_bytes mkdir_parents unlink
    (fun w p => (inl (eacces p), w))
    rmtree copy2 move.

(** The reference platform with a read-only directory: [rmtree] cannot
    remove the first entry it meets and raises the PermissionError of
    that entry, leaving the tree as it is. *)
Definition rmtree_denied : Runtime fs :=
  Build_Runtime fs
    resolve exists_ is_dir is_file stat read_bytes iterdir (rglob fnmatch)
    write_bytes append_bytes mkdir_parents unlink rmdir
    (fun w p =>
       (Raise (OSError
                 (OSErr EACCES
                    (str "[Errno 13] Permission denied: "
                     ++ repr (Path_name (List.hd p (children w p)))))), w))
    copy2 move.

(** The reference platform on which the entry [locked] cannot be
    examined: it lies in a directory without search permission, so
    [is_file()] fails with the PermissionError of the underlying [stat]
    (up to Python 3.13). *)
Definition is_file_denied (locked : path) : Runtime fs :=
  Build_Runtime fs
    resolve exists_ is_dir
    (fun w p => if bool_decide (p = locked) then inl (eacces p)
                else is_file w p)
    stat read_bytes iterdir (rglob fnmatch)
    write_bytes append_bytes mkdir_parents unlink rmdir rmtree copy2 move.


(** The reference platform on which [exists()] is refused: up to Python
    3.13 a PermissionError of the underlying [stat] leaves [exists]. *)
Definition exists_denied : Runtime fs :=
  Build_Runtime fs
    resolve (fun w p => inl (eacces p)) is_dir is_file stat read_bytes
    iterdir (rglob fnmatch)
    write_bytes append_bytes mkdir_parents unlink rmdir rmtree copy2 move.

(** A world with the root directory only. *)
Definition bare : fs := Fs {[ [] := Dir 0 ]} [] 1 900.

(** /d/a.txt  "Hello Needle"      /d/b.log  "no match here"
    /d/c.log  one byte 0x81       /d/sub/   an empty directory
    /e/       an empty directory *)
Definition tree : fs :=
  Fs (list_to_map
        [ ([], Dir 0);
          ([str "d"], Dir 1);
          ([str "d"; str "a.txt"], File (str "Hello Needle") 2);
          ([str "d"; str "b.log"], File (str "no match here") 3);
          ([str "d"; str "c.log"], File [129] 4);
          ([str "d"; str "sub"], Dir 5);
          ([str "e"], Dir 6) ])
     [] 7 900.

(** The same tree, seen from inside /d: the working directory is /d. *)
Definition tree_from_d : fs := Fs (nodes tree) [str "d"] 7 900.


(** /pub/a.txt  "Hello Needle"     /priv/b.log  "needle too"
    /priv is meant as a directory that can be listed but not searched
    (mode r--), see [is_file_denied]. *)
Definition shared : fs :=
  Fs (list_to_map
        [ ([], Dir 0);
          ([str "pub"], Dir 1);
          ([str "pub"; str "a.txt"], File (str "Hello Needle") 2);
          ([str "priv"], Dir 3);
          ([str "priv"; str "b.log"], File (str "needle too") 4) ])
     [] 5 900.

(** /m.txt holds "x\ry": a carriage return between two letters. *)
Definition mac : fs :=
  Fs (list_to_map [ ([], Dir 0); ([str "m.txt"], File [120; 13; 121] 1) ])
     [] 2 900.

Definition iso (t : Z) : pystr := str "1970-01-01T00:00:0" ++ str_of_Z t.
End Sample.

(** ** Specification-side definitions

    Written from the words of the specification, to be compared with what
    the code computes. *)

(** The text of a file's bytes: decoded as UTF-8 when that succeeds, else
    as Latin-1, with the newline translation of text mode. *)
Definition text_of_bytes (bs : bytes) : pystr :=
  universal_newlines
    (match utf8_decode bs with Some s => s | None => bs end).

(** A file counts for the search when it is a regular file, its bytes
    can be read, and its text contains the term, both taken in lower
    case.  A file that cannot be read does not count. *)
Definition search_hit {world : Type} (R : Runtime world)
    (str_lower : pystr -> pystr) (w : world) (searchTerm : pystr)
    (f : path) : bool :=
  match is_file R w f, read_bytes R w f with
  | inr true, inr bs =>
      str_in (str_lower searchTerm) (str_lower (text_of_bytes bs))
  | _, _ => false
  end.


(** In the world [w'] the location [tp] has kept what was written to it:
    if [w'] is the outcome of an open for writing that succeeded, the
    entry is there and a read returns the bytes that were written.  A
    regular file does this; a device such as /dev/null does not. *)
Definition keeps_written {world : Type} (R : Runtime world) (tp : path)
    (w' : world) : Prop :=
  forall w bs,
    write_bytes R w tp bs = (inr tt, w') ->
    exists_ R w' tp = inr true /\ read_bytes R w' tp = inr bs.

(** In the world [w] the platform does not remove the directory [tp]
    with [rmdir] while it has an entry: the call fails and changes
    nothing. *)
Definition refuses_nonempty {world : Type} (R : Runtime world) (tp : path)
    (w : world) : Prop :=
  forall q qs,
    iterdir R w tp = inr (q :: qs) -> exists e, rmdir R w tp = (inl e, w).

(** An [rmtree] of [tp] in the world [w] that returns has removed [tp]. *)
Definition removes {world : Type} (R : Runtime world) (tp : path)
    (w : world) : Prop :=
  forall w', rmtree R w tp = (Return tt, w') -> exists_ R w' tp = inr false.

(** [result["success"]] holds a true value. *)
Definition is_success (r : dict) : bool :=
  match dict_get r (str "success") with
  | Some v => truthy v
  | None => false
  end.

(** The entry of a directory member on the reference platform: its name,
    its type tag, its size when it is a regular file and 0 otherwise, and
    its full path. *)
Definition listing_entry (w : RefFS.fs) (q : path) : value :=
  VDict [(str "name", VStr (Path_name q));
         (str "type", VStr (FileManager.type_tag (RefFS.is_dir_b w q)));
         (str "size", VInt (match RefFS.nodes w !! q with
                            | Some (RefFS.File data _) => Zlength' data
                            | _ => 0
                            end));
         (str "path", VStr (Path_str q))].

(** Order by name, as the specification asks of a listing. *)
Definition name_le (p q : path) : Prop :=
  str_ltb (Path_name q) (Path_name p) = false.

(** The result envelope of the specification: a success without an error
    message, or exactly an error result. *)
Definition envelope (r : dict) : Prop :=
  (is_success r = true /\ dict_get r (str "error") = None) \/
  (exists m, r = error_result m).

(** [P] holds of what a call returns, if it returns. *)
Definition on_return {A B : Type} (P : A -> Prop) (o : outcome A * B) : Prop :=
  match o.1 with
  | Return a => P a
  | Raise _ => True
  end.

(** The call returns a [str]. *)
Definition returns_str {B : Type} (o : outcome value * B) : bool :=
  match o.1 with
  | Return (VStr _) => true
  | _ => false
  end.

(** An element of [matches] as [findFiles] builds it, and of [files] as
    [searchInFiles] builds it. *)
Definition is_match_entry (v : value) : Prop :=
  exists a b c n,
    v = VDict [(str "path", VStr a); (str "name", VStr b);
               (str "type", VStr c); (str "size", VInt n)].

Definition is_search_entry (v : value) : Prop :=
  exists a b, v = VDict [(str "file", VStr a); (str "name", VStr b)].

(** A code point that UTF-8 can encode. *)
Definition scalar (c : Z) : Prop := is_scalar c = true.

(** The entry of a match on the reference platform, as [findFiles]
    reports it. *)
Definition match_entry (w : RefFS.fs) (q : path) : value :=
  VDict [(str "path", VStr (Path_str q));
         (str "name", VStr (Path_name q));
         (str "type", VStr (FileManager.type_tag (RefFS.is_dir_b w q)));
         (str "size", VInt (match RefFS.nodes w !! q with
                            | Some (RefFS.File data _) => Zlength' data
                            | _ => 0
                            end))].

(** * Theorems *)

Ltac dlia := Z.to_euclidean_division_equations; lia.

(** Unfolds the monad so that a method becomes nested matches. *)
Ltac run :=
  unfold bind, ask, sys, cmd, ret, raise, try_except, os_call,
         is_Exception, catches_all in *.

(** ** Codecs *)

Lemma utf8_decode_encode_cp c rest :
  is_scalar c = true ->
  utf8_decode (utf8_encode_cp c ++ rest) =
  match utf8_decode rest with Some s => Some (c :: s) | None => None end.
Proof.
  unfold is_scalar, utf8_encode_cp. intros Hc.
  destruct (Z.ltb_spec c 128).
  { cbn [app utf8_decode].
    replace ((0 <=? c) && (c <? 128)) with true
      by (symmetry; apply andb_true_iff; lia).
    reflexivity. }
  destruct (Z.ltb_spec c 2048).
  { cbn [app utf8_decode].
    replace ((0 <=? 192 + c / 64) && (192 + c / 64 <? 128)) with false
      by (symmetry; apply andb_false_iff; dlia).
    replace ((192 <=? 192 + c / 64) && (192 + c / 64 <? 224)) with true
      by (symmetry; apply andb_true_iff; dlia).
    cbv zeta. unfold is_cont.
    replace ((192 + c / 64 - 192) * 64 + (128 + c mod 64 - 128)) with c
      by dlia.
    replace ((128 <=? 128 + c mod 64) && (128 + c mod 64 <=? 191)
             && (128 <=? c)) with true
      by (symmetry; rewrite !andb_true_iff; dlia).
    reflexivity. }
  destruct (Z.ltb_spec c 65536).
  { cbn [app utf8_decode].
    replace ((0 <=? 224 + c / 4096) && (224 + c / 4096 <? 128)) with false
      by (symmetry; apply andb_false_iff; dlia).
    replace ((192 <=? 224 + c / 4096) && (224 + c / 4096 <? 224)) with false
      by (symmetry; apply andb_false_iff; dlia).
    replace ((224 <=? 224 + c / 4096) && (224 + c / 4096 <? 240)) with true
      by (symmetry; apply andb_true_iff; dlia).
    cbv zeta. unfold is_cont, is_scalar.
    replace ((224 + c / 4096 - 224) * 4096
             + (128 + (c / 64) mod 64 - 128) * 64
             + (128 + c mod 64 - 128)) with c by dlia.
    rewrite Hc.
    replace ((128 <=? 128 + (c / 64) mod 64)
             && (128 + (c / 64) mod 64 <=? 191)
             && ((128 <=? 128 + c mod 64) && (128 + c mod 64 <=? 191))
             && (2048 <=? c) && true) with true
      by (symmetry; rewrite !andb_true_iff; dlia).
    reflexivity. }
  cbn [app utf8_decode].
  assert (c <= 1114111)
    by (apply orb_true_iff in Hc; rewrite !andb_true_iff in Hc; lia).
  replace ((0 <=? 240 + c / 262144) && (240 + c / 262144 <? 128)) with false
    by (symmetry; apply andb_false_iff; dlia).
  replace ((192 <=? 240 + c / 262144) && (240 + c / 262144 <? 224)) with false
    by (symmetry; apply andb_false_iff; dlia).
  replace ((224 <=? 240 + c / 262144) && (240 + c / 262144 <? 240)) with false
    by (symmetry; apply andb_false_iff; dlia).
  replace ((240 <=? 240 + c / 262144) && (240 + c / 262144 <? 248)) with true
    by (symmetry; apply andb_true_iff; dlia).
  cbv zeta. unfold is_cont.
  replace ((240 + c / 262144 - 240) * 262144
           + (128 + (c / 4096) mod 64 - 128) * 4096
           + (128 + (c / 64) mod 64 - 128) * 64
           + (128 + c mod 64 - 128)) with c by dlia.
  replace ((128 <=? 128 + (c / 4096) mod 64)
           && (128 + (c / 4096) mod 64 <=? 191)
           && ((128 <=? 128 + (c / 64) mod 64)
               && (128 + (c / 64) mod 64 <=? 191))
           && ((128 <=? 128 + c mod 64) && (128 + c mod 64 <=? 191))
           && (65536 <=? c) && (c <=? 1114111)) with true
    by (symmetry; rewrite !andb_true_iff; dlia).
  reflexivity.
Qed.

(** Decoding undoes encoding. *)
Lemma utf8_decode_encode s bs :
  utf8_encode s = Some bs -> utf8_decode bs = Some s.
Proof.
  revert bs. induction s as [|c s IH]; intros bs; simpl.
  - intros [= <-]. reflexivity.
  - destruct (is_scalar c) eqn:Hc; [|discriminate].
    destruct (utf8_encode s) as [bs'|]; [|discriminate].
    intros [= <-]. rewrite (utf8_decode_encode_cp _ _ Hc), (IH bs' eq_refl).
    reflexivity.
Qed.

(** Text without a carriage return passes through newline translation. *)
Lemma universal_newlines_no_cr s :
  str_contains_char 13 s = false -> universal_newlines s = s.
Proof.
  unfold str_contains_char.
  induction s as [|c s IH]; cbn [existsb universal_newlines]; [done|].
  intros H. apply orb_false_iff in H as [Hc Hs].
  rewrite Z.eqb_sym, Hc. f_equal. auto.
Qed.

(** *** What UTF-8 can encode *)

Lemma is_scalar_low c : 0 <= c < 55296 -> is_scalar c = true.
Proof. intros H. unfold is_scalar. apply orb_true_iff. left. apply andb_true_iff. lia. Qed.

Lemma is_scalar_high c : 57343 < c <= 1114111 -> is_scalar c = true.
Proof. intros H. unfold is_scalar. apply orb_true_iff. right. apply andb_true_iff. lia. Qed.

Lemma utf8_decode_scalar n :
  forall bs s, (List.length bs <= n)%nat ->
    utf8_decode bs = Some s -> Forall scalar s.
Proof.
  induction n as [|n IH]; intros bs s Hlen.
  - destruct bs; [|simpl in Hlen; lia]. intros [= <-]. constructor.
  - destruct bs as [|b0 r0]; [intros [= <-]; constructor|].
    cbn [utf8_decode]. simpl in Hlen.
    destruct ((0 <=? b0) && (b0 <? 128)) eqn:H1.
    { destruct (utf8_decode r0) as [s'|] eqn:Hr; [|done]. intros [= <-].
      constructor; [|apply (IH r0); [lia|done]].
      apply andb_true_iff in H1. apply is_scalar_low. lia. }
    destruct ((192 <=? b0) && (b0 <? 224)) eqn:H2.
    { destruct r0 as [|b1 r1]; [done|]. cbv zeta.
      destruct (is_cont b1 && _) eqn:Hc; [|done].
      destruct (utf8_decode r1) as [s'|] eqn:Hr; [|done]. intros [= <-].
      constructor; [|apply (IH r1); [simpl in Hlen; lia|done]].
      unfold is_cont in Hc. rewrite !andb_true_iff in Hc, H2.
      apply is_scalar_low. lia. }
    destruct ((224 <=? b0) && (b0 <? 240)) eqn:H3.
    { destruct r0 as [|b1 [|b2 r2]]; try done. cbv zeta.
      destruct (is_cont b1 && is_cont b2 && _ && is_scalar _) eqn:Hc; [|done].
      destruct (utf8_decode r2) as [s'|] eqn:Hr; [|done]. intros [= <-].
      constructor; [|apply (IH r2); [simpl in Hlen; lia|done]].
      by apply andb_true_iff in Hc as [_ ?]. }
    destruct ((240 <=? b0) && (b0 <? 248)) eqn:H4; [|done].
    destruct r0 as [|b1 [|b2 [|b3 r3]]]; try done. cbv zeta.
    destruct (is_cont b1 && is_cont b2 && is_cont b3 && _ && _) eqn:Hc; [|done].
    destruct (utf8_decode r3) as [s'|] eqn:Hr; [|done]. intros [= <-].
    constructor; [|apply (IH r3); [simpl in Hlen; lia|done]].
    rewrite !andb_true_iff in Hc. apply is_scalar_high. lia.
Qed.

Lemma universal_newlines_scalar s :
  Forall scalar s -> Forall scalar (universal_newlines s).
Proof.
  intros H. induction H as [|c s Hc Hs IH]; [constructor|].
  cbn [universal_newlines]. destruct (c =? 13).
  - constructor; [reflexivity|].
    destruct Hs as [|d s' Hd Hs']; [constructor|].
    destruct (Z.eqb_spec d 10) as [->|]; [|exact IH].
    cbn in IH. by inversion IH.
  - by constructor.
Qed.

Lemma utf8_encode_scalar s :
  Forall scalar s -> exists bs, utf8_encode s = Some bs.
Proof.
  induction 1 as [|c s Hc _ [bs IH]]; [by exists []|].
  simpl. rewrite Hc, IH. eauto.
Qed.

Lemma text_of_bytes_scalar bs :
  Forall (fun b => 0 <= b < 256) bs -> Forall scalar (text_of_bytes bs).
Proof.
  intros Hb. unfold text_of_bytes. apply universal_newlines_scalar.
  destruct (utf8_decode bs) as [s|] eqn:Hu.
  - by apply (utf8_decode_scalar (List.length bs) bs).
  - eapply Forall_impl; [exact Hb|]. intros b Hb'. cbv beta in Hb'.
    apply is_scalar_low. lia.
Qed.

Lemma utf8_encode_Some_scalar s bs :
  utf8_encode s = Some bs -> Forall scalar s.
Proof.
  revert bs. induction s as [|c s IH]; intros bs; simpl; [constructor|].
  destruct (is_scalar c) eqn:Hc; [|done].
  destruct (utf8_encode s) as [bs'|]; [|done]. intros _.
  constructor; [exact Hc|by eapply IH].
Qed.

(** ** _safeRead *)

Section SafeRead.
Context {world : Type} (R : Runtime world).
Import FileManager.

Lemma Path_read_text_bytes w p enc bs :
  read_bytes R w p = inr bs ->
  Path_read_text R w p enc =
  match bytes_decode enc bs with
  | Some s => Return (universal_newlines s)
  | None => Raise (decode_error enc)
  end.
Proof. unfold Path_read_text. intros ->. reflexivity. Qed.

Lemma Path_read_text_oserror w p enc e :
  read_bytes R w p = inl e -> Path_read_text R w p enc = Raise (OSError e).
Proof. unfold Path_read_text. intros ->. reflexivity. Qed.

(** The loop stops at the first encoding that decodes the bytes. *)
Lemma safeRead_loop_first w p bs before enc after s :
  read_bytes R w p = inr bs ->
  Forall (fun e => bytes_decode e bs = None) before ->
  bytes_decode enc bs = Some s ->
  _safeRead_loop R w p (before ++ enc :: after) =
  (before ++ [enc], Some (Return (universal_newlines s))).
Proof.
  intros Hb Hfail Hdec. induction Hfail as [|e before He _ IH]; simpl.
  - rewrite (Path_read_text_bytes _ _ _ _ Hb), Hdec. reflexivity.
  - rewrite (Path_read_text_bytes _ _ _ _ Hb), He. simpl.
    rewrite IH. reflexivity.
Qed.

(** When no encoding decodes the bytes the loop runs off its end. *)
Lemma safeRead_loop_none w p bs encs :
  read_bytes R w p = inr bs ->
  Forall (fun e => bytes_decode e bs = None) encs ->
  _safeRead_loop R w p encs = (encs, None).
Proof.
  intros Hb Hfail. induction Hfail as [|e encs He _ IH]; simpl; [done|].
  rewrite (Path_read_text_bytes _ _ _ _ Hb), He. simpl.
  rewrite IH. reflexivity.
Qed.

Lemma safeRead_loop_bytes w p bs :
  read_bytes R w p = inr bs ->
  _safeRead_loop R w p encodings =
  (match utf8_decode bs with
   | Some _ => [utf_8]
   | None => [utf_8; latin_1]
   end, Some (Return (text_of_bytes bs))).
Proof.
  intros Hb. unfold text_of_bytes.
  destruct (utf8_decode bs) as [s|] eqn:Hu.
  - apply (safeRead_loop_first w p bs [] utf_8 [latin_1; cp1252] s); auto.
  - apply (safeRead_loop_first w p bs [utf_8] latin_1 [cp1252] bs); auto.
Qed.

Lemma safeRead_bytes w p bs :
  read_bytes R w p = inr bs -> _safeRead R w p = Return (text_of_bytes bs).
Proof.
  intros Hb. unfold _safeRead. rewrite (safeRead_loop_bytes _ _ _ Hb).
  reflexivity.
Qed.

Lemma safeRead_oserror w p e :
  read_bytes R w p = inl e -> _safeRead R w p = Raise (OSError e).
Proof.
  intros Hb. unfold _safeRead. simpl.
  rewrite (Path_read_text_oserror _ _ _ _ Hb). reflexivity.
Qed.
End SafeRead.

(** [readFile] once the path is known to exist. *)
Lemma readFile_existing_path {world : Type} (R : Runtime world)
    (w : world) (p : pystr) (tp : path) :
  resolve R w p = Return tp ->
  exists_ R w tp = inr true ->
  FileManager.readFile R p w =
  (match read_bytes R w tp with
   | inl e => Return (error_result (os_strerror e))
   | inr bs =>
       match utf8_encode (text_of_bytes bs) with
       | Some out =>
           Return [(str "success", VBool true);
                   (str "content", VStr (text_of_bytes bs));
                   (str "size", VInt (Zlength' out))]
       | None =>
           Return (error_result
                     (exn_str (FileManager.encode_error (text_of_bytes bs))))
       end
   end, w).
Proof.
  intros Hr Hex. unfold FileManager.readFile. run. rewrite Hr, Hex.
  cbn [negb]. destruct (read_bytes R w tp) as [e|bs] eqn:Hb.
  - rewrite (safeRead_oserror R _ _ _ Hb). reflexivity.
  - rewrite (safeRead_bytes R _ _ _ Hb). unfold FileManager.str_encode_utf8.
    destruct (utf8_encode (text_of_bytes bs)); reflexivity.
Qed.

(** C8, as amended.  When the bytes of a file can be read, [_safeRead]
    walks the chain utf-8, latin-1, cp1252 in this order: the encodings it
    tries are those up to and including the first one that decodes the
    bytes, every encoding before it failed on them, and the result is the
    text decoded under it after the newline translation of text mode
    (CR LF and CR become LF). *)
Theorem C8_first_encoding_in_chain_wins {world : Type} (R : Runtime world)
    (w : world) (filePath : path) (bs : bytes) :
  read_bytes R w filePath = inr bs ->
  FileManager.encodings = [utf_8; latin_1; cp1252] /\
  exists before enc after s,
    FileManager.encodings = before ++ enc :: after /\
    FileManager._safeRead_attempts R w filePath = before ++ [enc] /\
    Forall (fun e => bytes_decode e bs = None) before /\
    bytes_decode enc bs = Some s /\
    FileManager._safeRead R w filePath = Return (universal_newlines s).
Proof.
  intros Hb. split; [reflexivity|].
  unfold FileManager._safeRead_attempts, FileManager._safeRead.
  destruct (utf8_decode bs) as [s|] eqn:Hu.
  - exists [], utf_8, [latin_1; cp1252], s.
    pose proof (safeRead_loop_first R w filePath bs [] utf_8
                  [latin_1; cp1252] s Hb (List.Forall_nil _) Hu) as H.
    change ([] ++ utf_8 :: [latin_1; cp1252]) with FileManager.encodings in H.
    rewrite H. auto.
  - exists [utf_8], latin_1, [cp1252], bs.
    pose proof (safeRead_loop_first R w filePath bs [utf_8] latin_1
                  [cp1252] bs Hb) as H.
    change ([utf_8] ++ latin_1 :: [cp1252]) with FileManager.encodings in H.
    rewrite H; auto 10.
Qed.

Lemma C8_witness :
  exists before enc after s,
    FileManager.encodings = before ++ enc :: after /\
    FileManager._safeRead_attempts Sample.platform Sample.tree
      [str "d"; str "c.log"] = before ++ [enc] /\
    Forall (fun e => bytes_decode e [129] = None) before /\
    bytes_decode enc [129] = Some s /\
    FileManager._safeRead Sample.platform Sample.tree [str "d"; str "c.log"]
    = Return (universal_newlines s).
Proof.
  apply (C8_first_encoding_in_chain_wins Sample.platform Sample.tree
           [str "d"; str "c.log"] [129]).
  vm_compute. reflexivity.
Defined.

(** C8, as the specification states it, fails: the file /m.txt holds the
    bytes 78 0D 79, which UTF-8, the first encoding of the chain, decodes
    as "x\ry"; [_safeRead] returns "x\ny". *)
Lemma C8_counterexample :
  read_bytes Sample.platform Sample.mac [str "m.txt"] = inr [120; 13; 121] /\
  bytes_decode utf_8 [120; 13; 121] = Some [120; 13; 121] /\
  FileManager._safeRead_attempts Sample.platform Sample.mac [str "m.txt"]
  = [utf_8] /\
  FileManager._safeRead Sample.platform Sample.mac [str "m.txt"]
  = Return [120; 10; 121] /\
  [120; 10; 121] <> [120; 13; 121].
Proof. repeat split; try (vm_compute; reflexivity). discriminate. Qed.

(** C9.  Some encoding of the chain decodes every byte sequence (latin-1
    does), so the loop of [_safeRead] never runs off its end and the
    [raise] after it is not reached: when the bytes can be read the call
    returns text, and otherwise what it raises is the error of the read. *)
Theorem C9_decode_failure_unreachable {world : Type} (R : Runtime world)
    (w : world) (filePath : path) :
  (forall bs, exists enc,
      enc ∈ FileManager.encodings /\ is_Some (bytes_decode enc bs)) /\
  snd (FileManager._safeRead_loop R w filePath FileManager.encodings) <> None /\
  match read_bytes R w filePath with
  | inr bs => exists s, FileManager._safeRead R w filePath = Return s
  | inl e => FileManager._safeRead R w filePath = Raise (OSError e)
  end.
Proof.
  split; [|split].
  - intros bs. exists latin_1. split; [|by eexists].
    unfold FileManager.encodings. set_solver.
  - destruct (read_bytes R w filePath) as [e|bs] eqn:Hb.
    + simpl. rewrite (Path_read_text_oserror R _ _ _ _ Hb). simpl. discriminate.
    + rewrite (safeRead_loop_bytes R _ _ _ Hb). simpl. discriminate.
  - destruct (read_bytes R w filePath) as [e|bs] eqn:Hb.
    + apply safeRead_oserror, Hb.
    + eexists. apply safeRead_bytes, Hb.
Qed.

(** ** Failures that leave a method

    Thirteen of the fourteen methods call [Path(...).resolve()], and most
    of them [exists()], before they enter their [try]. *)

Section Guarded.
Context {world : Type} (R : Runtime world).

(** A [try] whose handler for [Exception] returns, returns. *)
Lemma try_except_Exception_returns {A} (body : M world A) handler w :
  (forall e w', returns (handler e w').1 = true) ->
  returns (try_except body is_Exception handler w).1 = true.
Proof.
  intros H. unfold try_except. destruct (body w) as [[a|e] w']; simpl; auto.
Qed.
End Guarded.

(** C2 (what the code does).  When resolving the path raises, the
    exception leaves the method, in every method but [writeJsonFile]: the
    call to [resolve()] stands before the [try], so no handler sees it
    and no error result is built.  The world is left as it was. *)
Theorem C2_resolution_failure_leaves_the_method {world : Type}
    (R : Runtime world) (str_lower : pystr -> pystr)
    (json_loads : pystr -> outcome value) (isoformat : Z -> pystr)
    (w : world) (p q content term pattern : pystr)
    (overwrite recursive : bool) (e : exn) :
  resolve R w p = Raise e ->
  FileManager.readFile R p w = (Raise e, w) /\
  FileManager.writeFile R p content overwrite w = (Raise e, w) /\
  FileManager.appendFile R p content w = (Raise e, w) /\
  FileManager.deleteFile R p w = (Raise e, w) /\
  FileManager.copyFile R p q w = (Raise e, w) /\
  FileManager.moveFile R p q w = (Raise e, w) /\
  FileManager.getFileInfo R isoformat p w = (Raise e, w) /\
  FileManager.readJsonFile R json_loads p w = (Raise e, w) /\
  FileManager.listDirectory R p w = (Raise e, w) /\
  FileManager.createFolder R p w = (Raise e, w) /\
  FileManager.deleteFolder R p recursive w = (Raise e, w) /\
  FileManager.findFiles R pattern p w = (Raise e, w) /\
  FileManager.searchInFiles R str_lower term pattern p w = (Raise e, w).
Proof.
  intros Hr.
  unfold FileManager.readJsonFile, FileManager.readFile,
    FileManager.writeFile, FileManager.appendFile, FileManager.deleteFile,
    FileManager.copyFile, FileManager.moveFile, FileManager.getFileInfo,
    FileManager.listDirectory, FileManager.createFolder,
    FileManager.deleteFolder, FileManager.findFiles,
    FileManager.searchInFiles.
  unfold bind, ask. rewrite Hr. repeat split; reflexivity.
Qed.

(** A path with an embedded NUL: [Path("a\0b").resolve()] raises
    ValueError, and so does every method that is given the path. *)
Lemma C2_witness :
  let R := Sample.platform in
  let p := [97; 0; 98] in
  let raised := (Raise (ValueError (str "embedded null byte")), Sample.bare) in
  FileManager.readFile R p Sample.bare = raised /\
  FileManager.writeFile R p (str "text") true Sample.bare = raised /\
  FileManager.appendFile R p (str "text") Sample.bare = raised /\
  FileManager.deleteFile R p Sample.bare = raised /\
  FileManager.copyFile R p (str "/b") Sample.bare = raised /\
  FileManager.moveFile R p (str "/b") Sample.bare = raised /\
  FileManager.getFileInfo R Sample.iso p Sample.bare = raised /\
  FileManager.readJsonFile R (fun _ => Return VNone) p Sample.bare = raised /\
  FileManager.listDirectory R p Sample.bare = raised /\
  FileManager.createFolder R p Sample.bare = raised /\
  FileManager.deleteFolder R p false Sample.bare = raised /\
  FileManager.findFiles R (str "*") p Sample.bare = raised /\
  FileManager.searchInFiles R Sample.ascii_lower (str "x") (str "*") p
    Sample.bare = raised.
Proof.
  cbv zeta.
  apply (C2_resolution_failure_leaves_the_method Sample.platform
           Sample.ascii_lower (fun _ => Return VNone) Sample.iso Sample.bare
           [97; 0; 98] (str "/b") (str "text") (str "x") (str "*")
           true false (ValueError (str "embedded null byte"))).
  vm_compute. reflexivity.
Defined.

(** The existence check stands before the [try] as well: when it is
    refused, its PermissionError leaves [readFile]. *)
Lemma exists_failure_leaves_readFile :
  FileManager.readFile Sample.exists_denied (str "/d") Sample.tree =
  (Raise (OSError (Sample.eacces [str "d"])), Sample.tree).
Proof. vm_compute. reflexivity. Qed.



(** ** Missing paths *)

(** C5 (what the code does).  What [readFile], [deleteFile] and
    [getFileInfo] do with a path that is not known to exist.  When the
    path resolves and the existence check answers that nothing is there,
    each returns the error result that names the path as given, and
    leaves the world as it is.  When resolving the path raises, or the
    existence check itself fails, each raises that exception: both calls
    stand before the [try]. *)
Theorem C5_missing_path_outcomes {world : Type} (R : Runtime world)
    (isoformat : Z -> pystr) (w : world) (p : pystr) :
  let not_found := error_result (str "File does not exist: " ++ p) in
  let all_three (o : outcome dict) :=
    FileManager.readFile R p w = (o, w) /\
    FileManager.deleteFile R p w = (o, w) /\
    FileManager.getFileInfo R isoformat p w = (o, w) in
  match resolve R w p with
  | Raise e => all_three (Raise e)
  | Return tp =>
      match exists_ R w tp with
      | inl e => all_three (Raise (OSError e))
      | inr false => all_three (Return not_found)
      | inr true => True
      end
  end.
Proof.
  cbv zeta.
  unfold FileManager.readFile, FileManager.deleteFile, FileManager.getFileInfo.
  run. destruct (resolve R w p) as [tp|e]; [|auto].
  destruct (exists_ R w tp) as [e|[]]; simpl; auto.
Qed.

(** The missing path /d/zzz: the three methods return the error result. *)
Lemma missing_path_is_reported :
  let not_found := error_result (str "File does not exist: " ++ str "/d/zzz") in
  FileManager.readFile Sample.platform (str "/d/zzz") Sample.tree
  = (Return not_found, Sample.tree) /\
  FileManager.deleteFile Sample.platform (str "/d/zzz") Sample.tree
  = (Return not_found, Sample.tree) /\
  FileManager.getFileInfo Sample.platform Sample.iso (str "/d/zzz") Sample.tree
  = (Return not_found, Sample.tree).
Proof. repeat split; vm_compute; reflexivity. Qed.

(** The missing path "a\0b": the three methods raise ValueError. *)
Lemma C5_witness :
  let raised := (Raise (ValueError (str "embedded null byte")), Sample.bare) in
  FileManager.readFile Sample.platform [97; 0; 98] Sample.bare = raised /\
  FileManager.deleteFile Sample.platform [97; 0; 98] Sample.bare = raised /\
  FileManager.getFileInfo Sample.platform Sample.iso [97; 0; 98] Sample.bare
  = raised.
Proof.
  exact (C5_missing_path_outcomes Sample.platform Sample.iso Sample.bare
           [97; 0; 98]).
Defined.

(** ** deleteFolder when the removal fails *)

(** C10.  When [rmdir] of an existing directory fails with any OSError, the
    result of the non-recursive call depends only on whether the directory
    still exists afterwards: if it does, the message is "Directory not
    empty", whatever made the removal fail; the message of the OSError is
    returned only when the directory is gone.  A recursive call whose
    [rmtree] fails with an OSError always returns the message of the
    OSError. *)
Theorem C10_failed_rmdir_reported_as_not_empty {world : Type}
    (R : Runtime world) (w w' : world) (folderPath : pystr) (tp : path)
    (e : oserror) :
  resolve R w folderPath = Return tp ->
  exists_ R w tp = inr true ->
  is_dir R w tp = inr true ->
  (rmdir R w tp = (inl e, w') ->
   FileManager.deleteFolder R folderPath false w =
   match exists_ R w' tp with
   | inr true =>
       (Return (error_result (str "Directory not empty: " ++ folderPath)), w')
   | inr false => (Return (error_result (os_strerror e)), w')
   | inl e' => (Raise (OSError e'), w')
   end) /\
  (rmtree R w tp = (Raise (OSError e), w') ->
   FileManager.deleteFolder R folderPath true w =
   (Return (error_result (os_strerror e)), w')).
Proof.
  intros Hr Hex Hd. unfold FileManager.deleteFolder. run.
  rewrite Hr, Hex. simpl. rewrite Hd. simpl. split; intros ->; simpl.
  - destruct (exists_ R w' tp) as [e'|[]]; reflexivity.
  - reflexivity.
Qed.

(** On a platform that refuses [rmdir] for lack of permission, deleting
    the empty directory /e is reported as "Directory not empty". *)
Lemma C10_witness :
  RefFS.children Sample.tree [str "e"] = [] /\
  FileManager.deleteFolder Sample.rmdir_denied (str "/e") false Sample.tree
  = (Return (error_result (str "Directory not empty: " ++ str "/e")),
     Sample.tree).
Proof.
  split; [vm_compute; reflexivity|].
  refine (proj1 (C10_failed_rmdir_reported_as_not_empty Sample.rmdir_denied
                   Sample.tree Sample.tree (str "/e") [str "e"]
                   (Sample.eacces [str "e"]) _ _ _) _);
    vm_compute; reflexivity.
Defined.

(** ** searchInFiles *)

Section Search.
Context {world : Type} (R : Runtime world).
Variable str_lower : pystr -> pystr.
Import FileManager.


(** The loop is abandoned at the first entry whose type check fails: the
    OSError of [is_file()] leaves it, whatever was found before. *)
Lemma searchInFiles_loop_is_file_error w term before f after e :
  Forall (fun g => exists b, is_file R w g = inr b) before ->
  is_file R w f = inl e ->
  forall matches,
    searchInFiles_loop R str_lower term (before ++ f :: after) matches w =
    (Raise (OSError e), w).
Proof.
  intros Hbefore Hf.
  induction Hbefore as [|g before [b Hg] _ IH]; intros matches;
    cbn [app searchInFiles_loop]; unfold bind at 1, sys at 1, os_call.
  - rewrite Hf. reflexivity.
  - rewrite Hg. destruct b; [|apply IH].
    unfold bind at 1, try_except at 1, bind at 1, ask at 1.
    destruct (read_bytes R w g) as [e'|bs] eqn:Hb.
    + rewrite (safeRead_oserror R _ _ _ Hb). simpl. apply IH.
    + rewrite (safeRead_bytes R _ _ _ Hb).
      destruct (term_in str_lower term (text_of_bytes bs)); simpl; apply IH.
Qed.
End Search.

(** C7 (what the code does).  The check [filePath.is_file()] stands
    outside the inner [try].  When it fails for one of the entries the
    glob yields, the loop is abandoned and [searchInFiles] returns the
    error result of that failure: the entry is not passed over, and what
    the entries before it had matched is dropped. *)
Theorem C7_failed_type_check_fails_the_search {world : Type}
    (R : Runtime world) (str_lower : pystr -> pystr) (w : world)
    (searchTerm filePattern path_ : pystr) (tp : path)
    (before : list path) (f : path) (after : list path) (e : oserror) :
  resolve R w path_ = Return tp ->
  exists_ R w tp = inr true ->
  rglob R w tp filePattern = Return (before ++ f :: after) ->
  Forall (fun g => exists b, is_file R w g = inr b) before ->
  is_file R w f = inl e ->
  FileManager.searchInFiles R str_lower searchTerm filePattern path_ w =
  (Return (error_result (os_strerror e)), w).
Proof.
  intros Hr Hex Hg Hbefore Hf.
  unfold FileManager.searchInFiles, bind at 1 2, ask at 1, sys at 1, os_call.
  rewrite Hr, Hex. cbn [negb].
  unfold try_except, bind at 1, ask at 1. rewrite Hg.
  unfold bind at 1.
  rewrite (searchInFiles_loop_is_file_error R str_lower w _ _ _ _ _ Hbefore Hf).
  reflexivity.
Qed.

(** The file /priv/b.log lies in a directory that can be listed but not
    searched, so [is_file()] is refused for it.  Searching "needle" in
    all entries below / meets /pub/a.txt, which contains it, before
    /priv/b.log: the result is the PermissionError of /priv/b.log, not a
    success that lists /pub/a.txt. *)
Lemma C7_witness :
  search_hit (Sample.is_file_denied [str "priv"; str "b.log"])
    Sample.ascii_lower Sample.shared (str "needle") [str "pub"; str "a.txt"]
  = true /\
  FileManager.searchInFiles (Sample.is_file_denied [str "priv"; str "b.log"])
    Sample.ascii_lower (str "needle") (str "*") (str "/") Sample.shared
  = (Return (error_result
               (str "[Errno 13] Permission denied: '/priv/b.log'")),
     Sample.shared).
Proof.
  split; [vm_compute; reflexivity|].
  refine (C7_failed_type_check_fails_the_search
            (Sample.is_file_denied [str "priv"; str "b.log"])
            Sample.ascii_lower Sample.shared (str "needle") (str "*")
            (str "/") []
            [[str "pub"; str "a.txt"]]
            [str "priv"; str "b.log"]
            [[str "pub"]; [str "priv"]]
            (Sample.eacces [str "priv"; str "b.log"]) _ _ _ _ _).
  - vm_compute. reflexivity.
  - vm_compute. reflexivity.
  - vm_compute. reflexivity.
  - repeat constructor; eexists; vm_compute; reflexivity.
  - vm_compute. reflexivity.
Defined.



(** ** The order used by [sorted] *)

Lemma str_ltb_irrefl a : str_ltb a a = false.
Proof.
  induction a as [|x a IH]; simpl; [done|].
  rewrite Z.ltb_irrefl, Z.eqb_refl, IH. done.
Qed.

Lemma str_ltb_asym a b : str_ltb a b = true -> str_ltb b a = false.
Proof.
  revert b. induction a as [|x a IH]; intros [|y b]; simpl; try done.
  intros H. apply orb_true_iff in H as [H|H].
  - apply Z.ltb_lt in H.
    apply orb_false_iff. split; [apply Z.ltb_ge; lia|].
    apply andb_false_iff. left. apply Z.eqb_neq. lia.
  - apply andb_true_iff in H as [Hxy Hab]. apply Z.eqb_eq in Hxy as ->.
    rewrite Z.ltb_irrefl, Z.eqb_refl, (IH _ Hab). done.
Qed.

Lemma path_ltb_asym p q : path_ltb p q = true -> path_ltb q p = false.
Proof.
  revert q. induction p as [|a p IH]; intros [|b q]; simpl; try done.
  intros H. apply orb_true_iff in H as [H|H].
  - rewrite (str_ltb_asym _ _ H). simpl.
    case_bool_decide as Hba; [|done]. subst.
    by rewrite str_ltb_irrefl in H.
  - apply andb_true_iff in H as [Hab Hpq].
    apply bool_decide_eq_true in Hab as ->.
    rewrite str_ltb_irrefl, (IH _ Hpq), andb_false_r. done.
Qed.

#[global] Instance path_le_total : Total path_le.
Proof.
  intros p q. unfold path_le.
  destruct (path_ltb q p) eqn:H; [right; by apply path_ltb_asym|by left].
Qed.

(** Two entries of one directory compare as their names do. *)
Lemma path_ltb_siblings (dir : path) (a b : pystr) :
  path_ltb (dir ++ [a]) (dir ++ [b]) = str_ltb a b.
Proof.
  induction dir as [|x dir IH]; simpl.
  - by rewrite andb_false_r, orb_false_r.
  - rewrite str_ltb_irrefl, bool_decide_eq_true_2 by done. simpl. exact IH.
Qed.

(** ** What a successful write has done *)

Lemma writeFile_wrote {world : Type} (R : Runtime world) (w w1 : world)
    (p c : pystr) (ow : bool) (r : dict) :
  FileManager.writeFile R p c ow w = (Return r, w1) ->
  is_success r = true ->
  exists tp bs wa,
    resolve R w p = Return tp /\
    utf8_encode c = Some bs /\
    (ow = false -> exists_ R w tp = inr false) /\
    mkdir_parents R w (Path_parent tp) = (inr tt, wa) /\
    write_bytes R wa tp bs = (inr tt, w1) /\
    r = [(str "success", VBool true);
         (str "bytesWritten", VInt (Zlength' bs));
         (str "path", VStr (Path_str tp))].
Proof.
  unfold FileManager.writeFile. run. intros Hw Hs.
  destruct (resolve R w p) as [tp|e] eqn:Hr; [|done].
  destruct (exists_ R w tp) as [e|ex] eqn:Hex; [done|].
  destruct (ex && negb ow) eqn:Hc; [by simplify_eq|].
  destruct (mkdir_parents R w (Path_parent tp)) as [[e|[]] wa] eqn:Hmk;
    [by simplify_eq|].
  unfold FileManager.Path_write_text, FileManager.str_encode_utf8 in Hw.
  destruct (utf8_encode c) as [bs|] eqn:Hu.
  - unfold cmd, os_call in Hw.
    destruct (write_bytes R wa tp bs) as [[e|[]] wb] eqn:Hwr;
      [by simplify_eq|].
    injection Hw as <- <-.
    exists tp, bs, wa. repeat split; auto.
    intros ->. rewrite andb_true_r in Hc. by subst.
  - unfold bind, cmd, raise, os_call in Hw.
    destruct (write_bytes R wa tp []) as [[e|[]] wb]; by simplify_eq.
Qed.

(** ** The reference platform *)

Section Reference.
Variable fnmatch : pystr -> pystr -> bool.
#[local] Abbreviation R := (RefFS.runtime fnmatch).

(** A path keeps resolving to the same place as long as the working
    directory is where it was and is still a directory. *)
Lemma resolve_stable w w' p tp :
  RefFS.cwd w' = RefFS.cwd w ->
  (forall q t, RefFS.nodes w !! q = Some (RefFS.Dir t) ->
               RefFS.nodes w' !! q = Some (RefFS.Dir t)) ->
  RefFS.resolve w p = Return tp -> RefFS.resolve w' p = Return tp.
Proof.
  unfold RefFS.resolve, RefFS.is_dir_b. intros Hc Hd.
  destruct (str_contains_char 0 p); [done|].
  destruct (startswith (str "/") p); [done|].
  rewrite Hc.
  destruct (RefFS.nodes w !! RefFS.cwd w) as [[|t]|] eqn:E; try done.
  by rewrite (Hd _ _ E).
Qed.

Lemma put_file_cwd w p f :
  RefFS.cwd (RefFS.put_file w p f).2 = RefFS.cwd w.
Proof. unfold RefFS.put_file. repeat case_match; reflexivity. Qed.

(** Writing a file replaces no directory. *)
Lemma put_file_preserves_dir w p f q t :
  RefFS.nodes w !! q = Some (RefFS.Dir t) ->
  RefFS.nodes (RefFS.put_file w p f).2 !! q = Some (RefFS.Dir t).
Proof.
  intros Hq. unfold RefFS.put_file.
  destruct (RefFS.nodes w !! p) as [[old t0|t0]|] eqn:Hp; [|done|].
  - cbn. rewrite lookup_insert_ne; [done|]. intros ->. congruence.
  - destruct (RefFS.nodes w !! Path_parent p) as [[|t1]|]; try done.
    cbn. rewrite lookup_insert_ne; [done|]. intros ->. congruence.
Qed.

Lemma os_mkdir_cwd w p : RefFS.cwd (RefFS.os_mkdir w p).2 = RefFS.cwd w.
Proof. unfold RefFS.os_mkdir. repeat case_match; reflexivity. Qed.

Lemma mkdir_p_cwd fuel w p :
  RefFS.cwd (RefFS.mkdir_p fuel w p).2 = RefFS.cwd w.
Proof.
  revert w p. induction fuel as [|fuel IH]; intros w p; simpl.
  - pose proof (os_mkdir_cwd w p). repeat case_match; simplify_eq/=; done.
  - pose proof (os_mkdir_cwd w p).
    destruct (RefFS.os_mkdir w p) as [[e|[]] w'] eqn:Hm; simpl in *; [|done].
    destruct (RefFS.errno_is_ENOENT e); [|by case_match].
    case_bool_decide; [done|].
    pose proof (IH w (Path_parent p)) as Hp.
    destruct (RefFS.mkdir_p fuel w (Path_parent p)) as [[e1|[]] w1];
      simpl in *; [done|].
    pose proof (os_mkdir_cwd w1 p).
    destruct (RefFS.os_mkdir w1 p) as [[e2|[]] w2]; simpl in *;
      [|congruence].
    by case_match.
Qed.

Lemma os_mkdir_preserves w p q n :
  RefFS.nodes w !! q = Some n ->
  RefFS.nodes (RefFS.os_mkdir w p).2 !! q = Some n.
Proof.
  intros Hq. unfold RefFS.os_mkdir.
  destruct (RefFS.nodes w !! p) eqn:Hp; [done|].
  repeat case_match; try done. cbn.
  rewrite lookup_insert_ne; [done|]. intros ->. congruence.
Qed.

Lemma mkdir_p_preserves fuel : forall w p q n,
  RefFS.nodes w !! q = Some n ->
  RefFS.nodes (RefFS.mkdir_p fuel w p).2 !! q = Some n.
Proof.
  induction fuel as [|fuel IH]; intros w p q n Hq; simpl.
  - pose proof (os_mkdir_preserves w p q n Hq).
    destruct (RefFS.os_mkdir w p) as [[e|[]] w'] eqn:Hm; simpl in *; [|done].
    repeat case_match; done.
  - pose proof (os_mkdir_preserves w p q n Hq).
    destruct (RefFS.os_mkdir w p) as [[e|[]] w'] eqn:Hm; simpl in *; [|done].
    destruct (RefFS.errno_is_ENOENT e); [|by case_match].
    case_bool_decide; [done|].
    pose proof (IH w (Path_parent p) q n Hq) as Hp.
    destruct (RefFS.mkdir_p fuel w (Path_parent p)) as [[e1|[]] w1];
      simpl in *; [done|].
    pose proof (os_mkdir_preserves w1 p q n Hp).
    destruct (RefFS.os_mkdir w1 p) as [[e2|[]] w2]; simpl in *; [|done].
    by case_match.
Qed.

Lemma os_mkdir_ok w w' p :
  RefFS.os_mkdir w p = (inr tt, w') -> RefFS.is_dir_b w' p = true.
Proof.
  unfold RefFS.os_mkdir, RefFS.is_dir_b. intros H.
  destruct (RefFS.nodes w !! p); [done|].
  destruct (RefFS.nodes w !! Path_parent p) as [[]|]; try done.
  injection H as <-. cbn [RefFS.nodes RefFS.set_nodes].
  by rewrite lookup_insert_eq.
Qed.

Lemma mkdir_p_ok fuel : forall w w' p,
  RefFS.mkdir_p fuel w p = (inr tt, w') -> RefFS.is_dir_b w' p = true.
Proof.
  induction fuel as [|fuel IH]; intros w w' p; simpl.
  - destruct (RefFS.os_mkdir w p) as [[e|[]] w1] eqn:Hm.
    + repeat case_match; intros; simplify_eq; done.
    + intros [= <-]. by eapply os_mkdir_ok.
  - destruct (RefFS.os_mkdir w p) as [[e|[]] w1] eqn:Hm.
    + destruct (RefFS.errno_is_ENOENT e).
      * case_bool_decide; [done|].
        destruct (RefFS.mkdir_p fuel w (Path_parent p)) as [[e1|[]] w2];
          [done|].
        destruct (RefFS.os_mkdir w2 p) as [[e2|[]] w3] eqn:Hm2.
        -- destruct (negb _ && RefFS.is_dir_b w2 p) eqn:Hc; [|done].
           intros [= <-]. by apply andb_true_iff in Hc as [_ ?].
        -- intros [= <-]. by eapply os_mkdir_ok.
      * destruct (RefFS.is_dir_b w p) eqn:Hd; [|done]. by intros [= <-].
    + intros [= <-]. by eapply os_mkdir_ok.
Qed.

Lemma mkdir_p_existing fuel w p :
  RefFS.is_dir_b w p = true -> RefFS.mkdir_p fuel w p = (inr tt, w).
Proof.
  unfold RefFS.is_dir_b. intros Hd.
  destruct fuel; simpl; unfold RefFS.os_mkdir;
    destruct (RefFS.nodes w !! p) as [[]|] eqn:Hp; try done;
    cbn; unfold RefFS.is_dir_b; by rewrite Hp.
Qed.

(** Creating the parents leaves every path resolving as before. *)
Lemma mkdir_parents_resolve w w' dir r p tp :
  RefFS.mkdir_parents w dir = (r, w') ->
  RefFS.resolve w p = Return tp -> RefFS.resolve w' p = Return tp.
Proof.
  unfold RefFS.mkdir_parents. intros Hm.
  pose proof (mkdir_p_cwd (List.length dir) w dir) as Hc.
  pose proof (mkdir_p_preserves (List.length dir) w dir) as Hn.
  rewrite Hm in Hc, Hn. cbn [snd] in Hc, Hn.
  apply resolve_stable; [exact Hc|]. intros q t. apply Hn.
Qed.

(** So does writing a file. *)
Lemma put_file_resolve w w' q f r p tp :
  RefFS.put_file w q f = (r, w') ->
  RefFS.resolve w p = Return tp -> RefFS.resolve w' p = Return tp.
Proof.
  intros Hw.
  pose proof (put_file_cwd w q f) as Hc.
  pose proof (put_file_preserves_dir w q f) as Hn.
  rewrite Hw in Hc, Hn. cbn [snd] in Hc, Hn.
  apply resolve_stable; [exact Hc|]. intros q' t. apply Hn.
Qed.

(** A write that succeeds leaves a file with the new content at [p]. *)
Lemma put_file_ok w w' p f :
  RefFS.put_file w p f = (inr tt, w') ->
  exists t,
    RefFS.nodes w' !! p =
    Some (RefFS.File
            (f (match RefFS.nodes w !! p with
                | Some (RefFS.File old _) => old
                | _ => []
                end)) t).
Proof.
  unfold RefFS.put_file. intros H.
  repeat case_match; simplify_eq/=; eexists; apply lookup_insert_eq.
Qed.

(** A location of the reference platform keeps what is written to it;
    its [rmdir] refuses a directory that has entries; its [rmtree], when
    it returns, has removed the directory. *)
Lemma RefFS_keeps_written tp w' : keeps_written R tp w'.
Proof.
  intros w bs Hwr. cbn [write_bytes exists_ read_bytes RefFS.runtime] in *.
  unfold RefFS.write_bytes in Hwr.
  destruct (put_file_ok _ _ _ _ Hwr) as [t Ht].
  unfold RefFS.exists_, RefFS.read_bytes. by rewrite Ht.
Qed.

Lemma RefFS_refuses_nonempty tp w : refuses_nonempty R tp w.
Proof.
  intros q qs Hit. cbn [iterdir rmdir RefFS.runtime] in *.
  unfold RefFS.iterdir in Hit. unfold RefFS.rmdir.
  destruct (RefFS.nodes w !! tp) as [[|t]|]; try done.
  injection Hit as ->. eauto.
Qed.

Lemma RefFS_removes tp w : removes R tp w.
Proof.
  intros w' Hrm. cbn [rmtree exists_ RefFS.runtime] in *.
  unfold RefFS.rmtree in Hrm. unfold RefFS.exists_.
  destruct (RefFS.nodes w !! tp) as [[|t]|]; try done.
  destruct (_ <? _)%nat; [done|]. injection Hrm as <-.
  cbn [RefFS.nodes RefFS.set_nodes].
  rewrite map_lookup_filter_None_2; [reflexivity|].
  right. intros x _ Hnot. apply Hnot. reflexivity.
Qed.

(** What a successful [writeFile] has done on the reference platform. *)
Lemma writeFile_success w w1 p c ow r :
  FileManager.writeFile R p c ow w = (Return r, w1) ->
  is_success r = true ->
  exists tp bs t,
    RefFS.resolve w p = Return tp /\ utf8_encode c = Some bs /\
    RefFS.nodes w1 !! tp = Some (RefFS.File bs t) /\
    RefFS.resolve w1 p = Return tp /\
    (ow = false -> RefFS.nodes w !! tp = None).
Proof.
  intros Hw Hs.
  destruct (writeFile_wrote R _ _ _ _ _ _ Hw Hs)
    as (tp & bs & wa & Hr & Hu & Habs & Hmk & Hwr & _).
  cbn [resolve exists_ mkdir_parents write_bytes RefFS.runtime] in *.
  unfold RefFS.write_bytes in Hwr.
  destruct (put_file_ok _ _ _ _ Hwr) as [t Ht].
  exists tp, bs, t. repeat split; auto.
  - eapply put_file_resolve; [exact Hwr|].
    eapply mkdir_parents_resolve; [exact Hmk|exact Hr].
  - intros Hf. specialize (Habs Hf). unfold RefFS.exists_ in Habs.
    by destruct (RefFS.nodes w !! tp).
Qed.

(** Reading a file whose bytes are [bs]. *)
Lemma readFile_file w p tp bs t :
  RefFS.resolve w p = Return tp ->
  RefFS.nodes w !! tp = Some (RefFS.File bs t) ->
  FileManager.readFile R p w =
  (match utf8_encode (text_of_bytes bs) with
   | Some out =>
       Return [(str "success", VBool true);
               (str "content", VStr (text_of_bytes bs));
               (str "size", VInt (Zlength' out))]
   | None =>
       Return (error_result
                 (exn_str (FileManager.encode_error (text_of_bytes bs))))
   end, w).
Proof.
  intros Hr Hn.
  rewrite (readFile_existing_path R w p tp Hr)
    by (cbn [exists_ RefFS.runtime]; unfold RefFS.exists_; by rewrite Hn).
  cbn [read_bytes RefFS.runtime]. unfold RefFS.read_bytes. by rewrite Hn.
Qed.
End Reference.

(** ** Overwrite gating *)

(** C3.  On the reference platform: once [writeFile(p, c, overwrite=False)]
    has succeeded (which it does only when [p] was absent), a second
    [writeFile(p, c2, overwrite=False)] returns the "File exists" error and
    leaves the world as it was, so the file still holds the bytes of
    [c]. *)
Theorem C3_refused_write_changes_nothing (fnmatch : pystr -> pystr -> bool)
    (w w1 : RefFS.fs) (p c c2 : pystr) (r : dict) :
  FileManager.writeFile (RefFS.runtime fnmatch) p c false w = (Return r, w1) ->
  is_success r = true ->
  FileManager.writeFile (RefFS.runtime fnmatch) p c2 false w1 =
  (Return (error_result (str "File exists and overwrite=False: " ++ p)), w1) /\
  exists tp bs,
    RefFS.resolve w1 p = Return tp /\
    RefFS.nodes w !! tp = None /\
    utf8_encode c = Some bs /\
    RefFS.read_bytes w1 tp = inr bs.
Proof.
  intros Hw Hs.
  destruct (writeFile_success fnmatch _ _ _ _ _ _ Hw Hs)
    as (tp & bs & t & Hr & Hu & Hn & Hr1 & Habs).
  split.
  - unfold FileManager.writeFile. run.
    cbn [resolve exists_ RefFS.runtime]. rewrite Hr1.
    unfold RefFS.exists_. rewrite Hn. reflexivity.
  - exists tp, bs. repeat split; auto.
    unfold RefFS.read_bytes. rewrite Hn. reflexivity.
Qed.

Lemma C3_witness :
  let R := Sample.platform in
  let w1 := (FileManager.writeFile R (str "/n/f.txt") (str "one") false
               Sample.bare).2 in
  FileManager.writeFile R (str "/n/f.txt") (str "two") false w1 =
  (Return (error_result (str "File exists and overwrite=False: "
                         ++ str "/n/f.txt")), w1) /\
  exists tp bs,
    RefFS.resolve w1 (str "/n/f.txt") = Return tp /\
    RefFS.nodes Sample.bare !! tp = None /\
    utf8_encode (str "one") = Some bs /\
    RefFS.read_bytes w1 tp = inr bs.
Proof.
  cbv zeta.
  apply (C3_refused_write_changes_nothing Sample.fnmatch Sample.bare
           _ (str "/n/f.txt") (str "one") (str "two")
           [(str "success", VBool true);
            (str "bytesWritten", VInt 3);
            (str "path", VStr (str "/n/f.txt"))]).
  - vm_compute. reflexivity.
  - vm_compute. reflexivity.
Defined.

(** ** Write then read *)

(** C4, as amended.  On every platform: when [writeFile(p, c)] succeeds
    (so [c] is UTF-8 representable), [p] names the same location [tp]
    after the call as before, and that location has kept what was
    written to it, [readFile(p)] returns [c] with every CR LF pair and
    every other CR replaced by LF, and [size] is the number of bytes of
    that text in UTF-8.  When [c] holds no carriage return this is [c]
    itself, with the UTF-8 length of [c]. *)
Theorem C4_roundtrip_up_to_newlines {world : Type} (R : Runtime world)
    (w w1 : world) (p c : pystr) (overwrite : bool) (r : dict) (tp : path) :
  FileManager.writeFile R p c overwrite w = (Return r, w1) ->
  is_success r = true ->
  resolve R w p = Return tp ->
  resolve R w1 p = Return tp ->
  keeps_written R tp w1 ->
  exists bs out,
    utf8_encode c = Some bs /\
    utf8_encode (universal_newlines c) = Some out /\
    FileManager.readFile R p w1 =
    (Return [(str "success", VBool true);
             (str "content", VStr (universal_newlines c));
             (str "size", VInt (Zlength' out))], w1) /\
    (str_contains_char 13 c = false -> universal_newlines c = c /\ out = bs).
Proof.
  intros Hw Hs Hr Hr1 Hkeeps.
  destruct (writeFile_wrote R _ _ _ _ _ _ Hw Hs)
    as (tp' & bs & wa & Hr' & Hu & _ & _ & Hwr & _).
  assert (tp' = tp) as -> by congruence.
  destruct (Hkeeps _ _ Hwr) as [Hex Hb].
  destruct (utf8_encode_scalar _
              (universal_newlines_scalar _ (utf8_encode_Some_scalar _ _ Hu)))
    as [out Ho].
  exists bs, out. split; [exact Hu|]. split; [exact Ho|]. split.
  - rewrite (readFile_existing_path R w1 p tp Hr1 Hex), Hb.
    unfold text_of_bytes. rewrite (utf8_decode_encode _ _ Hu), Ho.
    reflexivity.
  - intros Hcr. pose proof (universal_newlines_no_cr _ Hcr) as Hsame.
    split; [exact Hsame|]. congruence.
Qed.

(** Writing e-acute, CR, LF, "ok": six bytes are written; reading returns
    e-acute, LF, "ok", which is five bytes long. *)
Lemma C4_witness :
  let R := Sample.platform in
  let c := [233; 13; 10] ++ str "ok" in
  let w1 := (FileManager.writeFile R (str "/n/f.txt") c true Sample.bare).2 in
  exists bs out,
    utf8_encode c = Some bs /\
    utf8_encode (universal_newlines c) = Some out /\
    FileManager.readFile R (str "/n/f.txt") w1 =
    (Return [(str "success", VBool true);
             (str "content", VStr (universal_newlines c));
             (str "size", VInt (Zlength' out))], w1) /\
    (str_contains_char 13 c = false -> universal_newlines c = c /\ out = bs).
Proof.
  cbv zeta.
  apply (C4_roundtrip_up_to_newlines Sample.platform Sample.bare
           (FileManager.writeFile Sample.platform (str "/n/f.txt")
              ([233; 13; 10] ++ str "ok") true Sample.bare).2
           (str "/n/f.txt") ([233; 13; 10] ++ str "ok") true
           [(str "success", VBool true);
            (str "bytesWritten", VInt 6);
            (str "path", VStr (str "/n/f.txt"))]
           [str "n"; str "f.txt"]).
  - vm_compute. reflexivity.
  - vm_compute. reflexivity.
  - vm_compute. reflexivity.
  - vm_compute. reflexivity.
  - apply RefFS_keeps_written.
Defined.

(** C4, as the specification states it, fails: the text "x\ry" is UTF-8
    representable and is written successfully, yet reading the file back
    returns "x\ny", because text mode turns a carriage return into a line
    feed when reading. *)
Lemma C4_counterexample :
  exists r w1,
    utf8_encode [120; 13; 121] = Some [120; 13; 121] /\
    FileManager.writeFile Sample.platform (str "/a") [120; 13; 121] true
      Sample.bare = (Return r, w1) /\
    is_success r = true /\
    FileManager.readFile Sample.platform (str "/a") w1 =
    (Return [(str "success", VBool true);
             (str "content", VStr [120; 10; 121]);
             (str "size", VInt 3)], w1) /\
    [120; 10; 121] <> [120; 13; 121].
Proof.
  eexists _, _. split; [reflexivity|].
  split; [vm_compute; reflexivity|].
  split; [vm_compute; reflexivity|].
  split; [vm_compute; reflexivity|discriminate].
Qed.

(** ** Deleting a directory that has entries *)

(** C6, as amended.  On every platform that, as POSIX asks, refuses to
    [rmdir] the directory while it has entries and whose [rmtree] has
    removed the directory when it returns: for a directory [p] with at
    least one entry, the non-recursive [deleteFolder] returns the
    "Directory not empty" error and leaves the world as it was, so the
    directory is still there.  The recursive [deleteFolder] succeeds whenever [rmtree]
    returns, and then [getFileInfo], if [p] still resolves to the same
    location, returns the "does not exist" error; when [rmtree] fails with
    an OSError the recursive call returns that error's message as an
    error result. *)
Theorem C6_nonempty_folder_outcomes {world : Type} (R : Runtime world)
    (isoformat : Z -> pystr) (w : world) (p : pystr) (tp : path)
    (q : path) (qs : list path) :
  resolve R w p = Return tp ->
  exists_ R w tp = inr true ->
  is_dir R w tp = inr true ->
  iterdir R w tp = inr (q :: qs) ->
  refuses_nonempty R tp w ->
  removes R tp w ->
  FileManager.deleteFolder R p false w =
    (Return (error_result (str "Directory not empty: " ++ p)), w) /\
  (forall w',
      rmtree R w tp = (Return tt, w') ->
      FileManager.deleteFolder R p true w =
        (Return [(str "success", VBool true);
                 (str "deleted", VStr (Path_str tp));
                 (str "recursive", VBool true)], w') /\
      (resolve R w' p = Return tp ->
       FileManager.getFileInfo R isoformat p w' =
         (Return (error_result (str "File does not exist: " ++ p)), w'))) /\
  (forall e w',
      rmtree R w tp = (Raise (OSError e), w') ->
      FileManager.deleteFolder R p true w =
        (Return (error_result (os_strerror e)), w')).
Proof.
  intros Hr Hex Hd Hit Hrmdir Hrmtree.
  split; [|split].
  - destruct (Hrmdir q qs Hit) as [e He].
    unfold FileManager.deleteFolder. run.
    rewrite Hr, Hex. cbn [negb]. rewrite Hd. cbn [negb].
    rewrite He, Hex. reflexivity.
  - intros w' Hrm. split.
    + unfold FileManager.deleteFolder. run.
      rewrite Hr, Hex. cbn [negb]. rewrite Hd. cbn [negb]. rewrite Hrm.
      reflexivity.
    + intros Hr'. unfold FileManager.getFileInfo. run.
      rewrite Hr', (Hrmtree w' Hrm). reflexivity.
  - intros e w' Hrm. unfold FileManager.deleteFolder. run.
    rewrite Hr, Hex. cbn [negb]. rewrite Hd. cbn [negb]. rewrite Hrm.
    reflexivity.
Qed.

(** The directory /d of the sample tree, which has four entries. *)
Lemma C6_witness :
  let R := Sample.platform in
  let w' := (RefFS.rmtree Sample.tree [str "d"]).2 in
  FileManager.deleteFolder R (str "/d") false Sample.tree =
    (Return (error_result (str "Directory not empty: " ++ str "/d")),
     Sample.tree) /\
  FileManager.deleteFolder R (str "/d") true Sample.tree =
    (Return [(str "success", VBool true);
             (str "deleted", VStr (str "/d"));
             (str "recursive", VBool true)], w') /\
  FileManager.getFileInfo R Sample.iso (str "/d") w' =
    (Return (error_result (str "File does not exist: " ++ str "/d")), w').
Proof.
  cbv zeta.
  destruct (C6_nonempty_folder_outcomes Sample.platform Sample.iso
              Sample.tree (str "/d") [str "d"]
              [str "d"; str "sub"]
              [[str "d"; str "c.log"]; [str "d"; str "a.txt"];
               [str "d"; str "b.log"]])
    as (Hplain & Hrec & _).
  - vm_compute. reflexivity.
  - vm_compute. reflexivity.
  - vm_compute. reflexivity.
  - vm_compute. reflexivity.
  - apply RefFS_refuses_nonempty.
  - apply RefFS_removes.
  - destruct (Hrec (RefFS.rmtree Sample.tree [str "d"]).2) as [Hdel Hinfo].
    + vm_compute. reflexivity.
    + split; [exact Hplain|]. split; [exact Hdel|].
      apply Hinfo. vm_compute. reflexivity.
Defined.

(** C6, as the specification states it, fails.  In a read-only directory
    [rmtree] cannot unlink the first entry it meets: the recursive
    [deleteFolder] of the non-empty /d returns the PermissionError as an
    error result, it does not succeed.  And when the directory removed is
    the working directory itself, given as ".", the recursive call
    succeeds but the path no longer resolves: [getFileInfo(".")] raises
    FileNotFoundError instead of returning the "does not exist" error. *)
Lemma C6_counterexample :
  RefFS.children Sample.tree [str "d"] <> [] /\
  FileManager.deleteFolder Sample.rmtree_denied (str "/d") true Sample.tree =
    (Return (error_result (str "[Errno 13] Permission denied: 'sub'")),
     Sample.tree) /\
  RefFS.resolve Sample.tree_from_d (str ".") = Return [str "d"] /\
  exists w',
    FileManager.deleteFolder Sample.platform (str ".") true Sample.tree_from_d
    = (Return [(str "success", VBool true);
               (str "deleted", VStr (str "/d"));
               (str "recursive", VBool true)], w') /\
    FileManager.getFileInfo Sample.platform Sample.iso (str ".") w' =
    (Raise (OSError (OSErr ENOENT
                       (str "[Errno 2] No such file or directory"))), w').
Proof.
  split; [vm_compute; discriminate|].
  split; [vm_compute; reflexivity|].
  split; [vm_compute; reflexivity|].
  eexists. split; vm_compute; reflexivity.
Qed.

(** ** Listing a directory *)

Lemma dict_get_here k v d : dict_get ((k, v) :: d) k = Some v.
Proof. simpl. by rewrite decide_True. Qed.

Lemma dict_get_skip k k' v d :
  k' <> k -> dict_get ((k', v) :: d) k = dict_get d k.
Proof. intros H. simpl. by rewrite decide_False. Qed.

(** Two different literals are different strings. *)
Ltac str_neq :=
  let H := fresh in intros H; vm_compute in H; discriminate H.

(** Looks a literal key up in a dict literal. *)
Ltac dict_lookup :=
  unfold dict_getitem, getitem;
  repeat first
    [ rewrite dict_get_here
    | rewrite dict_get_skip by str_neq ].

Lemma is_child_split p q :
  RefFS.is_child p q = true -> q = p ++ [Path_name q].
Proof.
  unfold RefFS.is_child, Path_parent, Path_name.
  intros H. apply bool_decide_eq_true in H as [Hq <-].
  by apply app_removelast_last.
Qed.

Lemma Sorted_weaken {A} (R1 R2 : relation A) (P : A -> Prop) l :
  (forall x y, P x -> P y -> R1 x y -> R2 x y) ->
  Forall P l -> Sorted R1 l -> Sorted R2 l.
Proof.
  intros HR HP HS. induction HS as [|x l _ IH Hhd]; [constructor|].
  apply Forall_cons in HP as [Hx Hl]. constructor; [auto|].
  destruct Hhd as [|y l' Hxy]; constructor.
  apply Forall_cons in Hl as [Hy _]. auto.
Qed.

Section Listing.
Variable fnmatch : pystr -> pystr -> bool.
#[local] Abbreviation R := (RefFS.runtime fnmatch).

(** On the reference platform the loop of [listDirectory] cannot fail:
    it appends the entry of each member in turn. *)
Lemma listDirectory_loop_ref w entries :
  forall items,
    FileManager.listDirectory_loop R entries items w =
    (Return (items ++ (listing_entry w <$> entries)), w).
Proof.
  induction entries as [|q entries IH]; intros items.
  - cbn. unfold ret. by rewrite app_nil_r.
  - cbn [FileManager.listDirectory_loop]. unfold FileManager.size_if_file.
    run. cbn [is_dir is_file stat RefFS.runtime].
    unfold RefFS.is_dir, RefFS.is_file, RefFS.stat.
    rewrite fmap_cons, cons_middle, app_assoc. unfold listing_entry at 1.
    unfold RefFS.is_dir_b. cbv beta.
    destruct (RefFS.nodes w !! q) as [[data t|t]|] eqn:Hq; cbv beta iota;
      rewrite ?Hq; cbn [st_size]; apply IH.
Qed.

Lemma listDirectory_ref w p tp t :
  RefFS.resolve w p = Return tp ->
  RefFS.nodes w !! tp = Some (RefFS.Dir t) ->
  FileManager.listDirectory R p w =
  (Return [(str "success", VBool true);
           (str "items",
            VList (listing_entry w <$> sorted_paths (RefFS.children w tp)));
           (str "count",
            VInt (Z.of_nat
                    (List.length (sorted_paths (RefFS.children w tp)))))],
   w).
Proof.
  intros Hr Hn. unfold FileManager.listDirectory.
  unfold bind at 1 2, ask at 1, sys at 1, os_call.
  cbn [resolve exists_ RefFS.runtime]. rewrite Hr.
  unfold RefFS.exists_. rewrite Hn. cbn [negb].
  unfold try_except, bind at 1, sys at 1, os_call.
  cbn [iterdir RefFS.runtime]. unfold RefFS.iterdir. rewrite Hn.
  unfold bind at 1. rewrite listDirectory_loop_ref.
  unfold ret. cbn [app]. rewrite length_fmap. reflexivity.
Qed.

Lemma children_are_children w p :
  Forall (fun q => RefFS.is_child p q = true) (RefFS.children w p).
Proof.
  apply Forall_forall. intros q Hq. unfold RefFS.children in Hq.
  by apply list_elem_of_filter in Hq as [Hq _].
Qed.

Lemma sorted_by_name w p :
  Sorted name_le (sorted_paths (RefFS.children w p)).
Proof.
  apply (Sorted_weaken path_le name_le
           (fun q => RefFS.is_child p q = true)).
  - intros x y Hx Hy. unfold path_le, name_le.
    rewrite (is_child_split _ _ Hx), (is_child_split _ _ Hy) at 1.
    by rewrite path_ltb_siblings.
  - unfold sorted_paths. rewrite merge_sort_Permutation.
    apply children_are_children.
  - apply Sorted_merge_sort. apply _.
Qed.
End Listing.

(** C1 (what the code does).  On the reference platform [listDirectory] of
    a directory returns success with one entry per member, sorted by name,
    and their count; every entry has exactly the keys name, type, size and
    path.  There is no last-modified timestamp, and the [listDirectory]
    tool, which reads [item['modified']], raises KeyError as soon as the
    directory has a member. *)
Theorem C1_listing_entries_lack_modified (fnmatch : pystr -> pystr -> bool)
    (w : RefFS.fs) (p : pystr) (tp : path) (t : Z) :
  RefFS.resolve w p = Return tp ->
  RefFS.nodes w !! tp = Some (RefFS.Dir t) ->
  let members := sorted_paths (RefFS.children w tp) in
  FileManager.listDirectory (RefFS.runtime fnmatch) p w =
  (Return [(str "success", VBool true);
           (str "items", VList (listing_entry w <$> members));
           (str "count", VInt (Z.of_nat (List.length members)))], w) /\
  Sorted name_le members /\
  members ≡ₚ RefFS.children w tp /\
  Forall (fun q => exists d,
              listing_entry w q = VDict d /\
              dict_keys d = [str "name"; str "type"; str "size"; str "path"] /\
              dict_get d (str "modified") = None) members /\
  (members <> [] ->
   (FileController.listDirectory (RefFS.runtime fnmatch) p w).1 =
   Raise (KeyError (repr (str "modified")))).
Proof.
  intros Hr Hn members.
  pose proof (listDirectory_ref fnmatch w p tp t Hr Hn) as Hlist.
  fold members in Hlist.
  split; [exact Hlist|]. split; [apply sorted_by_name|].
  split; [apply merge_sort_Permutation|]. split.
  - apply Forall_forall. intros q _. eexists. split; [reflexivity|].
    split; [reflexivity|]. dict_lookup. reflexivity.
  - intros Hne. unfold FileController.listDirectory.
    unfold bind at 1. rewrite Hlist.
    unfold FileController.on_success, FileController.item.
    unfold bind at 1, ask at 1. dict_lookup. cbn [truthy].
    unfold bind at 1, ask at 1. dict_lookup.
    destruct members as [|q rest]; [done|].
    cbn [fmap list_fmap truthy negb].
    unfold bind at 1, ask at 1, as_list.
    unfold bind at 1, ask at 1.
    cbn [FileController.listDirectory_lines].
    unfold FileController.listDirectory_line, listing_entry.
    dict_lookup. reflexivity.
Qed.

Lemma C1_witness :
  (FileController.listDirectory Sample.platform (str "/d") Sample.tree).1 =
  Raise (KeyError (repr (str "modified"))).
Proof.
  refine (proj2 (proj2 (proj2 (proj2
            (C1_listing_entries_lack_modified Sample.fnmatch Sample.tree
               (str "/d") [str "d"] 1 _ _)))) _).
  - vm_compute. reflexivity.
  - vm_compute. reflexivity.
  - vm_compute. discriminate.
Defined.


(** * Further properties of the code *)

(** ** Reading a run backwards *)

Section Inversion.
Context {world : Type}.

Lemma bind_returns {A B} (m : M world A) (k : A -> M world B) w b w' :
  bind m k w = (Return b, w') ->
  exists a w1, m w = (Return a, w1) /\ k a w1 = (Return b, w').
Proof.
  unfold bind. destruct (m w) as [[a|e] w1]; [eauto|discriminate].
Qed.

Lemma ret_returns {A} (a b : A) (w w' : world) :
  ret a w = (Return b, w') -> b = a /\ w' = w.
Proof. unfold ret. by intros [= -> ->]. Qed.

Lemma try_except_returns {A} (body : M world A) h handler w a w' :
  try_except body h handler w = (Return a, w') ->
  body w = (Return a, w') \/
  exists e w1, body w = (Raise e, w1) /\ h e = true /\
               handler e w1 = (Return a, w').
Proof.
  unfold try_except. destruct (body w) as [[x|e] w1]; [by left|].
  destruct (h e) eqn:He; [|discriminate]. right. eauto.
Qed.
End Inversion.

(** From "the method returned [r]" to the [ret] that produced [r]. *)
Ltac inv_run H :=
  cbv beta in H;
  lazymatch type of H with
  | bind _ _ _ = (Return _, _) =>
      let H1 := fresh "Hstep" in
      apply bind_returns in H as (? & ? & H1 & H); inv_run H
  | ret _ _ = (Return _, _) => apply ret_returns in H as [-> ->]
  | try_except _ _ _ _ = (Return _, _) =>
      apply try_except_returns in H as [H | (? & ? & ? & ? & H)]; inv_run H
  | (if ?b then _ else _) _ = (Return _, _) => destruct b eqn:?; inv_run H
  | _ => idtac
  end.

(** ** The shape of every result *)

Section Shapes.
Context {world : Type} (R : Runtime world).
Variable str_lower : pystr -> pystr.
Variable json_dumps : bool -> value -> outcome pystr.
Variable json_loads : pystr -> outcome value.
Variable isoformat : Z -> pystr.
Import FileManager.

Lemma readFile_shape p w r w' :
  readFile R p w = (Return r, w') ->
  (exists m, r = error_result m) \/
  (exists c n, r = [(str "success", VBool true);
                    (str "content", VStr c); (str "size", VInt n)]).
Proof. unfold readFile. intros H. inv_run H; eauto. Qed.

Lemma writeFile_shape p c ow w r w' :
  writeFile R p c ow w = (Return r, w') ->
  (exists m, r = error_result m) \/
  (exists n s, r = [(str "success", VBool true);
                    (str "bytesWritten", VInt n); (str "path", VStr s)]).
Proof. unfold writeFile. intros H. inv_run H; eauto. Qed.

Lemma appendFile_shape p c w r w' :
  appendFile R p c w = (Return r, w') ->
  (exists m, r = error_result m) \/
  (exists n s, r = [(str "success", VBool true);
                    (str "bytesAppended", VInt n); (str "path", VStr s)]).
Proof. unfold appendFile. intros H. inv_run H; eauto. Qed.

Lemma deleteFile_shape p w r w' :
  deleteFile R p w = (Return r, w') ->
  (exists m, r = error_result m) \/
  (exists s, r = [(str "success", VBool true); (str "deleted", VStr s)]).
Proof. unfold deleteFile. intros H. inv_run H; eauto. Qed.

Lemma copyFile_shape p q w r w' :
  copyFile R p q w = (Return r, w') ->
  (exists m, r = error_result m) \/
  (exists a b, r = [(str "success", VBool true);
                    (str "copiedFrom", VStr a); (str "copiedTo", VStr b)]).
Proof. unfold copyFile. intros H. inv_run H; eauto. Qed.

Lemma moveFile_shape p q w r w' :
  moveFile R p q w = (Return r, w') ->
  (exists m, r = error_result m) \/
  (exists a b, r = [(str "success", VBool true);
                    (str "movedFrom", VStr a); (str "movedTo", VStr b)]).
Proof. unfold moveFile. intros H. inv_run H; eauto. Qed.

Lemma getFileInfo_shape p w r w' :
  getFileInfo R isoformat p w = (Return r, w') ->
  (exists m, r = error_result m) \/
  (exists s n tm tc d f x,
      r = [(str "success", VBool true); (str "path", VStr s);
           (str "size", VInt n); (str "modified", VStr tm);
           (str "created", VStr tc); (str "isDir", VBool d);
           (str "isFile", VBool f); (str "extension", VStr x)]).
Proof. unfold getFileInfo. intros H. inv_run H; eauto 10. Qed.

Lemma writeJsonFile_shape p data ow w r w' :
  writeJsonFile R json_dumps p data ow w = (Return r, w') ->
  (exists m, r = error_result m) \/
  (exists n s, r = [(str "success", VBool true);
                    (str "bytesWritten", VInt n); (str "path", VStr s)]).
Proof.
  unfold writeJsonFile. intros H. inv_run H; eauto.
  eapply writeFile_shape, H.
Qed.

Lemma readJsonFile_shape p w r w' :
  readJsonFile R json_loads p w = (Return r, w') ->
  (exists m, r = error_result m) \/
  (exists v, r = [(str "success", VBool true); (str "data", v)]).
Proof.
  unfold readJsonFile. intros H. inv_run H; eauto.
  destruct (readFile_shape _ _ _ _ Hstep) as [?|(c & n & ->)]; [by left|].
  unfold ask in Hstep0. revert Hstep0. dict_lookup. intros [= <- <-]. done.
Qed.

Lemma listDirectory_shape p w r w' :
  listDirectory R p w = (Return r, w') ->
  (exists m, r = error_result m) \/
  (exists l, r = [(str "success", VBool true); (str "items", VList l);
                  (str "count", VInt (Z.of_nat (List.length l)))]).
Proof. unfold listDirectory. intros H. inv_run H; eauto. Qed.

Lemma createFolder_shape p w r w' :
  createFolder R p w = (Return r, w') ->
  (exists m, r = error_result m) \/
  (exists s, r = [(str "success", VBool true); (str "created", VStr s)]).
Proof. unfold createFolder. intros H. inv_run H; eauto. Qed.

Lemma deleteFolder_shape p recursive w r w' :
  deleteFolder R p recursive w = (Return r, w') ->
  (exists m, r = error_result m) \/
  (exists s, r = [(str "success", VBool true); (str "deleted", VStr s);
                  (str "recursive", VBool recursive)]).
Proof. unfold deleteFolder. intros H. inv_run H; eauto. Qed.

Lemma findFiles_shape pattern p w r w' :
  findFiles R pattern p w = (Return r, w') ->
  (exists m, r = error_result m) \/
  (exists l, r = [(str "success", VBool true); (str "matches", VList l);
                  (str "count", VInt (Z.of_nat (List.length l)))]).
Proof. unfold findFiles. intros H. inv_run H; eauto. Qed.

Lemma searchInFiles_shape term pattern p w r w' :
  searchInFiles R str_lower term pattern p w = (Return r, w') ->
  (exists m, r = error_result m) \/
  (exists l, r = [(str "success", VBool true); (str "files", VList l);
                  (str "count", VInt (Z.of_nat (List.length l)))]).
Proof. unfold searchInFiles. intros H. inv_run H; eauto. Qed.

End Shapes.

(** A dict literal that starts with [success: True] and has no [error]
    key is a well-formed success. *)
Ltac envelope_success :=
  left; split; [unfold is_success; dict_lookup; reflexivity
               |dict_lookup; reflexivity].

Ltac envelope_from lemma :=
  unfold on_return;
  match goal with
  | |- match ?call.1 with _ => _ end =>
      destruct call as [[r|e] w'] eqn:Hcall; [|exact I];
      cbn [fst];
      apply lemma in Hcall;
      destruct Hcall as [[m ->]|Hs]; [right; eauto|];
      repeat (lazymatch type of Hs with
              | ex _ => let x := fresh in destruct Hs as [x Hs]
              end);
      subst r;
      envelope_success
  end.

(** X1.  Whatever any of the fourteen methods returns, on any platform,
    is a well-formed envelope: either a dict whose [success] is true and
    that has no [error] key, or exactly [{"success": False, "error": m}]. *)
Theorem X1_every_result_is_an_envelope {world : Type} (R : Runtime world)
    (str_lower : pystr -> pystr)
    (json_dumps : bool -> value -> outcome pystr)
    (json_loads : pystr -> outcome value)
    (isoformat : Z -> pystr)
    (w : world) (p q content term pattern : pystr) (data : value)
    (overwrite recursive : bool) :
  on_return envelope (FileManager.readFile R p w) /\
  on_return envelope (FileManager.writeFile R p content overwrite w) /\
  on_return envelope (FileManager.appendFile R p content w) /\
  on_return envelope (FileManager.deleteFile R p w) /\
  on_return envelope (FileManager.copyFile R p q w) /\
  on_return envelope (FileManager.moveFile R p q w) /\
  on_return envelope (FileManager.getFileInfo R isoformat p w) /\
  on_return envelope (FileManager.writeJsonFile R json_dumps p data overwrite w) /\
  on_return envelope (FileManager.readJsonFile R json_loads p w) /\
  on_return envelope (FileManager.listDirectory R p w) /\
  on_return envelope (FileManager.createFolder R p w) /\
  on_return envelope (FileManager.deleteFolder R p recursive w) /\
  on_return envelope (FileManager.findFiles R pattern p w) /\
  on_return envelope (FileManager.searchInFiles R str_lower term pattern p w).
Proof.
  repeat split.
  - envelope_from (readFile_shape R).
  - envelope_from (writeFile_shape R).
  - envelope_from (appendFile_shape R).
  - envelope_from (deleteFile_shape R).
  - envelope_from (copyFile_shape R).
  - envelope_from (moveFile_shape R).
  - envelope_from (getFileInfo_shape R isoformat).
  - envelope_from (writeJsonFile_shape R json_dumps).
  - envelope_from (readJsonFile_shape R json_loads).
  - envelope_from (listDirectory_shape R).
  - envelope_from (createFolder_shape R).
  - envelope_from (deleteFolder_shape R).
  - envelope_from (findFiles_shape R).
  - envelope_from (searchInFiles_shape R str_lower).
Qed.

(** ** Methods that answer once their checks have answered *)

Section GuardedReturns.
Context {world : Type} (R : Runtime world).
Variable str_lower : pystr -> pystr.
Variable isoformat : Z -> pystr.
Import FileManager.












End GuardedReturns.



(** ** What the tools do with a result *)

Section ToolsTotal.
Context {world : Type} (R : Runtime world).
Variable str_lower : pystr -> pystr.
Variable json_dumps : bool -> value -> outcome pystr.

Lemma findFiles_loop_entries ms :
  forall results w out w',
    FileManager.findFiles_loop R ms results w = (Return out, w') ->
    Forall is_match_entry results -> Forall is_match_entry out.
Proof.
  induction ms as [|m ms IH]; intros results w out w' H Hres.
  - cbn in H. by apply ret_returns in H as [-> _].
  - cbn [FileManager.findFiles_loop] in H. inv_run H.
    eapply IH; [exact H|].
    apply Forall_app. split; [exact Hres|].
    repeat constructor. unfold is_match_entry. eauto 10.
Qed.

Lemma searchInFiles_loop_entries term files :
  forall matches w out w',
    FileManager.searchInFiles_loop R str_lower term files matches w
    = (Return out, w') ->
    Forall is_search_entry matches -> Forall is_search_entry out.
Proof.
  induction files as [|f files IH]; intros matches w out w' H Hm.
  - cbn in H. by apply ret_returns in H as [-> _].
  - cbn [FileManager.searchInFiles_loop] in H.
    apply bind_returns in H as (b & w1 & _ & H). cbv beta in H.
    destruct b; [|eapply IH; eauto].
    apply bind_returns in H as (matches' & w2 & Htry & H).
    eapply IH; [exact H|]. inv_run Htry; try exact Hm.
    apply Forall_app. split; [exact Hm|].
    repeat constructor. unfold is_search_entry. eauto.
Qed.

Lemma findFiles_shape_entries pattern p w r w' :
  FileManager.findFiles R pattern p w = (Return r, w') ->
  (exists m, r = error_result m) \/
  (exists l, Forall is_match_entry l /\
             r = [(str "success", VBool true); (str "matches", VList l);
                  (str "count", VInt (Z.of_nat (List.length l)))]).
Proof.
  unfold FileManager.findFiles. intros H. inv_run H; eauto.
  right. eexists. split; [|reflexivity].
  eapply findFiles_loop_entries; [exact Hstep2|constructor].
Qed.

Lemma searchInFiles_shape_entries term pattern p w r w' :
  FileManager.searchInFiles R str_lower term pattern p w = (Return r, w') ->
  (exists m, r = error_result m) \/
  (exists l, Forall is_search_entry l /\
             r = [(str "success", VBool true); (str "files", VList l);
                  (str "count", VInt (Z.of_nat (List.length l)))]).
Proof.
  unfold FileManager.searchInFiles. intros H. inv_run H; eauto.
  right. eexists. split; [|reflexivity].
  eapply searchInFiles_loop_entries; [exact Hstep2|constructor].
Qed.

Lemma field_of_each_path l :
  Forall is_match_entry l ->
  exists vs, FileController.field_of_each (str "path") l = Return vs /\
             Forall (fun v => exists s, v = VStr s) vs.
Proof.
  induction 1 as [|v l (a & b & c & n & ->) _ (vs & Hvs & Hall)].
  - exists []. split; [reflexivity|constructor].
  - exists (VStr a :: vs). cbn [FileController.field_of_each].
    dict_lookup. rewrite Hvs. split; [reflexivity|]. constructor; eauto.
Qed.

Lemma field_of_each_file l :
  Forall is_search_entry l ->
  exists vs, FileController.field_of_each (str "file") l = Return vs /\
             Forall (fun v => exists s, v = VStr s) vs.
Proof.
  induction 1 as [|v l (a & b & ->) _ (vs & Hvs & Hall)].
  - exists []. split; [reflexivity|constructor].
  - exists (VStr a :: vs). cbn [FileController.field_of_each].
    dict_lookup. rewrite Hvs. split; [reflexivity|]. constructor; eauto.
Qed.

Lemma newline_join_strs vs :
  Forall (fun v => exists s, v = VStr s) vs ->
  exists s, newline_join vs = Return (VStr s).
Proof.
  unfold newline_join. intros H.
  assert (exists l, join_lines vs = Return l) as [l ->]; [|eauto].
  induction H as [|v vs [s ->] _ [l IH]]; [by exists []|].
  exists (s :: l). cbn. by rewrite IH.
Qed.

(** When the method returned [r], of one of the shapes its shape lemma
    gives, the formatting of the tool reads only keys that [r] has. *)
Ltac tool_total shape :=
  unfold returns_str; unfold bind at 1;
  match goal with
  | |- context [(let (_, _) := ?call in _).1] =>
      destruct call as [[r|e] w'] eqn:Hcall; [|reflexivity];
      apply shape in Hcall;
      destruct Hcall as [[m ->]|Hs]; [reflexivity|];
      repeat (lazymatch type of Hs with
              | ex _ => let x := fresh in destruct Hs as [x Hs]
              end);
      subst r; reflexivity
  end.

Lemma readFile_tool_total p w :
  returns_str (FileController.readFile R p w) =
  returns (FileManager.readFile R p w).1.
Proof. unfold FileController.readFile. tool_total (readFile_shape R). Qed.

Lemma writeFile_tool_total p c ow w :
  returns_str (FileController.writeFile R p c ow w) =
  returns (FileManager.writeFile R p c ow w).1.
Proof. unfold FileController.writeFile. tool_total (writeFile_shape R). Qed.

Lemma appendFile_tool_total p c w :
  returns_str (FileController.appendFile R p c w) =
  returns (FileManager.appendFile R p c w).1.
Proof. unfold FileController.appendFile. tool_total (appendFile_shape R). Qed.

Lemma deleteFile_tool_total p w :
  returns_str (FileController.deleteFile R p w) =
  returns (FileManager.deleteFile R p w).1.
Proof. unfold FileController.deleteFile. tool_total (deleteFile_shape R). Qed.

Lemma copyFile_tool_total p q w :
  returns_str (FileController.copyFile R p q w) =
  returns (FileManager.copyFile R p q w).1.
Proof. unfold FileController.copyFile. tool_total (copyFile_shape R). Qed.

Lemma moveFile_tool_total p q w :
  returns_str (FileController.moveFile R p q w) =
  returns (FileManager.moveFile R p q w).1.
Proof. unfold FileController.moveFile. tool_total (moveFile_shape R). Qed.

Lemma writeJsonFile_tool_total p data ow w :
  returns_str (FileController.writeJsonFile R json_dumps p data ow w) =
  returns (FileManager.writeJsonFile R json_dumps p data ow w).1.
Proof.
  unfold FileController.writeJsonFile.
  tool_total (writeJsonFile_shape R json_dumps).
Qed.

Lemma createFolder_tool_total p w :
  returns_str (FileController.createFolder R p w) =
  returns (FileManager.createFolder R p w).1.
Proof.
  unfold FileController.createFolder. tool_total (createFolder_shape R).
Qed.

Lemma deleteFolder_tool_total p recursive w :
  returns_str (FileController.deleteFolder R p recursive w) =
  returns (FileManager.deleteFolder R p recursive w).1.
Proof.
  unfold FileController.deleteFolder. tool_total (deleteFolder_shape R).
Qed.

Lemma findFiles_tool_total pattern p w :
  returns_str (FileController.findFiles R pattern p w) =
  returns (FileManager.findFiles R pattern p w).1.
Proof.
  unfold returns_str, FileController.findFiles. unfold bind at 1.
  destruct (FileManager.findFiles R pattern p w) as [[r|e] w'] eqn:Hcall;
    [|reflexivity].
  apply findFiles_shape_entries in Hcall as [[m ->]|(l & Hl & ->)];
    [reflexivity|].
  unfold FileController.on_success, FileController.item. run. dict_lookup.
  cbn [truthy]. dict_lookup. destruct l as [|v l]; [reflexivity|].
  cbn [truthy negb as_list].
  destruct (field_of_each_path _ Hl) as (vs & -> & Hvs).
  destruct (newline_join_strs ((fun v => VStr (value_str v)) <$> vs))
    as [s ->]; [|reflexivity].
  apply Forall_fmap, Forall_forall. intros x _. cbn. eauto.
Qed.

Lemma searchInFiles_tool_total term pattern p w :
  returns_str (FileController.searchInFiles R str_lower term pattern p w) =
  returns (FileManager.searchInFiles R str_lower term pattern p w).1.
Proof.
  unfold returns_str, FileController.searchInFiles. unfold bind at 1.
  destruct (FileManager.searchInFiles R str_lower term pattern p w)
    as [[r|e] w'] eqn:Hcall; [|reflexivity].
  apply searchInFiles_shape_entries in Hcall as [[m ->]|(l & Hl & ->)];
    [reflexivity|].
  unfold FileController.on_success, FileController.item. run. dict_lookup.
  cbn [truthy]. dict_lookup. destruct l as [|v l]; [reflexivity|].
  cbn [truthy negb as_list].
  destruct (field_of_each_file _ Hl) as (vs & -> & Hvs).
  destruct (newline_join_strs vs Hvs) as [s ->]. reflexivity.
Qed.

End ToolsTotal.

(** X2.  Eleven of the fourteen tools return a string exactly when the
    method they call returns: their formatting reads only keys that the
    method's result has.  (The three others are [listDirectory], see C1,
    and [getFileInfo] and [readJsonFile], which call [json.dumps].) *)
Theorem X2_tools_format_every_result {world : Type} (R : Runtime world)
    (str_lower : pystr -> pystr)
    (json_dumps : bool -> value -> outcome pystr)
    (w : world) (p q content term pattern : pystr) (data : value)
    (overwrite recursive : bool) :
  returns_str (FileController.readFile R p w) =
    returns (FileManager.readFile R p w).1 /\
  returns_str (FileController.writeFile R p content overwrite w) =
    returns (FileManager.writeFile R p content overwrite w).1 /\
  returns_str (FileController.appendFile R p content w) =
    returns (FileManager.appendFile R p content w).1 /\
  returns_str (FileController.deleteFile R p w) =
    returns (FileManager.deleteFile R p w).1 /\
  returns_str (FileController.copyFile R p q w) =
    returns (FileManager.copyFile R p q w).1 /\
  returns_str (FileController.moveFile R p q w) =
    returns (FileManager.moveFile R p q w).1 /\
  returns_str (FileController.writeJsonFile R json_dumps p data overwrite w) =
    returns (FileManager.writeJsonFile R json_dumps p data overwrite w).1 /\
  returns_str (FileController.createFolder R p w) =
    returns (FileManager.createFolder R p w).1 /\
  returns_str (FileController.deleteFolder R p recursive w) =
    returns (FileManager.deleteFolder R p recursive w).1 /\
  returns_str (FileController.findFiles R pattern p w) =
    returns (FileManager.findFiles R pattern p w).1 /\
  returns_str (FileController.searchInFiles R str_lower term pattern p w) =
    returns (FileManager.searchInFiles R str_lower term pattern p w).1.
Proof.
  repeat split;
    auto using readFile_tool_total, writeFile_tool_total,
      appendFile_tool_total, deleteFile_tool_total, copyFile_tool_total,
      moveFile_tool_total, writeJsonFile_tool_total, createFolder_tool_total,
      deleteFolder_tool_total, findFiles_tool_total,
      searchInFiles_tool_total.
Qed.

(** ** The JSON methods *)

(** X3.  [writeJsonFile] never raises, on any platform and for any input:
    its [try] spans the whole body, the call to [writeFile] included. *)
Theorem X3_writeJsonFile_never_raises {world : Type} (R : Runtime world)
    (json_dumps : bool -> value -> outcome pystr)
    (w : world) (p : pystr) (data : value) (overwrite : bool) :
  returns (FileManager.writeJsonFile R json_dumps p data overwrite w).1 = true.
Proof. apply try_except_Exception_returns. done. Qed.

(** X4.  Because of that, a failure that has nothing to do with JSON is
    reported as a serialisation failure: when the data serialises but the
    path cannot be resolved, [writeJsonFile] returns "Failed to serialize
    JSON: " followed by the message of the resolution error. *)
Theorem X4_writeJsonFile_blames_json {world : Type} (R : Runtime world)
    (json_dumps : bool -> value -> outcome pystr)
    (w : world) (p : pystr) (data : value) (overwrite : bool)
    (text : pystr) (e : exn) :
  json_dumps false data = Return text ->
  resolve R w p = Raise e ->
  FileManager.writeJsonFile R json_dumps p data overwrite w =
  (Return (error_result (str "Failed to serialize JSON: " ++ exn_str e)), w).
Proof.
  intros Hj Hr. unfold FileManager.writeJsonFile, FileManager.writeFile.
  run. rewrite Hj, Hr. reflexivity.
Qed.

Lemma X4_witness :
  FileManager.writeJsonFile Sample.platform (fun _ _ => Return (str "{}"))
    [97; 0] (VDict []) true Sample.bare =
  (Return (error_result (str "Failed to serialize JSON: "
                         ++ str "embedded null byte")), Sample.bare).
Proof.
  apply (X4_writeJsonFile_blames_json Sample.platform
           (fun _ _ => Return (str "{}")) Sample.bare [97; 0] (VDict []) true
           (str "{}") (ValueError (str "embedded null byte"))).
  - reflexivity.
  - vm_compute. reflexivity.
Defined.

(** X5.  [readJsonFile], once [readFile] has returned [r]: an error result
    is handed on unchanged; otherwise the content is parsed, a
    JSONDecodeError becomes the "Invalid JSON" error result, and any other
    exception of the parser leaves the method. *)
Theorem X5_readJsonFile_outcomes {world : Type} (R : Runtime world)
    (json_loads : pystr -> outcome value)
    (w w' : world) (p : pystr) (r : dict) :
  FileManager.readFile R p w = (Return r, w') ->
  FileManager.readJsonFile R json_loads p w =
  match dict_get r (str "content") with
  | None => (Return r, w')
  | Some content =>
      match FileManager.json_loads_value json_loads content with
      | Return data =>
          (Return [(str "success", VBool true); (str "data", data)], w')
      | Raise e =>
          if is_JSONDecodeError e
          then (Return (error_result (str "Invalid JSON: " ++ exn_str e)), w')
          else (Raise e, w')
      end
  end.
Proof.
  intros Hread. unfold FileManager.readJsonFile. unfold bind at 1.
  rewrite Hread.
  destruct (readFile_shape R _ _ _ _ Hread) as [[m ->]|(c & n & ->)].
  - run. dict_lookup. reflexivity.
  - run. dict_lookup. cbn [truthy negb FileManager.json_loads_value].
    destruct (json_loads c) as [data|e]; [reflexivity|].
    destruct (is_JSONDecodeError e); reflexivity.
Qed.

(** A parser that fails with a ValueError which is no JSONDecodeError
    (Python's answer to a number of more than 4300 digits): the exception
    leaves [readJsonFile]. *)
Lemma X5_witness :
  FileManager.readJsonFile Sample.platform
    (fun _ => Raise (ValueError (str "Exceeds the limit (4300 digits)")))
    (str "/d/a.txt") Sample.tree =
  (Raise (ValueError (str "Exceeds the limit (4300 digits)")), Sample.tree).
Proof.
  refine (eq_trans
            (X5_readJsonFile_outcomes Sample.platform
               (fun _ => Raise (ValueError (str "Exceeds the limit (4300 digits)")))
               Sample.tree Sample.tree (str "/d/a.txt")
               [(str "success", VBool true);
                (str "content", VStr (str "Hello Needle"));
                (str "size", VInt 12)] _) _).
  - vm_compute. reflexivity.
  - vm_compute. reflexivity.
Defined.

(** ** Type guards and missing sources *)

(** X6.  For a path that exists: [deleteFile] refuses a directory and
    [deleteFolder] refuses anything that is not one, each with its own
    message and without touching the world. *)
Theorem X6_delete_type_guards {world : Type} (R : Runtime world)
    (w : world) (p : pystr) (tp : path) (d : bool) :
  resolve R w p = Return tp ->
  exists_ R w tp = inr true ->
  is_dir R w tp = inr d ->
  if d then
    FileManager.deleteFile R p w =
    (Return (error_result (str "Use deleteFolder for directories: " ++ p)), w)
  else
    forall recursive,
      FileManager.deleteFolder R p recursive w =
      (Return (error_result (str "Not a directory: " ++ p)), w).
Proof.
  intros Hr Hex Hd. destruct d.
  - unfold FileManager.deleteFile. run. rewrite Hr, Hex. cbn [negb].
    rewrite Hd. reflexivity.
  - intros recursive. unfold FileManager.deleteFolder. run.
    rewrite Hr, Hex. cbn [negb]. rewrite Hd. reflexivity.
Qed.

Lemma X6_witness :
  FileManager.deleteFile Sample.platform (str "/d") Sample.tree =
  (Return (error_result (str "Use deleteFolder for directories: "
                         ++ str "/d")), Sample.tree).
Proof.
  apply (X6_delete_type_guards Sample.platform Sample.tree (str "/d")
           [str "d"] true); vm_compute; reflexivity.
Defined.

(** X7.  [copyFile] and [moveFile] with a source that does not exist
    return the "Source file does not exist" error, naming the source as
    given, and change nothing. *)
Theorem X7_missing_source {world : Type} (R : Runtime world)
    (w : world) (sourcePath destPath : pystr) (source dest : path) :
  resolve R w sourcePath = Return source ->
  resolve R w destPath = Return dest ->
  exists_ R w source = inr false ->
  let missing :=
    error_result (str "Source file does not exist: " ++ sourcePath) in
  FileManager.copyFile R sourcePath destPath w = (Return missing, w) /\
  FileManager.moveFile R sourcePath destPath w = (Return missing, w).
Proof.
  intros Hs Hd Hex. cbv zeta.
  unfold FileManager.copyFile, FileManager.moveFile. run.
  rewrite Hs, Hd, Hex. auto.
Qed.

Lemma X7_witness :
  let missing :=
    error_result (str "Source file does not exist: " ++ str "/zzz") in
  FileManager.copyFile Sample.platform (str "/zzz") (str "/e/x") Sample.tree
  = (Return missing, Sample.tree) /\
  FileManager.moveFile Sample.platform (str "/zzz") (str "/e/x") Sample.tree
  = (Return missing, Sample.tree).
Proof.
  apply (X7_missing_source Sample.platform Sample.tree (str "/zzz")
           (str "/e/x") [str "zzz"] [str "e"; str "x"]);
    vm_compute; reflexivity.
Defined.

(** ** The encoding chain, continued *)

(** X8.  The third encoding of the chain is dead: whatever the file
    holds, [_safeRead] never tries cp1252, because latin-1 before it
    accepts every byte sequence. *)
Theorem X8_cp1252_is_never_tried {world : Type} (R : Runtime world)
    (w : world) (filePath : path) :
  cp1252 ∉ FileManager._safeRead_attempts R w filePath.
Proof.
  unfold FileManager._safeRead_attempts.
  destruct (read_bytes R w filePath) as [e|bs] eqn:Hb.
  - simpl. rewrite (Path_read_text_oserror R _ _ _ _ Hb). simpl.
    rewrite !not_elem_of_cons. repeat split; try discriminate.
    apply not_elem_of_nil.
  - rewrite (safeRead_loop_bytes R _ _ _ Hb). simpl.
    destruct (utf8_decode bs); rewrite !not_elem_of_cons;
      repeat split; try discriminate; apply not_elem_of_nil.
Qed.

(** X9.  [readFile] of a path that exists but whose bytes cannot be
    read (it is a directory, or the open is refused) returns the error
    result that carries the message of the OSError, and changes nothing. *)
Theorem X9_unreadable_path_is_an_error_result {world : Type}
    (R : Runtime world) (w : world) (p : pystr) (tp : path) (e : oserror) :
  resolve R w p = Return tp ->
  exists_ R w tp = inr true ->
  read_bytes R w tp = inl e ->
  FileManager.readFile R p w = (Return (error_result (os_strerror e)), w).
Proof.
  intros Hr Hex Hb.
  rewrite (readFile_existing_path R w p tp Hr Hex), Hb. reflexivity.
Qed.

(** Reading the directory /d. *)
Lemma X9_witness :
  FileManager.readFile Sample.platform (str "/d") Sample.tree =
  (Return (error_result (os_strerror (RefFS.eisdir [str "d"]))), Sample.tree).
Proof.
  apply (X9_unreadable_path_is_an_error_result Sample.platform Sample.tree
           (str "/d") [str "d"] (RefFS.eisdir [str "d"]));
    vm_compute; reflexivity.
Defined.

(** ** Globbing that fails *)

(** X10.  When the glob itself raises (as it does for an absolute
    pattern), [findFiles] and [searchInFiles] return the error result with
    its message. *)
Theorem X10_glob_failure_is_an_error_result {world : Type}
    (R : Runtime world) (str_lower : pystr -> pystr)
    (w : world) (term pattern p : pystr) (tp : path) (e : exn) :
  resolve R w p = Return tp ->
  exists_ R w tp = inr true ->
  rglob R w tp pattern = Raise e ->
  FileManager.findFiles R pattern p w =
    (Return (error_result (exn_str e)), w) /\
  FileManager.searchInFiles R str_lower term pattern p w =
    (Return (error_result (exn_str e)), w).
Proof.
  intros Hr Hex Hg.
  unfold FileManager.findFiles, FileManager.searchInFiles. run.
  rewrite Hr, Hex. cbn [negb]. rewrite Hg. auto.
Qed.

Lemma X10_witness :
  FileManager.findFiles Sample.platform (str "/etc/*") (str "/d") Sample.tree
  = (Return (error_result (str "Non-relative patterns are unsupported")),
     Sample.tree) /\
  FileManager.searchInFiles Sample.platform Sample.ascii_lower (str "x")
    (str "/etc/*") (str "/d") Sample.tree
  = (Return (error_result (str "Non-relative patterns are unsupported")),
     Sample.tree).
Proof.
  apply (X10_glob_failure_is_an_error_result Sample.platform
           Sample.ascii_lower Sample.tree (str "x") (str "/etc/*")
           (str "/d") [str "d"]
           (NotImplementedError (str "Non-relative patterns are unsupported")));
    vm_compute; reflexivity.
Defined.

(** ** Folders *)

(** X11.  On the reference platform, a [createFolder] that succeeds has
    made the path a directory and has kept every entry that was there;
    calling it again returns the same result and changes nothing. *)
Theorem X11_createFolder_creates_and_is_idempotent
    (fnmatch : pystr -> pystr -> bool) (w w1 : RefFS.fs) (p : pystr)
    (r : dict) :
  FileManager.createFolder (RefFS.runtime fnmatch) p w = (Return r, w1) ->
  is_success r = true ->
  exists tp,
    RefFS.resolve w p = Return tp /\
    RefFS.is_dir w1 tp = inr true /\
    (forall q n, RefFS.nodes w !! q = Some n ->
                 RefFS.nodes w1 !! q = Some n) /\
    FileManager.createFolder (RefFS.runtime fnmatch) p w1 = (Return r, w1).
Proof.
  unfold FileManager.createFolder. run.
  cbn [resolve mkdir_parents RefFS.runtime]. intros H Hs.
  destruct (RefFS.resolve w p) as [tp|e] eqn:Hr; [|done].
  pose proof (fun r w' => mkdir_parents_resolve w w' tp r p tp) as Hres.
  unfold RefFS.mkdir_parents in *.
  pose proof (mkdir_p_preserves (List.length tp) w tp) as Hpres.
  destruct (RefFS.mkdir_p (List.length tp) w tp) as [[e|[]] wa] eqn:Hm;
    [by simplify_eq|].
  injection H as <- <-. cbn [snd] in *.
  pose proof (mkdir_p_ok _ _ _ _ Hm) as Hd.
  exists tp. split; [done|]. split.
  { unfold RefFS.is_dir. unfold RefFS.is_dir_b in Hd.
    by destruct (RefFS.nodes wa !! tp) as [[]|]. }
  split; [exact Hpres|].
  rewrite (Hres _ _ eq_refl Hr).
  by rewrite (mkdir_p_existing _ _ _ Hd).
Qed.

Lemma X11_witness :
  exists tp,
    RefFS.resolve Sample.bare (str "/x/y") = Return tp /\
    RefFS.is_dir
      (FileManager.createFolder Sample.platform (str "/x/y") Sample.bare).2
      tp = inr true /\
    (forall q n,
        RefFS.nodes Sample.bare !! q = Some n ->
        RefFS.nodes
          (FileManager.createFolder Sample.platform (str "/x/y") Sample.bare).2
          !! q = Some n) /\
    FileManager.createFolder Sample.platform (str "/x/y")
      (FileManager.createFolder Sample.platform (str "/x/y") Sample.bare).2
    = (Return [(str "success", VBool true);
               (str "created", VStr (str "/x/y"))],
       (FileManager.createFolder Sample.platform (str "/x/y") Sample.bare).2).
Proof.
  apply (X11_createFolder_creates_and_is_idempotent Sample.fnmatch
           Sample.bare _ (str "/x/y")
           [(str "success", VBool true); (str "created", VStr (str "/x/y"))]).
  - vm_compute. reflexivity.
  - vm_compute. reflexivity.
Defined.

(** X12.  On the reference platform, [deleteFile] of a regular file
    succeeds, the path is gone afterwards, and no other entry changes. *)
Theorem X12_deleteFile_removes_only_that_file
    (fnmatch : pystr -> pystr -> bool) (w : RefFS.fs) (p : pystr)
    (tp : path) (bs : bytes) (t : Z) :
  RefFS.resolve w p = Return tp ->
  RefFS.nodes w !! tp = Some (RefFS.File bs t) ->
  exists w1,
    FileManager.deleteFile (RefFS.runtime fnmatch) p w =
    (Return [(str "success", VBool true);
             (str "deleted", VStr (Path_str tp))], w1) /\
    RefFS.nodes w1 !! tp = None /\
    (forall q, q <> tp -> RefFS.nodes w1 !! q = RefFS.nodes w !! q).
Proof.
  intros Hr Hn. eexists. split; [|split].
  - unfold FileManager.deleteFile. run.
    cbn [resolve exists_ is_dir unlink RefFS.runtime].
    rewrite Hr. unfold RefFS.exists_, RefFS.is_dir, RefFS.unlink.
    rewrite Hn. cbn [negb]. cbv beta. rewrite Hn. cbv beta iota.
    rewrite Hn. reflexivity.
  - cbn. apply lookup_delete_eq.
  - intros q Hq. cbn. by apply lookup_delete_ne.
Qed.

Lemma X12_witness :
  exists w1,
    FileManager.deleteFile Sample.platform (str "/d/a.txt") Sample.tree =
    (Return [(str "success", VBool true);
             (str "deleted", VStr (Path_str [str "d"; str "a.txt"]))], w1) /\
    RefFS.nodes w1 !! [str "d"; str "a.txt"] = None /\
    (forall q, q <> [str "d"; str "a.txt"] ->
               RefFS.nodes w1 !! q = RefFS.nodes Sample.tree !! q).
Proof.
  apply (X12_deleteFile_removes_only_that_file Sample.fnmatch Sample.tree
           (str "/d/a.txt") [str "d"; str "a.txt"] (str "Hello Needle") 2);
    vm_compute; reflexivity.
Defined.

(** X13.  On the reference platform, [listDirectory] of a path that is a
    regular file returns the error result of the failed directory scan,
    and the [listDirectory] tool answers "Directory is empty" for a
    directory without entries. *)
Theorem X13_listDirectory_edge_cases (fnmatch : pystr -> pystr -> bool)
    (w : RefFS.fs) (p : pystr) (tp : path) (n : RefFS.node) :
  RefFS.resolve w p = Return tp ->
  RefFS.nodes w !! tp = Some n ->
  match n with
  | RefFS.File _ _ =>
      FileManager.listDirectory (RefFS.runtime fnmatch) p w =
      (Return (error_result (os_strerror (RefFS.enotdir tp))), w)
  | RefFS.Dir _ =>
      RefFS.children w tp = [] ->
      FileController.listDirectory (RefFS.runtime fnmatch) p w =
      (Return (VStr (str "Directory is empty: " ++ p)), w)
  end.
Proof.
  intros Hr Hn. destruct n as [data t|t].
  - unfold FileManager.listDirectory. run.
    cbn [resolve exists_ iterdir RefFS.runtime]. rewrite Hr.
    unfold RefFS.exists_, RefFS.iterdir. rewrite Hn. cbn [negb]. cbv beta.
    rewrite Hn. reflexivity.
  - intros Hch. unfold FileController.listDirectory. unfold bind at 1.
    rewrite (listDirectory_ref fnmatch w p tp t Hr Hn), Hch.
    reflexivity.
Qed.

Lemma X13_witness :
  FileManager.listDirectory Sample.platform (str "/d/a.txt") Sample.tree =
  (Return (error_result
             (os_strerror (RefFS.enotdir [str "d"; str "a.txt"]))),
   Sample.tree).
Proof.
  apply (X13_listDirectory_edge_cases Sample.fnmatch Sample.tree
           (str "/d/a.txt") [str "d"; str "a.txt"]
           (RefFS.File (str "Hello Needle") 2));
    vm_compute; reflexivity.
Defined.

(** ** Appending *)

Lemma utf8_encode_app c a bc ba :
  utf8_encode c = Some bc -> utf8_encode a = Some ba ->
  utf8_encode (c ++ a) = Some (bc ++ ba).
Proof.
  revert bc. induction c as [|x c IH]; intros bc; simpl.
  - by intros [= <-].
  - destruct (is_scalar x); [|done].
    destruct (utf8_encode c) as [bc'|]; [|done].
    intros [= <-] Ha. rewrite (IH bc' eq_refl Ha), <- app_assoc. done.
Qed.

Section Appending.
Variable fnmatch : pystr -> pystr -> bool.
#[local] Abbreviation R := (RefFS.runtime fnmatch).

(** What a successful [appendFile] does to a file that is there. *)
Lemma appendFile_on_file w w1 p a r tp old t0 :
  RefFS.resolve w p = Return tp ->
  RefFS.nodes w !! tp = Some (RefFS.File old t0) ->
  FileManager.appendFile R p a w = (Return r, w1) ->
  is_success r = true ->
  exists bs t,
    utf8_encode a = Some bs /\
    RefFS.nodes w1 !! tp = Some (RefFS.File (old ++ bs) t) /\
    RefFS.resolve w1 p = Return tp.
Proof.
  intros Hr Hn. unfold FileManager.appendFile. run.
  cbn [resolve mkdir_parents append_bytes RefFS.runtime].
  rewrite Hr. intros Hw Hs.
  pose proof (fun r w' => mkdir_parents_resolve w w' (Path_parent tp) r p tp)
    as Hres.
  pose proof (mkdir_p_preserves (List.length (Path_parent tp)) w
                (Path_parent tp) tp _ Hn) as Hpres.
  fold (RefFS.mkdir_parents w (Path_parent tp)) in Hpres.
  destruct (RefFS.mkdir_parents w (Path_parent tp)) as [[e|[]] wa] eqn:Hmk;
    [by simplify_eq|].
  cbn [snd] in *.
  unfold FileManager.open_append_write, FileManager.str_encode_utf8 in Hw.
  destruct (utf8_encode a) as [bs|] eqn:Hu.
  - unfold cmd, os_call in Hw. cbn [append_bytes RefFS.runtime] in Hw.
    pose proof (put_file_ok wa) as Hok. unfold RefFS.append_bytes in Hw.
    destruct (RefFS.put_file wa tp (fun old => old ++ bs)) as [[e|[]] wb]
      eqn:Hwr; [by simplify_eq|].
    injection Hw as <- <-.
    destruct (Hok wb tp _ Hwr) as [t Ht]. rewrite Hpres in Ht.
    exists bs, t. repeat split; try done.
    eapply put_file_resolve; [exact Hwr|]. eapply Hres; [reflexivity|exact Hr].
  - unfold bind, cmd, raise, os_call in Hw.
    cbn [append_bytes RefFS.runtime] in Hw.
    destruct (RefFS.append_bytes wa tp []) as [[e|[]] wb]; by simplify_eq.
Qed.
End Appending.

(** X14.  On the reference platform: a successful [writeFile(p, c)]
    followed by a successful [appendFile(p, a)] leaves a file that
    [readFile] returns as [c] followed by [a] (for text without carriage
    returns), with [size] the UTF-8 length of the whole. *)
Theorem X14_write_append_read (fnmatch : pystr -> pystr -> bool)
    (w w1 w2 : RefFS.fs) (p c a : pystr) (overwrite : bool) (r1 r2 : dict) :
  str_contains_char 13 (c ++ a) = false ->
  FileManager.writeFile (RefFS.runtime fnmatch) p c overwrite w
  = (Return r1, w1) ->
  is_success r1 = true ->
  FileManager.appendFile (RefFS.runtime fnmatch) p a w1 = (Return r2, w2) ->
  is_success r2 = true ->
  exists bs,
    utf8_encode (c ++ a) = Some bs /\
    FileManager.readFile (RefFS.runtime fnmatch) p w2 =
    (Return [(str "success", VBool true);
             (str "content", VStr (c ++ a));
             (str "size", VInt (Zlength' bs))], w2).
Proof.
  intros Hcr Hw Hs1 Ha Hs2.
  destruct (writeFile_success fnmatch _ _ _ _ _ _ Hw Hs1)
    as (tp & bc & t & Hr & Hc & Hn & Hr1 & _).
  destruct (appendFile_on_file fnmatch _ _ _ _ _ _ _ _ Hr1 Hn Ha Hs2)
    as (ba & t' & Hua & Hn2 & Hr2).
  pose proof (utf8_encode_app _ _ _ _ Hc Hua) as Hall.
  exists (bc ++ ba). split; [exact Hall|].
  rewrite (readFile_file fnmatch w2 p tp (bc ++ ba) t' Hr2 Hn2).
  unfold text_of_bytes.
  rewrite (utf8_decode_encode _ _ Hall), (universal_newlines_no_cr _ Hcr), Hall.
  reflexivity.
Qed.

Lemma X14_witness :
  let R := Sample.platform in
  let w1 := (FileManager.writeFile R (str "/log") (str "one") true
               Sample.bare).2 in
  let w2 := (FileManager.appendFile R (str "/log") [10; 233] w1).2 in
  exists bs,
    utf8_encode (str "one" ++ [10; 233]) = Some bs /\
    FileManager.readFile R (str "/log") w2 =
    (Return [(str "success", VBool true);
             (str "content", VStr (str "one" ++ [10; 233]));
             (str "size", VInt (Zlength' bs))], w2).
Proof.
  cbv zeta.
  apply (X14_write_append_read Sample.fnmatch Sample.bare
           (FileManager.writeFile Sample.platform (str "/log") (str "one")
              true Sample.bare).2
           _ (str "/log") (str "one") [10; 233] true
           [(str "success", VBool true); (str "bytesWritten", VInt 3);
            (str "path", VStr (str "/log"))]
           [(str "success", VBool true); (str "bytesAppended", VInt 3);
            (str "path", VStr (str "/log"))]);
    vm_compute; reflexivity.
Defined.

(** ** A write that cannot be encoded *)

(** X15.  On the reference platform: [writeFile] over an existing file
    with text that UTF-8 cannot represent (a lone surrogate) returns the
    error result with the message of the encoder, which names the
    character refused and its position, and the file is left empty: it
    was truncated when it was opened, before the text was encoded. *)
Theorem X15_unencodable_write_empties_the_file
    (fnmatch : pystr -> pystr -> bool) (w : RefFS.fs) (p c : pystr)
    (tp : path) (old : bytes) (t t' : Z) :
  utf8_encode c = None ->
  RefFS.resolve w p = Return tp ->
  RefFS.nodes w !! tp = Some (RefFS.File old t) ->
  RefFS.nodes w !! Path_parent tp = Some (RefFS.Dir t') ->
  exists w1,
    FileManager.writeFile (RefFS.runtime fnmatch) p c true w =
    (Return (error_result (exn_str (FileManager.encode_error c))), w1) /\
    RefFS.read_bytes w1 tp = inr [].
Proof.
  intros Hu Hr Hn Hpar. eexists. split.
  - unfold FileManager.writeFile. run.
    cbn [resolve exists_ mkdir_parents RefFS.runtime]. rewrite Hr.
    unfold RefFS.exists_. rewrite Hn. cbn [andb negb]. cbv beta.
    unfold RefFS.mkdir_parents.
    rewrite mkdir_p_existing by (unfold RefFS.is_dir_b; by rewrite Hpar).
    unfold FileManager.Path_write_text. rewrite Hu. run.
    cbn [write_bytes RefFS.runtime].
    unfold RefFS.write_bytes, RefFS.put_file. rewrite Hn. reflexivity.
  - unfold RefFS.read_bytes. cbn. by rewrite lookup_insert_eq.
Qed.

(** Writing the lone surrogate U+D800 over /d/a.txt. *)
Lemma X15_witness :
  exists w1,
    FileManager.writeFile Sample.platform (str "/d/a.txt") [55296] true
      Sample.tree =
    (Return (error_result
               (str "'utf-8' codec can't encode character '\ud800' in position 0: surrogates not allowed")),
     w1) /\
    RefFS.read_bytes w1 [str "d"; str "a.txt"] = inr [].
Proof.
  apply (X15_unencodable_write_empties_the_file Sample.fnmatch Sample.tree
           (str "/d/a.txt") [55296] [str "d"; str "a.txt"]
           (str "Hello Needle") 2 1);
    vm_compute; reflexivity.
Defined.

(** ** Copying and moving *)

(** X16.  On the reference platform, after a [copyFile] that succeeded:
    the source was a regular file, it is still there with the same bytes,
    and the destination (the path given, or the entry of the source's name
    inside it when it is a directory) holds those bytes too. *)
Theorem X16_copy_keeps_source_and_content (fnmatch : pystr -> pystr -> bool)
    (w w1 : RefFS.fs) (sourcePath destPath : pystr) (r : dict) :
  FileManager.copyFile (RefFS.runtime fnmatch) sourcePath destPath w
  = (Return r, w1) ->
  is_success r = true ->
  exists source dest bs target,
    RefFS.resolve w sourcePath = Return source /\
    RefFS.resolve w destPath = Return dest /\
    (target = dest \/ target = dest ++ [Path_name source]) /\
    RefFS.read_bytes w source = inr bs /\
    RefFS.read_bytes w1 source = inr bs /\
    RefFS.read_bytes w1 target = inr bs.
Proof.
  unfold FileManager.copyFile. run.
  cbn [resolve exists_ mkdir_parents copy2 RefFS.runtime]. intros H Hs.
  destruct (RefFS.resolve w sourcePath) as [source|e] eqn:Hsrc; [|done].
  destruct (RefFS.resolve w destPath) as [dest|e] eqn:Hdst; [|done].
  unfold RefFS.exists_ in H.
  destruct (RefFS.nodes w !! source) as [n0|] eqn:Hn0;
    cbn [negb] in H; cbv beta iota in H; [|by simplify_eq].
  pose proof (mkdir_p_preserves (List.length (Path_parent dest)) w
                (Path_parent dest) source _ Hn0) as Hpres.
  fold (RefFS.mkdir_parents w (Path_parent dest)) in Hpres.
  destruct (RefFS.mkdir_parents w (Path_parent dest)) as [[e|[]] wa] eqn:Hmk;
    [by simplify_eq|].
  cbn [snd] in Hpres. unfold RefFS.copy2 in H. rewrite Hpres in H.
  set (target := RefFS.into_dir wa source dest) in *.
  assert (Htarget : target = dest \/ target = dest ++ [Path_name source]).
  { unfold target, RefFS.into_dir. destruct (RefFS.is_dir_b wa dest); auto. }
  case_bool_decide as Hsame; [by simplify_eq|].
  destruct n0 as [data t|t]; [|by simplify_eq].
  assert (Hdone : w1 = RefFS.set_nodes wa
                         (<[target := RefFS.File data t]> (RefFS.nodes wa))).
  { destruct (RefFS.nodes wa !! target) as [[]|];
      [by simplify_eq|by simplify_eq|].
    destruct (RefFS.nodes wa !! Path_parent target) as [[]|]; by simplify_eq. }
  exists source, dest, data, target. repeat split; auto.
  - unfold RefFS.read_bytes. by rewrite Hn0.
  - subst w1. unfold RefFS.read_bytes. cbn.
    rewrite lookup_insert_ne by done. by rewrite Hpres.
  - subst w1. unfold RefFS.read_bytes. cbn. by rewrite lookup_insert_eq.
Qed.


Lemma X16_witness :
  exists source dest bs target,
    RefFS.resolve Sample.tree (str "/d/a.txt") = Return source /\
    RefFS.resolve Sample.tree (str "/e") = Return dest /\
    (target = dest \/ target = dest ++ [Path_name source]) /\
    RefFS.read_bytes Sample.tree source = inr bs /\
    RefFS.read_bytes
      (FileManager.copyFile Sample.platform (str "/d/a.txt") (str "/e")
         Sample.tree).2 source = inr bs /\
    RefFS.read_bytes
      (FileManager.copyFile Sample.platform (str "/d/a.txt") (str "/e")
         Sample.tree).2 target = inr bs.
Proof.
  apply (X16_copy_keeps_source_and_content Sample.fnmatch Sample.tree _
           (str "/d/a.txt") (str "/e")
           [(str "success", VBool true);
            (str "copiedFrom", VStr (str "/d/a.txt"));
            (str "copiedTo", VStr (str "/e"))]);
    vm_compute; reflexivity.
Defined.

(** X17.  On the reference platform, after a [moveFile] of a regular file
    that succeeded: the destination (the path given, or the entry of the
    source's name inside it when it is a directory) holds the bytes the
    source had, and the source path, unless it is the destination itself,
    no longer exists. *)
Theorem X17_move_takes_the_file_away (fnmatch : pystr -> pystr -> bool)
    (w w1 : RefFS.fs) (sourcePath destPath : pystr) (r : dict)
    (source : path) (bs : bytes) (t : Z) :
  RefFS.resolve w sourcePath = Return source ->
  RefFS.nodes w !! source = Some (RefFS.File bs t) ->
  FileManager.moveFile (RefFS.runtime fnmatch) sourcePath destPath w
  = (Return r, w1) ->
  is_success r = true ->
  exists dest target,
    RefFS.resolve w destPath = Return dest /\
    (target = dest \/ target = dest ++ [Path_name source]) /\
    RefFS.read_bytes w1 target = inr bs /\
    (target <> source -> RefFS.nodes w1 !! source = None).
Proof.
  intros Hsrc Hn0. unfold FileManager.moveFile. run.
  cbn [resolve exists_ mkdir_parents move RefFS.runtime].
  rewrite Hsrc. intros H Hs.
  destruct (RefFS.resolve w destPath) as [dest|e] eqn:Hdst; [|done].
  unfold RefFS.exists_ in H. rewrite Hn0 in H.
  cbn [negb] in H. cbv beta in H.
  pose proof (mkdir_p_preserves (List.length (Path_parent dest)) w
                (Path_parent dest) source _ Hn0) as Hpres.
  fold (RefFS.mkdir_parents w (Path_parent dest)) in Hpres.
  destruct (RefFS.mkdir_parents w (Path_parent dest)) as [[e|[]] wa] eqn:Hmk;
    [by simplify_eq|].
  cbn [snd] in Hpres. unfold RefFS.move in H. rewrite Hpres in H.
  set (target := RefFS.into_dir wa source dest) in *.
  assert (Htarget : target = dest \/ target = dest ++ [Path_name source]).
  { unfold target, RefFS.into_dir. destruct (RefFS.is_dir_b wa dest); auto. }
  assert (Hnot : RefFS.is_dir_b wa dest && bool_decide (source = dest) = false).
  { apply andb_false_iff. destruct (decide (source = dest)) as [<-|Hne].
    - left. unfold RefFS.is_dir_b. by rewrite Hpres.
    - right. by apply bool_decide_eq_false. }
  rewrite Hnot in H.
  destruct (RefFS.is_dir_b wa dest
            && bool_decide (is_Some (RefFS.nodes wa !! target)));
    [by simplify_eq|].
  assert (Hdone : w1 = RefFS.set_nodes wa
                         (<[target := RefFS.File bs t]>
                            (delete source (RefFS.nodes wa)))).
  { destruct (RefFS.nodes wa !! target) as [[]|];
      [by simplify_eq|by simplify_eq|].
    destruct (RefFS.nodes wa !! Path_parent target) as [[]|]; by simplify_eq. }
  exists dest, target. repeat split; auto.
  - subst w1. unfold RefFS.read_bytes. cbn. by rewrite lookup_insert_eq.
  - intros Hne. subst w1. cbn.
    rewrite lookup_insert_ne by done. apply lookup_delete_eq.
Qed.

Lemma X17_witness :
  exists dest target,
    RefFS.resolve Sample.tree (str "/e/new.txt") = Return dest /\
    (target = dest \/ target = dest ++ [Path_name [str "d"; str "a.txt"]]) /\
    RefFS.read_bytes
      (FileManager.moveFile Sample.platform (str "/d/a.txt")
         (str "/e/new.txt") Sample.tree).2 target
    = inr (str "Hello Needle") /\
    (target <> [str "d"; str "a.txt"] ->
     RefFS.nodes
       (FileManager.moveFile Sample.platform (str "/d/a.txt")
          (str "/e/new.txt") Sample.tree).2 !! [str "d"; str "a.txt"]
     = None).
Proof.
  apply (X17_move_takes_the_file_away Sample.fnmatch Sample.tree _
           (str "/d/a.txt") (str "/e/new.txt")
           [(str "success", VBool true);
            (str "movedFrom", VStr (str "/d/a.txt"));
            (str "movedTo", VStr (str "/e/new.txt"))]
           [str "d"; str "a.txt"] (str "Hello Needle") 2);
    vm_compute; reflexivity.
Defined.

(** ** Every readable file reads *)

(** X18.  On any platform: when the path exists and its bytes can be
    read, [readFile] succeeds whatever the bytes are; the content is
    their text (UTF-8 if they are valid UTF-8, else Latin-1). *)
Theorem X18_readable_file_always_reads {world : Type} (R : Runtime world)
    (w : world) (p : pystr) (tp : path) (bs : bytes) :
  resolve R w p = Return tp ->
  exists_ R w tp = inr true ->
  read_bytes R w tp = inr bs ->
  Forall (fun b => 0 <= b < 256) bs ->
  exists out,
    utf8_encode (text_of_bytes bs) = Some out /\
    FileManager.readFile R p w =
    (Return [(str "success", VBool true);
             (str "content", VStr (text_of_bytes bs));
             (str "size", VInt (Zlength' out))], w).
Proof.
  intros Hr Hex Hb Hbytes.
  destruct (utf8_encode_scalar _ (text_of_bytes_scalar _ Hbytes)) as [out Ho].
  exists out. split; [exact Ho|].
  rewrite (readFile_existing_path R w p tp Hr Hex), Hb, Ho. reflexivity.
Qed.

(** The file /d/c.log holds the single byte 0x81, which is not UTF-8. *)
Lemma X18_witness :
  exists out,
    utf8_encode (text_of_bytes [129]) = Some out /\
    FileManager.readFile Sample.platform (str "/d/c.log") Sample.tree =
    (Return [(str "success", VBool true);
             (str "content", VStr (text_of_bytes [129]));
             (str "size", VInt (Zlength' out))], Sample.tree).
Proof.
  apply (X18_readable_file_always_reads Sample.platform Sample.tree
           (str "/d/c.log") [str "d"; str "c.log"] [129]).
  - vm_compute. reflexivity.
  - vm_compute. reflexivity.
  - vm_compute. reflexivity.
  - constructor; [lia|constructor].
Defined.

(** ** Write then stat *)

Section WriteInfo.
Variable fnmatch : pystr -> pystr -> bool.
#[local] Abbreviation R := (RefFS.runtime fnmatch).

(** The result dict of a successful [writeFile]. *)
Lemma writeFile_success_result w w1 p c ow r :
  FileManager.writeFile R p c ow w = (Return r, w1) ->
  is_success r = true ->
  exists tp bs,
    RefFS.resolve w p = Return tp /\ utf8_encode c = Some bs /\
    r = [(str "success", VBool true);
         (str "bytesWritten", VInt (Zlength' bs));
         (str "path", VStr (Path_str tp))].
Proof.
  unfold FileManager.writeFile. intros H Hs.
  apply bind_returns in H as (tp & w0 & Hr & H). cbv beta in H.
  unfold ask in Hr. cbn [resolve RefFS.runtime] in Hr.
  injection Hr as Hr <-.
  inv_run H; try done.
  unfold ask, FileManager.str_encode_utf8 in Hstep2.
  destruct (utf8_encode c) as [bs|]; [|done].
  injection Hstep2 as <- _. eauto.
Qed.

Lemma getFileInfo_file isoformat w p tp bs t :
  RefFS.resolve w p = Return tp ->
  RefFS.nodes w !! tp = Some (RefFS.File bs t) ->
  FileManager.getFileInfo R isoformat p w =
  (Return [(str "success", VBool true);
           (str "path", VStr (Path_str tp));
           (str "size", VInt (Zlength' bs));
           (str "modified", VStr (isoformat t));
           (str "created", VStr (isoformat t));
           (str "isDir", VBool false);
           (str "isFile", VBool true);
           (str "extension", VStr (Path_suffix tp))], w).
Proof.
  intros Hr Hn. unfold FileManager.getFileInfo. run.
  cbn [resolve exists_ stat is_dir is_file RefFS.runtime]. rewrite Hr.
  unfold RefFS.exists_, RefFS.stat, RefFS.is_dir, RefFS.is_file.
  rewrite Hn. cbn [negb]. cbv beta. rewrite Hn. reflexivity.
Qed.
End WriteInfo.

(** X19.  On the reference platform, after a [writeFile] that succeeded
    and reported [bytesWritten = n] and [path = s]: [getFileInfo] of the
    same path reports a regular file of size [n] at path [s]. *)
Theorem X19_info_after_write (fnmatch : pystr -> pystr -> bool)
    (isoformat : Z -> pystr) (w w1 : RefFS.fs) (p c : pystr)
    (overwrite : bool) (r : dict) :
  FileManager.writeFile (RefFS.runtime fnmatch) p c overwrite w
  = (Return r, w1) ->
  is_success r = true ->
  exists tp n t,
    r = [(str "success", VBool true);
         (str "bytesWritten", VInt n);
         (str "path", VStr (Path_str tp))] /\
    FileManager.getFileInfo (RefFS.runtime fnmatch) isoformat p w1 =
    (Return [(str "success", VBool true);
             (str "path", VStr (Path_str tp));
             (str "size", VInt n);
             (str "modified", VStr (isoformat t));
             (str "created", VStr (isoformat t));
             (str "isDir", VBool false);
             (str "isFile", VBool true);
             (str "extension", VStr (Path_suffix tp))], w1).
Proof.
  intros Hw Hs.
  destruct (writeFile_success fnmatch _ _ _ _ _ _ Hw Hs)
    as (tp & bs & t & Hr & Hu & Hn & Hr1 & _).
  destruct (writeFile_success_result fnmatch _ _ _ _ _ _ Hw Hs)
    as (tp' & bs' & Hr' & Hu' & ->).
  assert (tp' = tp) as -> by congruence.
  assert (bs' = bs) as -> by congruence.
  exists tp, (Zlength' bs), t. split; [reflexivity|].
  by apply getFileInfo_file.
Qed.

Lemma X19_witness :
  exists tp n t,
    [(str "success", VBool true); (str "bytesWritten", VInt 3);
     (str "path", VStr (str "/n/f.txt"))] =
    [(str "success", VBool true); (str "bytesWritten", VInt n);
     (str "path", VStr (Path_str tp))] /\
    FileManager.getFileInfo Sample.platform Sample.iso (str "/n/f.txt")
      (FileManager.writeFile Sample.platform (str "/n/f.txt") (str "one")
         false Sample.bare).2 =
    (Return [(str "success", VBool true);
             (str "path", VStr (Path_str tp));
             (str "size", VInt n);
             (str "modified", VStr (Sample.iso t));
             (str "created", VStr (Sample.iso t));
             (str "isDir", VBool false);
             (str "isFile", VBool true);
             (str "extension", VStr (Path_suffix tp))],
     (FileManager.writeFile Sample.platform (str "/n/f.txt") (str "one")
        false Sample.bare).2).
Proof.
  apply (X19_info_after_write Sample.fnmatch Sample.iso Sample.bare _
           (str "/n/f.txt") (str "one") false
           [(str "success", VBool true); (str "bytesWritten", VInt 3);
            (str "path", VStr (str "/n/f.txt"))]);
    vm_compute; reflexivity.
Defined.

(** ** Finding *)

Section Finding.
Variable fnmatch : pystr -> pystr -> bool.
#[local] Abbreviation R := (RefFS.runtime fnmatch).

Lemma findFiles_loop_ref w ms :
  forall results,
    FileManager.findFiles_loop R ms results w =
    (Return (results ++ (match_entry w <$> ms)), w).
Proof.
  induction ms as [|q ms IH]; intros results.
  - cbn. unfold ret. by rewrite app_nil_r.
  - cbn [FileManager.findFiles_loop]. unfold FileManager.size_if_file.
    run. cbn [is_dir is_file stat RefFS.runtime].
    unfold RefFS.is_dir, RefFS.is_file, RefFS.stat.
    rewrite fmap_cons, cons_middle, app_assoc. unfold match_entry at 1.
    unfold RefFS.is_dir_b. cbv beta.
    destruct (RefFS.nodes w !! q) as [[data t|t]|] eqn:Hq; cbv beta iota;
      rewrite ?Hq; cbn [st_size]; apply IH.
Qed.
End Finding.

(** X20.  On the reference platform, [findFiles] over an existing root
    reports every path the glob yields, in the glob's order, directories
    included: a directory is reported with type "dir" and size 0, a
    regular file with type "file" and its size; [count] is their
    number. *)
Theorem X20_findFiles_reports_every_match
    (fnmatch : pystr -> pystr -> bool) (w : RefFS.fs)
    (pattern p : pystr) (tp : path) (n : RefFS.node) (ms : list path) :
  RefFS.resolve w p = Return tp ->
  RefFS.nodes w !! tp = Some n ->
  RefFS.rglob fnmatch w tp pattern = Return ms ->
  FileManager.findFiles (RefFS.runtime fnmatch) pattern p w =
  (Return [(str "success", VBool true);
           (str "matches", VList (match_entry w <$> ms));
           (str "count", VInt (Z.of_nat (List.length ms)))], w).
Proof.
  intros Hr Hn Hg. unfold FileManager.findFiles.
  unfold bind at 1 2, ask at 1, sys at 1, os_call.
  cbn [resolve exists_ RefFS.runtime]. rewrite Hr.
  unfold RefFS.exists_. rewrite Hn. cbn [negb].
  unfold try_except, bind at 1, ask at 1.
  cbn [rglob RefFS.runtime]. rewrite Hg.
  unfold bind at 1. rewrite findFiles_loop_ref.
  unfold ret. cbn [app]. rewrite length_fmap. reflexivity.
Qed.

(** Everything below /d whose name contains a "b": the directory /d/sub
    and the file /d/b.log. *)
Lemma X20_witness :
  FileManager.findFiles Sample.platform (str "*b*") (str "/d") Sample.tree =
  (Return [(str "success", VBool true);
           (str "matches",
            VList (match_entry Sample.tree <$>
                   [[str "d"; str "sub"]; [str "d"; str "b.log"]]));
           (str "count", VInt 2)], Sample.tree).
Proof.
  apply (X20_findFiles_reports_every_match Sample.fnmatch Sample.tree
           (str "*b*") (str "/d") [str "d"] (RefFS.Dir 1)
           [[str "d"; str "sub"]; [str "d"; str "b.log"]]);
    vm_compute; reflexivity.
Defined.

(** ** Deleting an empty directory *)

(** X21.  On the reference platform, the non-recursive [deleteFolder] of
    a directory without entries succeeds; the directory is gone afterwards
    and no other entry changes. *)
Theorem X21_deleteFolder_of_empty_directory
    (fnmatch : pystr -> pystr -> bool) (w : RefFS.fs) (p : pystr)
    (tp : path) (t : Z) :
  RefFS.resolve w p = Return tp ->
  RefFS.nodes w !! tp = Some (RefFS.Dir t) ->
  RefFS.children w tp = [] ->
  exists w1,
    FileManager.deleteFolder (RefFS.runtime fnmatch) p false w =
    (Return [(str "success", VBool true);
             (str "deleted", VStr (Path_str tp));
             (str "recursive", VBool false)], w1) /\
    RefFS.nodes w1 !! tp = None /\
    (forall q, q <> tp -> RefFS.nodes w1 !! q = RefFS.nodes w !! q).
Proof.
  intros Hr Hn Hch. eexists. split; [|split].
  - unfold FileManager.deleteFolder. run.
    cbn [resolve exists_ is_dir rmdir RefFS.runtime]. rewrite Hr.
    unfold RefFS.exists_, RefFS.is_dir, RefFS.rmdir.
    rewrite Hn. cbn [negb]. cbv beta. rewrite Hn. cbn [negb]. cbv beta iota.
    rewrite Hn, Hch. reflexivity.
  - cbn. apply lookup_delete_eq.
  - intros q Hq. cbn. by apply lookup_delete_ne.
Qed.

Lemma X21_witness :
  exists w1,
    FileManager.deleteFolder Sample.platform (str "/e") false Sample.tree =
    (Return [(str "success", VBool true);
             (str "deleted", VStr (Path_str [str "e"]));
             (str "recursive", VBool false)], w1) /\
    RefFS.nodes w1 !! [str "e"] = None /\
    (forall q, q <> [str "e"] ->
               RefFS.nodes w1 !! q = RefFS.nodes Sample.tree !! q).
Proof.
  apply (X21_deleteFolder_of_empty_directory Sample.fnmatch Sample.tree
           (str "/e") [str "e"] 6);
    vm_compute; reflexivity.
Defined.
